(** * Harp HRM: time ledger, leave ledger, payroll engine and audit trail

    A shallow embedding of the state transformers of the Harp HRM client
    (the handlers of [AdminView], [ManagerView] and [EmployeeView], with the
    small view components that gate them), followed by the properties
    established about them.

    Conventions of the embedding.
    - A JavaScript [number] holding a count of days is a [Z]; a [number]
      holding hours, a rate, a multiplier or an amount of money is an exact
      rational [Q] (the double the program stores is the rounding of that
      rational; rounding is outside the model).
    - An ISO timestamp string is the instant it denotes, in milliseconds
      since the epoch ([Z]): [new Date(iso).getTime()] and
      [new Date(ms).toISOString()] are inverse to each other on instants.
      A calendar day ['YYYY-MM-DD'] and a month ['YYYY-MM'] stay strings.
    - The clock ([Date.now()], [new Date()]) is read once per handler call
      and passed as [now].
    - Arrays are lists; [find], [filter], [map], [some] are the list
      functions of the same name.
    - A string is the sequence of the bytes of its UTF-8 encoding (a
      string with an unpaired surrogate has none and is left out): two
      strings are equal when their bytes are, and a character outside the
      ASCII range is the two to four bytes that encode it.
    - What the JavaScript runtime and date-fns provide (parsing a calendar
      day, start and end of a month, printing a fractional number) is a
      parameter of the development, gathered in [Runtime]. *)

From Stdlib Require Import List String Ascii Bool ZArith QArith Qminmax.
From Stdlib Require Import Lia Permutation DecimalString.
Import ListNotations.

Local Open Scope string_scope.
Local Open Scope list_scope.
Local Open Scope Z_scope.

(** ** JavaScript primitives *)

Infix "^^" := String.append (at level 60, right associativity) : string_scope.

(** Strict equality of two strings. *)
Infix "===" := String.eqb (at level 70, no associativity) : string_scope.

(** An integer inside a template literal. *)
Definition showInt (n : Z) : string := NilZero.string_of_int (Z.to_int n).

(** [x || d] on numbers: [0] is falsy. *)
Definition orElse (x d : Q) : Q := if Qeq_bool x 0 then d else x.

(** [s || d] on optional strings: [undefined] and the empty string are
    falsy. *)
Definition truthy (s : string) : bool :=
  match s with EmptyString => false | String _ _ => true end.

(** The number of a byte. *)
Definition code (c : ascii) : Z := Z.of_N (N_of_ascii c).

(** The white space [String.prototype.trim] strips, the [WhiteSpace] and
    [LineTerminator] of ECMAScript, by the length of its encoding.  One
    byte: U+0009 to U+000D and U+0020. *)
Definition isSpace (c : ascii) : bool :=
  ((9 <=? code c) && (code c <=? 13)) || (code c =? 32).

(** Two bytes: U+00A0 (C2 A0). *)
Definition isSpace2 (c1 c2 : ascii) : bool :=
  (code c1 =? 194) && (code c2 =? 160).

(** Three bytes: U+1680 (E1 9A 80); U+2000 to U+200A (E2 80 80 to 8A);
    U+2028, U+2029 and U+202F (E2 80 A8, A9 and AF); U+205F (E2 81 9F);
    U+3000 (E3 80 80); U+FEFF (EF BB BF). *)
Definition isSpace3 (c1 c2 c3 : ascii) : bool :=
  ((code c1 =? 225) && (code c2 =? 154) && (code c3 =? 128))
  || ((code c1 =? 226) && (code c2 =? 128)
      && (((128 <=? code c3) && (code c3 <=? 138))
          || (code c3 =? 168) || (code c3 =? 169) || (code c3 =? 175)))
  || ((code c1 =? 226) && (code c2 =? 129) && (code c3 =? 159))
  || ((code c1 =? 227) && (code c2 =? 128) && (code c3 =? 128))
  || ((code c1 =? 239) && (code c2 =? 187) && (code c3 =? 191)).

Section Strip.

(** The characters to strip, of one, two and three bytes. *)
Variable one : ascii -> bool.
Variable two : ascii -> ascii -> bool.
Variable three : ascii -> ascii -> ascii -> bool.

(** The bytes open with a character to strip. *)
Definition opens (l : list ascii) : bool :=
  match l with
  | [] => false
  | c1 :: r1 =>
    one c1
    || match r1 with
       | [] => false
       | c2 :: r2 =>
         two c1 c2
         || match r2 with
            | [] => false
            | c3 :: _ => three c1 c2 c3
            end
       end
  end.

(** The bytes without the characters to strip they open with. *)
Fixpoint strip (l : list ascii) : list ascii :=
  match l with
  | [] => []
  | c1 :: r1 =>
    if one c1 then strip r1
    else
      match r1 with
      | [] => l
      | c2 :: r2 =>
        if two c1 c2 then strip r2
        else
          match r2 with
          | [] => l
          | c3 :: r3 => if three c1 c2 c3 then strip r3 else l
          end
      end
  end.

End Strip.

Definition trimStartL (l : list ascii) : list ascii :=
  strip isSpace isSpace2 isSpace3 l.

(** The white space at the end, read from the last byte backwards. *)
Definition trimEndL (l : list ascii) : list ascii :=
  rev
    (strip isSpace (fun c2 c1 => isSpace2 c1 c2)
       (fun c3 c2 c1 => isSpace3 c1 c2 c3) (rev l)).

(** [String.prototype.trim] *)
Definition trim (s : string) : string :=
  string_of_list_ascii (trimEndL (trimStartL (list_ascii_of_string s))).

(** [array.join(', ')]. *)
Fixpoint join (sep : string) (l : list string) : string :=
  match l with
  | [] => ""
  | [x] => x
  | x :: r => x ^^ sep ^^ join sep r
  end.

(** [new Date(iso).getTime()] on a nullable timestamp: [new Date(null)] is
    the epoch. *)
Definition getTime (t : option Z) : Z :=
  match t with Some ms => ms | None => 0 end.

Definition isSome {A} (o : option A) : bool :=
  match o with Some _ => true | None => false end.

Definition orDefault {A} (o : option A) (d : A) : A :=
  match o with Some a => a | None => d end.

(** The key [k] of an object literal, when present. *)
Definition key {A} (k : string) (o : option A) : list string :=
  match o with Some _ => [k] | None => [] end.

(** Comparison of two [Date] objects, [false] as soon as one is invalid. *)
Definition dateGe (a b : option Z) : bool :=
  match a, b with Some x, Some y => y <=? x | _, _ => false end.

Definition dateLe (a b : option Z) : bool :=
  match a, b with Some x, Some y => x <=? y | _, _ => false end.

(** The part of the runtime the handlers call and the repository does not
    define. *)
Record Runtime := {
  (** [new Date('YYYY-MM-DD').getTime()], [None] for an invalid date *)
  parseDate : string -> option Z;
  (** date-fns [startOfMonth] and [endOfMonth], on instants *)
  startOfMonth : Z -> Z;
  endOfMonth : Z -> Z;
  (** a fractional number inside a template literal *)
  showNumber : Q -> string;
  (** [Number.prototype.toFixed(2)] *)
  toFixed2 : Q -> string
}.

(** ** Data model (types/hrm) *)

Inductive MonthlyHourTarget := H40 | H60 | H80 | H100.

Definition targetHours (t : MonthlyHourTarget) : Q :=
  match t with H40 => 40 | H60 => 60 | H80 => 80 | H100 => 100 end.

Definition isMaxTarget (t : MonthlyHourTarget) : bool :=
  match t with H100 => true | _ => false end.

Inductive UserRole := RoleEmployee | RoleManager | RoleAdmin.

Module Employee.
Record t := mk {
  id : string;
  name : string;
  email : string;
  password : string;
  phone : string;
  position : string;
  department : string;
  employmentStartDate : string;
  managerId : option string;
  monthlyHourTarget : MonthlyHourTarget;
  hourlyRate : Q;
  role : UserRole;
  compLeavesEarned : Z;
  compLeavesUsed : Z;
  profilePicture : option string;
  address : option string;
  dateOfBirth : option string;
  emergencyContact : option string
}.

(** [{ ...e, id: v }] *)
Definition withId (v : string) (e : t) : t :=
  mk v (name e) (email e) (password e) (phone e) (position e)
     (department e) (employmentStartDate e) (managerId e)
     (monthlyHourTarget e) (hourlyRate e) (role e) (compLeavesEarned e)
     (compLeavesUsed e) (profilePicture e) (address e) (dateOfBirth e)
     (emergencyContact e).

(** [{ ...e, compLeavesEarned: v }] *)
Definition withCompLeavesEarned (v : Z) (e : t) : t :=
  mk (id e) (name e) (email e) (password e) (phone e) (position e)
     (department e) (employmentStartDate e) (managerId e)
     (monthlyHourTarget e) (hourlyRate e) (role e) v
     (compLeavesUsed e) (profilePicture e) (address e) (dateOfBirth e)
     (emergencyContact e).

(** [{ ...e, compLeavesUsed: v }] *)
Definition withCompLeavesUsed (v : Z) (e : t) : t :=
  mk (id e) (name e) (email e) (password e) (phone e) (position e)
     (department e) (employmentStartDate e) (managerId e)
     (monthlyHourTarget e) (hourlyRate e) (role e) (compLeavesEarned e)
     v (profilePicture e) (address e) (dateOfBirth e)
     (emergencyContact e).

(** [Partial<Employee>]: a field is [Some] when the key is present. *)
Record partial := mkPartial {
  p_id : option string;
  p_name : option string;
  p_email : option string;
  p_password : option string;
  p_phone : option string;
  p_position : option string;
  p_department : option string;
  p_employmentStartDate : option string;
  p_managerId : option (option string);
  p_monthlyHourTarget : option MonthlyHourTarget;
  p_hourlyRate : option Q;
  p_role : option UserRole;
  p_compLeavesEarned : option Z;
  p_compLeavesUsed : option Z;
  p_profilePicture : option (option string);
  p_address : option (option string);
  p_dateOfBirth : option (option string);
  p_emergencyContact : option (option string)
}.

(** [{ ...e, ...u }] *)
Definition merge (e : t) (u : partial) : t :=
  mk (orDefault (p_id u) (id e))
     (orDefault (p_name u) (name e))
     (orDefault (p_email u) (email e))
     (orDefault (p_password u) (password e))
     (orDefault (p_phone u) (phone e))
     (orDefault (p_position u) (position e))
     (orDefault (p_department u) (department e))
     (orDefault (p_employmentStartDate u) (employmentStartDate e))
     (orDefault (p_managerId u) (managerId e))
     (orDefault (p_monthlyHourTarget u) (monthlyHourTarget e))
     (orDefault (p_hourlyRate u) (hourlyRate e))
     (orDefault (p_role u) (role e))
     (orDefault (p_compLeavesEarned u) (compLeavesEarned e))
     (orDefault (p_compLeavesUsed u) (compLeavesUsed e))
     (orDefault (p_profilePicture u) (profilePicture e))
     (orDefault (p_address u) (address e))
     (orDefault (p_dateOfBirth u) (dateOfBirth e))
     (orDefault (p_emergencyContact u) (emergencyContact e)).

(** [Object.keys(u)].  The record does not keep the order in which the
    keys were put in the object: they are listed in the order of the
    interface, which an object built in another order does not have.
    Only the [changes] text of the audit entry of [handleUpdateEmployee]
    is made from it. *)
Definition keys (u : partial) : list string :=
  key "id" (p_id u) ++ key "name" (p_name u) ++ key "email" (p_email u)
   ++ key "password" (p_password u) ++ key "phone" (p_phone u)
   ++ key "position" (p_position u) ++ key "department" (p_department u)
   ++ key "employmentStartDate" (p_employmentStartDate u)
   ++ key "managerId" (p_managerId u)
   ++ key "monthlyHourTarget" (p_monthlyHourTarget u)
   ++ key "hourlyRate" (p_hourlyRate u) ++ key "role" (p_role u)
   ++ key "compLeavesEarned" (p_compLeavesEarned u)
   ++ key "compLeavesUsed" (p_compLeavesUsed u)
   ++ key "profilePicture" (p_profilePicture u)
   ++ key "address" (p_address u) ++ key "dateOfBirth" (p_dateOfBirth u)
   ++ key "emergencyContact" (p_emergencyContact u).
End Employee.

Module BreakLog.
Record t := mk {
  breakIn : Z;
  breakOut : option Z
}.
End BreakLog.

Inductive TimeLogStatus := CheckedIn | CheckedOut | Incomplete.

Module TimeLog.
Record t := mk {
  id : string;
  employeeId : string;
  date : string;
  checkIn : option Z;
  checkOut : option Z;
  breaks : list BreakLog.t;
  totalHours : Q;
  status : TimeLogStatus
}.
End TimeLog.

Inductive TaskStatus := TaskPending | TaskApproved | TaskCommented.

Module Task.
Record t := mk {
  id : string;
  employeeId : string;
  date : string;
  description : string;
  hoursSpent : Q;
  status : TaskStatus;
  managerComment : option string;
  reviewedBy : option string;
  reviewedAt : option Z
}.
End Task.

Inductive LeaveStatus := LeavePending | LeaveApproved | LeaveRejected.

Module LeaveRequest.
Record t := mk {
  id : string;
  employeeId : string;
  startDate : string;
  endDate : string;
  reason : string;
  status : LeaveStatus;
  requestedAt : Z;
  reviewedBy : option string;
  reviewedAt : option Z;
  reviewComment : option string
}.
End LeaveRequest.

Inductive PayrollStatus := PayPending | PayApproved | PayPaid.

Module PayrollEntry.
Record t := mk {
  id : string;
  employeeId : string;
  month : string;
  regularHours : Q;
  overtimeHours : Q;
  regularPay : Q;
  overtimePay : Q;
  totalPay : Q;
  status : PayrollStatus;
  processedBy : option string;
  processedAt : option Z;
  notes : option string
}.

(** [Partial<PayrollEntry>] *)
Record partial := mkPartial {
  p_id : option string;
  p_employeeId : option string;
  p_month : option string;
  p_regularHours : option Q;
  p_overtimeHours : option Q;
  p_regularPay : option Q;
  p_overtimePay : option Q;
  p_totalPay : option Q;
  p_status : option PayrollStatus;
  p_processedBy : option (option string);
  p_processedAt : option (option Z);
  p_notes : option (option string)
}.

(** [{ ...e, ...u }] *)
Definition merge (e : t) (u : partial) : t :=
  mk (orDefault (p_id u) (id e))
     (orDefault (p_employeeId u) (employeeId e))
     (orDefault (p_month u) (month e))
     (orDefault (p_regularHours u) (regularHours e))
     (orDefault (p_overtimeHours u) (overtimeHours e))
     (orDefault (p_regularPay u) (regularPay e))
     (orDefault (p_overtimePay u) (overtimePay e))
     (orDefault (p_totalPay u) (totalPay e))
     (orDefault (p_status u) (status e))
     (orDefault (p_processedBy u) (processedBy e))
     (orDefault (p_processedAt u) (processedAt e))
     (orDefault (p_notes u) (notes e)).

(** [Object.keys(u)], listed in the order of the interface as for
    [Employee.keys]; only the [changes] text of the audit entry of
    [handleUpdatePayroll] is made from it. *)
Definition keys (u : partial) : list string :=
  key "id" (p_id u) ++ key "employeeId" (p_employeeId u)
   ++ key "month" (p_month u) ++ key "regularHours" (p_regularHours u)
   ++ key "overtimeHours" (p_overtimeHours u)
   ++ key "regularPay" (p_regularPay u)
   ++ key "overtimePay" (p_overtimePay u) ++ key "totalPay" (p_totalPay u)
   ++ key "status" (p_status u) ++ key "processedBy" (p_processedBy u)
   ++ key "processedAt" (p_processedAt u) ++ key "notes" (p_notes u).
End PayrollEntry.

Module OvertimeSettings.
Record t := mk {
  employeeId : string;
  overtimeMultiplier : Q
}.
End OvertimeSettings.

Module AuditLog.
Record t := mk {
  id : string;
  timestamp : Z;
  userId : string;
  userName : string;
  action : string;
  entityType : string;
  entityId : string;
  changes : string;
  previousValue : option string;
  newValue : option string
}.
End AuditLog.

Record HRMState := mkState {
  employees : list Employee.t;
  timeLogs : list TimeLog.t;
  tasks : list Task.t;
  leaveRequests : list LeaveRequest.t;
  payrollEntries : list PayrollEntry.t;
  overtimeSettings : list OvertimeSettings.t;
  auditLogs : list AuditLog.t;
  currentUser : option string
}.


(** Splitting a conjunction, and nothing under a quantifier. *)
Ltac conjuncts := repeat match goal with |- _ /\ _ => split end.

(** An updater that ends in [withAudit]: its one entry and what it holds. *)
Ltac audited :=
  simpl; eexists; split;
  [intros prevState; reflexivity | conjuncts; reflexivity].

(** ** State updates (App) *)

(** What a handler does with [onUpdateState]: it either hands over an
    updater, or returns before doing so, possibly after [toast.error]. *)
Inductive Outcome :=
| Updated (updater : HRMState -> HRMState)
| Ignored (toastError : option string).

(** [App.handleUpdateState]: [setState(prev => updater(prev))]. *)
Definition handleUpdateState (o : Outcome) (prevState : HRMState) : HRMState :=
  match o with
  | Updated updater => updater prevState
  | Ignored _ => prevState
  end.

(** A handler of the view rendered from [state], run on that state. *)
Definition perform (handler : HRMState -> Outcome) (state : HRMState)
  : HRMState :=
  handleUpdateState (handler state) state.

Definition succeeded (o : Outcome) : bool :=
  match o with Updated _ => true | Ignored _ => false end.

(** The audit record every handler builds inline. *)
Definition auditEntry (employee : Employee.t) (now : Z)
    (action entityType entityId changes : string) : AuditLog.t :=
  AuditLog.mk ("audit_" ^^ showInt now) now
    (Employee.id employee) (Employee.name employee)
    action entityType entityId changes None None.

(** [{ ...state, auditLogs: [...state.auditLogs, entry] }] *)
Definition withAudit (entry : AuditLog.t) (state : HRMState) : HRMState :=
  mkState (employees state) (timeLogs state) (tasks state)
    (leaveRequests state) (payrollEntries state) (overtimeSettings state)
    (auditLogs state ++ [entry]) (currentUser state).

Definition withEmployees (v : list Employee.t) (state : HRMState) : HRMState :=
  mkState v (timeLogs state) (tasks state)
    (leaveRequests state) (payrollEntries state) (overtimeSettings state)
    (auditLogs state) (currentUser state).

Definition withTimeLogs (v : list TimeLog.t) (state : HRMState) : HRMState :=
  mkState (employees state) v (tasks state)
    (leaveRequests state) (payrollEntries state) (overtimeSettings state)
    (auditLogs state) (currentUser state).

Definition withTasks (v : list Task.t) (state : HRMState) : HRMState :=
  mkState (employees state) (timeLogs state) v
    (leaveRequests state) (payrollEntries state) (overtimeSettings state)
    (auditLogs state) (currentUser state).

Definition withLeaveRequests (v : list LeaveRequest.t) (state : HRMState)
  : HRMState :=
  mkState (employees state) (timeLogs state) (tasks state)
    v (payrollEntries state) (overtimeSettings state)
    (auditLogs state) (currentUser state).

Definition withPayrollEntries (v : list PayrollEntry.t) (state : HRMState)
  : HRMState :=
  mkState (employees state) (timeLogs state) (tasks state)
    (leaveRequests state) v (overtimeSettings state)
    (auditLogs state) (currentUser state).

Definition withOvertimeSettings (v : list OvertimeSettings.t)
    (state : HRMState) : HRMState :=
  mkState (employees state) (timeLogs state) (tasks state)
    (leaveRequests state) (payrollEntries state) v
    (auditLogs state) (currentUser state).


(** ** AdminView *)

Module AdminView.
Section Handlers.

(** The component's props: the logged-in administrator; the runtime. *)
Variable rt : Runtime.
Variable employee : Employee.t.

Definition handleCreateEmployee (now : Z) (newEmployee : Employee.t)
  : Outcome :=
  let id := "emp_" ^^ showInt now in
  let employeeWithId := Employee.withId id newEmployee in
  Updated (fun state =>
    withAudit
      (auditEntry employee now "Employee Created" "Employee" id
         ("Created employee: " ^^ Employee.name newEmployee))
      (withOvertimeSettings
         (overtimeSettings state ++
          [OvertimeSettings.mk id
             (if isMaxTarget (Employee.monthlyHourTarget newEmployee)
              then 5 # 4 else 1%Q)])
         (withEmployees (employees state ++ [employeeWithId]) state))).

Definition handleUpdateEmployee (now : Z) (employeeId : string)
    (updates : Employee.partial) : Outcome :=
  Updated (fun state =>
    withAudit
      (auditEntry employee now "Employee Updated" "Employee" employeeId
         ("Updated fields: " ^^ join ", " (Employee.keys updates)))
      (withEmployees
         (map (fun emp =>
                 if Employee.id emp === employeeId
                 then Employee.merge emp updates else emp)
              (employees state))
         state)).

Definition handleDeleteEmployee (now : Z) (employeeId : string)
    (state : HRMState) : Outcome :=
  match find (fun e => Employee.id e === employeeId) (employees state) with
  | None => Ignored None
  | Some emp =>
    Updated (fun state =>
      withAudit
        (auditEntry employee now "Employee Deleted" "Employee" employeeId
           ("Deleted employee: " ^^ Employee.name emp))
        (mkState
           (filter (fun e => negb (Employee.id e === employeeId))
              (employees state))
           (filter (fun t => negb (TimeLog.employeeId t === employeeId))
              (timeLogs state))
           (filter (fun t => negb (Task.employeeId t === employeeId))
              (tasks state))
           (filter (fun l => negb (LeaveRequest.employeeId l === employeeId))
              (leaveRequests state))
           (filter (fun p => negb (PayrollEntry.employeeId p === employeeId))
              (payrollEntries state))
           (filter
              (fun o => negb (OvertimeSettings.employeeId o === employeeId))
              (overtimeSettings state))
           (auditLogs state) (currentUser state)))
  end.

Definition handleGrantCompLeave (now : Z) (employeeId : string) (days : Z)
  : Outcome :=
  Updated (fun state =>
    withAudit
      (auditEntry employee now "Comp Leave Granted" "Employee" employeeId
         ("Granted " ^^ showInt days ^^ " comp leave(s)"))
      (withEmployees
         (map (fun emp =>
                 if Employee.id emp === employeeId
                 then Employee.withCompLeavesEarned
                        (Employee.compLeavesEarned emp + days) emp
                 else emp)
              (employees state))
         state)).

Definition handleUpdateOvertimeSettings (now : Z) (employeeId : string)
    (multiplier : Q) : Outcome :=
  Updated (fun state =>
    let existingSettings :=
      find (fun s => OvertimeSettings.employeeId s === employeeId)
        (overtimeSettings state) in
    let updatedSettings :=
      match existingSettings with
      | Some _ =>
        map (fun s =>
               if OvertimeSettings.employeeId s === employeeId
               then OvertimeSettings.mk (OvertimeSettings.employeeId s)
                      multiplier
               else s)
          (overtimeSettings state)
      | None =>
        overtimeSettings state ++ [OvertimeSettings.mk employeeId multiplier]
      end in
    withAudit
      (auditEntry employee now "Overtime Settings Updated"
         "OvertimeSettings" employeeId
         ("Overtime multiplier set to " ^^ showNumber rt multiplier ^^ "x"))
      (withOvertimeSettings updatedSettings state)).

(** The bounds of the month, [startOfMonth(new Date(month + '-01'))] and
    [endOfMonth(monthStart)]. *)
Definition monthStart (month : string) : option Z :=
  option_map (startOfMonth rt) (parseDate rt (month ^^ "-01")).

Definition monthEnd (month : string) : option Z :=
  option_map (endOfMonth rt) (monthStart month).

(** The filter of [handleProcessPayroll]: the logs of [emp] dated inside
    the month that have a check-out. *)
Definition monthLogs (month : string) (state : HRMState) (emp : Employee.t)
  : list TimeLog.t :=
  filter
    (fun log =>
       (TimeLog.employeeId log === Employee.id emp)
       && dateGe (parseDate rt (TimeLog.date log)) (monthStart month)
       && dateLe (parseDate rt (TimeLog.date log)) (monthEnd month)
       && isSome (TimeLog.checkOut log))
    (timeLogs state).

(** The body of the [forEach] of [handleProcessPayroll] for one employee:
    the entry pushed, none when one exists for the month. *)
Definition payrollEntryFor (now : Z) (month : string) (state : HRMState)
    (emp : Employee.t) : list PayrollEntry.t :=
  let totalHours :=
    fold_left (fun sum log => (sum + TimeLog.totalHours log)%Q)
      (monthLogs month state emp) 0%Q in
  let target := targetHours (Employee.monthlyHourTarget emp) in
  let compLeavesAvailable :=
    (Employee.compLeavesEarned emp - Employee.compLeavesUsed emp)%Z in
  let regularHours := Qmin totalHours target in
  let overtimeHours :=
    if negb (Qle_bool totalHours target) && (compLeavesAvailable <=? 0)%Z
    then (totalHours - target)%Q
    else 0%Q in
  let overtimeSettings :=
    find (fun s => OvertimeSettings.employeeId s === Employee.id emp)
      (overtimeSettings state) in
  let overtimeMultiplier :=
    match overtimeSettings with
    | Some s => orElse (OvertimeSettings.overtimeMultiplier s) 1%Q
    | None => 1%Q
    end in
  let regularPay := (regularHours * Employee.hourlyRate emp)%Q in
  let overtimePay :=
    (overtimeHours * Employee.hourlyRate emp * overtimeMultiplier)%Q in
  let totalPay := (regularPay + overtimePay)%Q in
  let existing :=
    find (fun p =>
            (PayrollEntry.employeeId p === Employee.id emp)
            && (PayrollEntry.month p === month))
      (payrollEntries state) in
  match existing with
  | Some _ => []
  | None =>
    [PayrollEntry.mk
       ("payroll_" ^^ showInt now ^^ "_" ^^ Employee.id emp)
       (Employee.id emp) month regularHours overtimeHours
       regularPay overtimePay totalPay PayPending
       (Some (Employee.id employee)) (Some now) None]
  end.

(** The entries collected by the [forEach] over [state.employees]. *)
Definition newPayrollEntries (now : Z) (month : string) (state : HRMState)
  : list PayrollEntry.t :=
  flat_map (payrollEntryFor now month state) (employees state).

Definition handleProcessPayroll (now : Z) (month : string)
    (state : HRMState) : Outcome :=
  let newPayrollEntries := newPayrollEntries now month state in
  match newPayrollEntries with
  | [] => Ignored (Some "Payroll already processed for this month")
  | _ :: _ =>
    Updated (fun state =>
      withAudit
        (auditEntry employee now "Payroll Processed" "Payroll" month
           ("Processed payroll for "
            ^^ showInt (Z.of_nat (List.length newPayrollEntries))
            ^^ " employees"))
        (withPayrollEntries (payrollEntries state ++ newPayrollEntries)
           state))
  end.

Definition handleUpdatePayroll (now : Z) (payrollId : string)
    (updates : PayrollEntry.partial) : Outcome :=
  Updated (fun state =>
    withAudit
      (auditEntry employee now "Payroll Updated" "Payroll" payrollId
         ("Updated: " ^^ join ", " (PayrollEntry.keys updates)))
      (withPayrollEntries
         (map (fun entry =>
                 if PayrollEntry.id entry === payrollId
                 then PayrollEntry.merge entry updates else entry)
              (payrollEntries state))
         state)).

End Handlers.
End AdminView.


(** ** ManagerView *)

Module ManagerView.
Section Handlers.

(** The component's prop: the logged-in manager. *)
Variable employee : Employee.t.

Definition teamMembers (state : HRMState) : list Employee.t :=
  filter
    (fun emp =>
       match Employee.managerId emp with
       | Some m => m === Employee.id employee
       | None => false
       end)
    (employees state).

Definition teamLeaveRequests (state : HRMState) : list LeaveRequest.t :=
  filter
    (fun req =>
       existsb (fun tm => Employee.id tm === LeaveRequest.employeeId req)
         (teamMembers state))
    (leaveRequests state).

(** A truthy optional string: present and not empty. *)
Definition given (s : option string) : bool :=
  match s with Some c => truthy c | None => false end.

Definition handleApproveTask (now : Z) (taskId : string)
    (withComment : option string) : Outcome :=
  Updated (fun state =>
    withAudit
      (auditEntry employee now "Task Approved" "Task" taskId
         (if given withComment
          then "Approved with comment: " ^^ orDefault withComment ""
          else "Task approved"))
      (withTasks
         (map (fun task =>
                 if Task.id task === taskId
                 then Task.mk (Task.id task) (Task.employeeId task)
                        (Task.date task) (Task.description task)
                        (Task.hoursSpent task) TaskApproved withComment
                        (Some (Employee.id employee)) (Some now)
                 else task)
              (tasks state))
         state)).

Definition handleCommentTask (now : Z) (taskId : string)
    (commentText : string) : Outcome :=
  if negb (truthy (trim commentText)) then Ignored None
  else
  Updated (fun state =>
    withAudit
      (auditEntry employee now "Task Reviewed" "Task" taskId
         ("Comment added: " ^^ commentText))
      (withTasks
         (map (fun task =>
                 if Task.id task === taskId
                 then Task.mk (Task.id task) (Task.employeeId task)
                        (Task.date task) (Task.description task)
                        (Task.hoursSpent task) TaskCommented
                        (Some commentText)
                        (Some (Employee.id employee)) (Some now)
                 else task)
              (tasks state))
         state)).

Definition handleApproveLeave (now : Z) (leaveId : string) (approved : bool)
    (comment : option string) (state : HRMState) : Outcome :=
  match find (fun l => LeaveRequest.id l === leaveId) (leaveRequests state)
  with
  | None => Ignored None
  | Some leave =>
    match find (fun e => Employee.id e === LeaveRequest.employeeId leave)
            (employees state)
    with
    | None => Ignored None
    | Some emp =>
      Updated (fun state =>
        let updatedLeaveRequests :=
          map (fun req =>
                 if LeaveRequest.id req === leaveId
                 then LeaveRequest.mk (LeaveRequest.id req)
                        (LeaveRequest.employeeId req)
                        (LeaveRequest.startDate req)
                        (LeaveRequest.endDate req)
                        (LeaveRequest.reason req)
                        (if approved then LeaveApproved else LeaveRejected)
                        (LeaveRequest.requestedAt req)
                        (Some (Employee.id employee)) (Some now) comment
                 else req)
            (leaveRequests state) in
        let updatedEmployees :=
          if approved
          then map (fun e =>
                      if Employee.id e === LeaveRequest.employeeId leave
                      then Employee.withCompLeavesUsed
                             (Employee.compLeavesUsed e + 1) e
                      else e)
                 (employees state)
          else employees state in
        withAudit
          (auditEntry employee now
             (if approved then "Leave Approved" else "Leave Rejected")
             "LeaveRequest" leaveId
             ("Leave " ^^ (if approved then "approved" else "rejected")
              ^^ (if given comment then ": " ^^ orDefault comment ""
                  else "")))
          (withEmployees updatedEmployees
             (withLeaveRequests updatedLeaveRequests state)))
    end
  end.

Definition handleGrantCompLeave (now : Z) (employeeId : string) (days : Z)
  : Outcome :=
  Updated (fun state =>
    withAudit
      (auditEntry employee now "Comp Leave Granted" "Employee" employeeId
         ("Granted " ^^ showInt days ^^ " comp leave(s)"))
      (withEmployees
         (map (fun emp =>
                 if Employee.id emp === employeeId
                 then Employee.withCompLeavesEarned
                        (Employee.compLeavesEarned emp + days) emp
                 else emp)
              (employees state))
         state)).

End Handlers.
End ManagerView.

(** ** TeamMembersView: the hours of the month shown to the manager *)

Module TeamMembersView.

(** [getMonthlyHours]; [thisMonth] is [format(new Date(), 'yyyy-MM')]. *)
Definition getMonthlyHours (thisMonth : string) (state : HRMState)
    (employeeId : string) : Q :=
  fold_left (fun sum log => (sum + TimeLog.totalHours log)%Q)
    (filter
       (fun log =>
          (TimeLog.employeeId log === employeeId)
          && String.prefix thisMonth (TimeLog.date log))
       (timeLogs state))
    0%Q.

End TeamMembersView.

(** ** LeaveReviewView

    The manager's list of leave requests.  A row carries a [Review] button
    only while its request is pending; the button selects the request, and
    the dialog's [Approve] and [Reject] buttons call [handleApprove]. *)

Module LeaveReviewView.

Definition isPending (request : LeaveRequest.t) : bool :=
  match LeaveRequest.status request with
  | LeavePending => true
  | _ => false
  end.

(** A click on the [Review] button of the row of the [row]-th request of
    the [leaveRequests] prop: the new [selectedLeave], nothing when that row
    has no button. *)
Definition clickReview (leaveRequests : list LeaveRequest.t) (row : nat)
  : option LeaveRequest.t :=
  match nth_error leaveRequests row with
  | Some request => if isPending request then Some request else None
  | None => None
  end.

(** [comment.trim() || undefined] *)
Definition commentArg (comment : string) : option string :=
  if truthy (trim comment) then Some (trim comment) else None.

(** [handleApprove], with [onApprove] the handler of the manager's view. *)
Definition handleApprove
    (onApprove : string -> bool -> option string -> HRMState -> Outcome)
    (selectedLeave : option LeaveRequest.t) (comment : string)
    (approved : bool) (state : HRMState) : Outcome :=
  match selectedLeave with
  | Some sel => onApprove (LeaveRequest.id sel) approved (commentArg comment)
                  state
  | None => Ignored None
  end.

(** A decision taken through the view: review the row, then approve or
    reject in the dialog. *)
Definition decide (employee : Employee.t) (now : Z) (row : nat)
    (approved : bool) (comment : string) (state : HRMState) : Outcome :=
  handleApprove (ManagerView.handleApproveLeave employee now)
    (clickReview (ManagerView.teamLeaveRequests employee state) row)
    comment approved state.

End LeaveReviewView.


(** ** EmployeeView *)

(** [l.map(x => x === target ? f(x) : x)] for a [target] obtained as
    [l.find(p)]: objects are compared by identity, so the one element
    rewritten is the first that satisfies [p]. *)
Fixpoint updateFirst {A} (p : A -> bool) (f : A -> A) (l : list A) : list A :=
  match l with
  | [] => []
  | x :: r => if p x then f x :: r else x :: updateFirst p f r
  end.

Module EmployeeView.
Section Handlers.

(** The runtime; the component's prop, the logged-in employee; the day the
    view was mounted, [format(currentDate, 'yyyy-MM-dd')]. *)
Variable rt : Runtime.
Variable employee : Employee.t.
Variable today : string.

Definition isToday (log : TimeLog.t) : bool :=
  (TimeLog.employeeId log === Employee.id employee)
  && (TimeLog.date log === today).

Definition todayTimeLog (state : HRMState) : option TimeLog.t :=
  find isToday (timeLogs state).

Definition myTasks (state : HRMState) : list Task.t :=
  filter
    (fun task =>
       (Task.employeeId task === Employee.id employee)
       && (Task.date task === today))
    (tasks state).

Definition handleCheckIn (now : Z) (state : HRMState) : Outcome :=
  match todayTimeLog state with
  | Some _ => Ignored (Some "Already checked in today")
  | None =>
    Updated (fun state =>
      let newLog :=
        TimeLog.mk ("log_" ^^ showInt now) (Employee.id employee) today
          (Some now) None [] 0%Q CheckedIn in
      withAudit
        (auditEntry employee now "Check In" "TimeLog" (TimeLog.id newLog)
           "Employee checked in")
        (withTimeLogs (timeLogs state ++ [newLog]) state))
  end.

(** The time one break takes off the day, an open break running until
    the check-out. *)
Definition breakMs (checkOutTimeObj : Z) (breakLog : BreakLog.t) : Z :=
  let breakInTime := BreakLog.breakIn breakLog in
  let breakOutTime :=
    match BreakLog.breakOut breakLog with
    | Some t => t
    | None => checkOutTimeObj
    end in
  breakOutTime - breakInTime.

(** [totalMs] after the [forEach] over the breaks. *)
Definition workedMs (checkOutTimeObj : Z) (log : TimeLog.t) : Z :=
  fold_left (fun totalMs breakLog => totalMs - breakMs checkOutTimeObj breakLog)
    (TimeLog.breaks log)
    (checkOutTimeObj - getTime (TimeLog.checkIn log)).

(** [Math.max(0, totalMs / (1000 * 60 * 60))] *)
Definition hoursOfMs (totalMs : Z) : Q :=
  Qmax 0 (inject_Z totalMs / inject_Z (1000 * 60 * 60)).

Definition handleCheckOut (now : Z) (state : HRMState) : Outcome :=
  match todayTimeLog state with
  | None => Ignored (Some "Invalid check-out attempt")
  | Some todayTimeLog =>
    if isSome (TimeLog.checkOut todayTimeLog)
    then Ignored (Some "Invalid check-out attempt")
    else
    match myTasks state with
    | [] => Ignored (Some "Please add your tasks before checking out")
    | _ :: _ =>
      Updated (fun state =>
        let checkOutTime := now in
        let totalHours := hoursOfMs (workedMs checkOutTime todayTimeLog) in
        let updatedTimeLogs :=
          map (fun log =>
                 if TimeLog.id log === TimeLog.id todayTimeLog
                 then TimeLog.mk (TimeLog.id log) (TimeLog.employeeId log)
                        (TimeLog.date log) (TimeLog.checkIn log)
                        (Some checkOutTime) (TimeLog.breaks log)
                        totalHours CheckedOut
                 else log)
            (timeLogs state) in
        withAudit
          (auditEntry employee now "Check Out" "TimeLog"
             (TimeLog.id todayTimeLog)
             ("Employee checked out. Total hours: "
              ^^ toFixed2 rt totalHours))
          (withTimeLogs updatedTimeLogs state))
    end
  end.

Definition isOpen (b : BreakLog.t) : bool :=
  negb (isSome (BreakLog.breakOut b)).

(** [{ ...log, breaks: v }] *)
Definition withBreaks (v : list BreakLog.t) (log : TimeLog.t) : TimeLog.t :=
  TimeLog.mk (TimeLog.id log) (TimeLog.employeeId log) (TimeLog.date log)
    (TimeLog.checkIn log) (TimeLog.checkOut log) v (TimeLog.totalHours log)
    (TimeLog.status log).

Definition handleBreakIn (now : Z) (state : HRMState) : Outcome :=
  match todayTimeLog state with
  | None => Ignored (Some "Invalid break attempt")
  | Some todayTimeLog =>
    if isSome (TimeLog.checkOut todayTimeLog)
    then Ignored (Some "Invalid break attempt")
    else if existsb isOpen (TimeLog.breaks todayTimeLog)
    then Ignored (Some "Already on break")
    else
      Updated (fun state =>
        let updatedTimeLogs :=
          map (fun log =>
                 if TimeLog.id log === TimeLog.id todayTimeLog
                 then withBreaks
                        (TimeLog.breaks log ++ [BreakLog.mk now None]) log
                 else log)
            (timeLogs state) in
        withAudit
          (auditEntry employee now "Break Start" "TimeLog"
             (TimeLog.id todayTimeLog) "Employee started break")
          (withTimeLogs updatedTimeLogs state))
  end.

(** The updater compares each break with [currentBreak] by identity: the
    break closed is the first open one of today's log, itself the first
    log of the day in [state.timeLogs]. *)
Definition handleBreakOut (now : Z) (state : HRMState) : Outcome :=
  match todayTimeLog state with
  | None => Ignored None
  | Some todayTimeLog =>
    match find isOpen (TimeLog.breaks todayTimeLog) with
    | None => Ignored (Some "No active break")
    | Some currentBreak =>
      Updated (fun state =>
        let updatedTimeLogs :=
          updateFirst isToday
            (fun log =>
               withBreaks
                 (updateFirst isOpen
                    (fun b => BreakLog.mk (BreakLog.breakIn b) (Some now))
                    (TimeLog.breaks log))
                 log)
            (timeLogs state) in
        withAudit
          (auditEntry employee now "Break End" "TimeLog"
             (TimeLog.id todayTimeLog) "Employee ended break")
          (withTimeLogs updatedTimeLogs state))
    end
  end.

Definition handleAddTask (now : Z) (description : string) (hours : Q)
  : Outcome :=
  let newTask :=
    Task.mk ("task_" ^^ showInt now) (Employee.id employee) today
      description hours TaskPending None None None in
  Updated (fun state =>
    withAudit
      (auditEntry employee now "Task Created" "Task" (Task.id newTask)
         ("Task added: " ^^ description ^^ " (" ^^ showNumber rt hours
          ^^ " hrs)"))
      (withTasks (tasks state ++ [newTask]) state)).

Definition handleDeleteTask (now : Z) (taskId : string) (state : HRMState)
  : Outcome :=
  match find (fun t => Task.id t === taskId) (tasks state) with
  | None => Ignored None
  | Some task =>
    Updated (fun state =>
      withAudit
        (auditEntry employee now "Task Deleted" "Task" taskId
           ("Task deleted: " ^^ Task.description task))
        (withTasks
           (filter (fun t => negb (Task.id t === taskId)) (tasks state))
           state))
  end.

Definition handleRequestLeave (now : Z) (startDate endDate reason : string)
  : Outcome :=
  let newRequest :=
    LeaveRequest.mk ("leave_" ^^ showInt now) (Employee.id employee)
      startDate endDate reason LeavePending now None None None in
  Updated (fun state =>
    withAudit
      (auditEntry employee now "Leave Request Created" "LeaveRequest"
         (LeaveRequest.id newRequest)
         ("Leave requested: " ^^ startDate ^^ " to " ^^ endDate))
      (withLeaveRequests (leaveRequests state ++ [newRequest]) state)).

End Handlers.
End EmployeeView.

(** ** LeaveManagementEmployee *)

Module LeaveManagementEmployee.

(** [handleSubmit] of the request dialog, with [onRequestLeave] the handler
    of the employee's view. *)
Definition handleSubmit (onRequestLeave : string -> string -> string -> Outcome)
    (startDate endDate reason : string) : Outcome :=
  if truthy startDate && truthy endDate && truthy (trim reason)
  then onRequestLeave startDate endDate (trim reason)
  else Ignored None.

(** A leave request entered in the dialog of the employee's view. *)
Definition requestLeave (employee : Employee.t) (now : Z)
    (startDate endDate reason : string) : Outcome :=
  handleSubmit (EmployeeView.handleRequestLeave employee now)
    startDate endDate reason.

End LeaveManagementEmployee.


(** ** The mutating operations, as one type

    Every handler that reaches [onUpdateState], with the arguments it is
    called with; [handlerOf] dispatches to the handler itself. *)

Inductive Operation :=
| CheckIn
| CheckOut
| BreakStart
| BreakEnd
| TaskAdd (description : string) (hours : Q)
| TaskDelete (taskId : string)
| TaskApprove (taskId : string) (withComment : option string)
| TaskComment (taskId : string) (commentText : string)
| LeaveRequested (startDate endDate reason : string)
| LeaveDecision (leaveId : string) (approved : bool) (comment : option string)
| EmployeeCreate (newEmployee : Employee.t)
| EmployeeUpdate (employeeId : string) (updates : Employee.partial)
| EmployeeDelete (employeeId : string)
| AdminCompLeaveGrant (employeeId : string) (days : Z)
| ManagerCompLeaveGrant (employeeId : string) (days : Z)
| OvertimeSettingsUpdate (employeeId : string) (multiplier : Q)
| PayrollProcess (month : string)
| PayrollEdit (payrollId : string) (updates : PayrollEntry.partial).

Section Operations.

Variable rt : Runtime.

(** The acting user, the day of the view and the reading of the clock. *)
Variable employee : Employee.t.
Variable today : string.
Variable now : Z.

Definition handlerOf (op : Operation) : HRMState -> Outcome :=
  match op with
  | CheckIn => EmployeeView.handleCheckIn employee today now
  | CheckOut => EmployeeView.handleCheckOut rt employee today now
  | BreakStart => EmployeeView.handleBreakIn employee today now
  | BreakEnd => EmployeeView.handleBreakOut employee today now
  | TaskAdd description hours =>
    fun _ => EmployeeView.handleAddTask rt employee today now description hours
  | TaskDelete taskId => EmployeeView.handleDeleteTask employee now taskId
  | TaskApprove taskId withComment =>
    fun _ => ManagerView.handleApproveTask employee now taskId withComment
  | TaskComment taskId commentText =>
    fun _ => ManagerView.handleCommentTask employee now taskId commentText
  | LeaveRequested startDate endDate reason =>
    fun _ => EmployeeView.handleRequestLeave employee now startDate endDate
               reason
  | LeaveDecision leaveId approved comment =>
    ManagerView.handleApproveLeave employee now leaveId approved comment
  | EmployeeCreate newEmployee =>
    fun _ => AdminView.handleCreateEmployee employee now newEmployee
  | EmployeeUpdate employeeId updates =>
    fun _ => AdminView.handleUpdateEmployee employee now employeeId updates
  | EmployeeDelete employeeId =>
    AdminView.handleDeleteEmployee employee now employeeId
  | AdminCompLeaveGrant employeeId days =>
    fun _ => AdminView.handleGrantCompLeave employee now employeeId days
  | ManagerCompLeaveGrant employeeId days =>
    fun _ => ManagerView.handleGrantCompLeave employee now employeeId days
  | OvertimeSettingsUpdate employeeId multiplier =>
    fun _ => AdminView.handleUpdateOvertimeSettings rt employee now employeeId
               multiplier
  | PayrollProcess month => AdminView.handleProcessPayroll rt employee now month
  | PayrollEdit payrollId updates =>
    fun _ => AdminView.handleUpdatePayroll employee now payrollId updates
  end.

(** The id of the entity an operation is about: the record it creates,
    the record it is given, the day's time log, or the month processed. *)
Definition affectedEntity (op : Operation) (state : HRMState) : string :=
  match op with
  | CheckIn => "log_" ^^ showInt now
  | CheckOut | BreakStart | BreakEnd =>
    match EmployeeView.todayTimeLog employee today state with
    | Some log => TimeLog.id log
    | None => ""
    end
  | TaskAdd _ _ => "task_" ^^ showInt now
  | TaskDelete taskId | TaskApprove taskId _ | TaskComment taskId _ => taskId
  | LeaveRequested _ _ _ => "leave_" ^^ showInt now
  | LeaveDecision leaveId _ _ => leaveId
  | EmployeeCreate _ => "emp_" ^^ showInt now
  | EmployeeUpdate employeeId _ | EmployeeDelete employeeId
  | AdminCompLeaveGrant employeeId _ | ManagerCompLeaveGrant employeeId _
  | OvertimeSettingsUpdate employeeId _ => employeeId
  | PayrollProcess month => month
  | PayrollEdit payrollId _ => payrollId
  end.

End Operations.

(** One call of a handler: who acts, on which day, at what time, doing
    what. *)
Record Call := mkCall {
  actor : Employee.t;
  day : string;
  clock : Z;
  operation : Operation
}.

Definition handlerOfCall (rt : Runtime) (c : Call) : HRMState -> Outcome :=
  handlerOf rt (actor c) (day c) (clock c) (operation c).

(** The calls run one after the other, each on the state the previous one
    left. *)
Definition performAll (rt : Runtime) (calls : list Call) (state : HRMState)
  : HRMState :=
  fold_left (fun s c => perform (handlerOfCall rt c) s) calls state.

(** How many of the calls reach [onUpdateState]. *)
Fixpoint successes (rt : Runtime) (calls : list Call) (state : HRMState)
  : nat :=
  match calls with
  | [] => 0%nat
  | c :: r =>
    ((if succeeded (handlerOfCall rt c state) then 1 else 0)
     + successes rt r (perform (handlerOfCall rt c) state))%nat
  end.


(** ** The runtime in the UTC time zone

    Calendar days are parsed as midnight UTC, as [new Date('YYYY-MM-DD')]
    does in every zone, and months are cut in UTC as date-fns does on a
    machine whose zone is UTC.  Numbers are printed with two decimals. *)

Module Utc.

Definition digit (c : ascii) : option Z :=
  let n := Z.of_nat (nat_of_ascii c) in
  if (48 <=? n) && (n <=? 57) then Some (n - 48) else None.

Fixpoint number (acc : Z) (l : list ascii) : option Z :=
  match l with
  | [] => Some acc
  | c :: r =>
    match digit c with
    | Some d => number (acc * 10 + d) r
    | None => None
    end
  end.

Definition msPerDay : Z := 24 * 60 * 60 * 1000.

(** Days from 1970-01-01 to the civil date [y]-[m]-[d]. *)
Definition daysFromCivil (y m d : Z) : Z :=
  let y := if m <=? 2 then y - 1 else y in
  let era := y / 400 in
  let yoe := y - era * 400 in
  let doy := (153 * (if 2 <? m then m - 3 else m + 9) + 2) / 5 + d - 1 in
  let doe := yoe * 365 + yoe / 4 - yoe / 100 + doy in
  era * 146097 + doe - 719468.

(** The year and month of the day [z] days after 1970-01-01. *)
Definition yearMonthOfDays (z : Z) : Z * Z :=
  let z := z + 719468 in
  let era := z / 146097 in
  let doe := z - era * 146097 in
  let yoe := (doe - doe / 1460 + doe / 36524 - doe / 146096) / 365 in
  let doy := doe - (365 * yoe + yoe / 4 - yoe / 100) in
  let mp := (5 * doy + 2) / 153 in
  let m := if mp <? 10 then mp + 3 else mp - 9 in
  (if m <=? 2 then yoe + era * 400 + 1 else yoe + era * 400, m).

Definition parseDate (s : string) : option Z :=
  match list_ascii_of_string s with
  | [y1; y2; y3; y4; dash1; m1; m2; dash2; d1; d2] =>
    if (dash1 =? "-")%char && (dash2 =? "-")%char then
      match number 0 [y1; y2; y3; y4], number 0 [m1; m2], number 0 [d1; d2]
      with
      | Some y, Some m, Some d =>
        if (1 <=? m) && (m <=? 12) && (1 <=? d) && (d <=? 31)
        then Some (daysFromCivil y m d * msPerDay)
        else None
      | _, _, _ => None
      end
    else None
  | _ => None
  end.

Definition startOfMonth (ms : Z) : Z :=
  let '(y, m) := yearMonthOfDays (ms / msPerDay) in
  daysFromCivil y m 1 * msPerDay.

Definition endOfMonth (ms : Z) : Z :=
  let '(y, m) := yearMonthOfDays (ms / msPerDay) in
  (if m =? 12 then daysFromCivil (y + 1) 1 1 else daysFromCivil y (m + 1) 1)
  * msPerDay - 1.

(** [x.toFixed(2)] for [x >= 0]. *)
Definition toFixed2 (x : Q) : string :=
  let n := (200 * Qnum x + Zpos (Qden x)) / (2 * Zpos (Qden x)) in
  showInt (n / 100) ^^ "." ^^ showInt (n mod 100 / 10) ^^ showInt (n mod 10).

Definition runtime : Runtime :=
  Build_Runtime parseDate startOfMonth endOfMonth toFixed2 toFixed2.

End Utc.


(** ** The runtime in a zone at a fixed offset from UTC

    [offset] is local time minus UTC, in milliseconds, the same all year
    (a zone without daylight saving time).  A calendar day is still
    parsed as midnight UTC; date-fns cuts months in local time:
    [startOfMonth] is the first of the month at 00:00 local time and
    [endOfMonth] the last millisecond before the first of the next. *)

Module Zone.

Definition hour : Z := 60 * 60 * 1000.

Definition startOfMonth (offset ms : Z) : Z :=
  Utc.startOfMonth (ms + offset) - offset.

Definition endOfMonth (offset ms : Z) : Z :=
  Utc.endOfMonth (ms + offset) - offset.

Definition runtime (offset : Z) : Runtime :=
  Build_Runtime Utc.parseDate (startOfMonth offset) (endOfMonth offset)
    Utc.toFixed2 Utc.toFixed2.

End Zone.

(** ** The calendar

    The months ['YYYY-MM'] and the days ['YYYY-MM-DD'] of the calendar, as
    the texts the program stores ([format(date, 'yyyy-MM')] and
    [format(date, 'yyyy-MM-dd')]). *)

Module Calendar.

Definition leapYear (y : Z) : bool :=
  ((y mod 4 =? 0) && negb (y mod 100 =? 0)) || (y mod 400 =? 0).

Definition daysInMonth (y m : Z) : Z :=
  if m =? 2 then (if leapYear y then 29 else 28)
  else if (m =? 4) || (m =? 6) || (m =? 9) || (m =? 11) then 30
  else 31.

(** The year and the month a text ['YYYY-MM'] names. *)
Definition monthOf (s : string) : option (Z * Z) :=
  match list_ascii_of_string s with
  | [y1; y2; y3; y4; dash; m1; m2] =>
    if (dash =? "-")%char then
      match Utc.number 0 [y1; y2; y3; y4], Utc.number 0 [m1; m2] with
      | Some y, Some m =>
        if (1 <=? m) && (m <=? 12) then Some (y, m) else None
      | _, _ => None
      end
    else None
  | _ => None
  end.

(** The year, the month and the day a text ['YYYY-MM-DD'] names. *)
Definition dayOf (s : string) : option (Z * Z * Z) :=
  match list_ascii_of_string s with
  | [y1; y2; y3; y4; dash1; m1; m2; dash2; d1; d2] =>
    if (dash1 =? "-")%char && (dash2 =? "-")%char then
      match Utc.number 0 [y1; y2; y3; y4], Utc.number 0 [m1; m2],
            Utc.number 0 [d1; d2]
      with
      | Some y, Some m, Some d =>
        if (1 <=? m) && (m <=? 12) && (1 <=? d) && (d <=? daysInMonth y m)
        then Some (y, m, d)
        else None
      | _, _, _ => None
      end
    else None
  | _ => None
  end.

Definition isMonth (s : string) : bool := isSome (monthOf s).

Definition isDay (s : string) : bool := isSome (dayOf s).

(** The months numbered from January of the year 0; the first day of a
    month, in days since 1970-01-01. *)
Definition firstDay (i : Z) : Z := Utc.daysFromCivil (i / 12) (i mod 12 + 1) 1.

(** The month [i] is found back from its first day, and the next month
    begins when its days are over. *)
Definition tiles (i : Z) : bool :=
  (let '(y, m) := Utc.yearMonthOfDays (firstDay i) in
   (y =? i / 12) && (m =? i mod 12 + 1))
  && (firstDay (i + 1) =? firstDay i + daysInMonth (i / 12) (i mod 12 + 1)).

Fixpoint upto (n : nat) (i : Z) : list Z :=
  match n with
  | O => []
  | S n => i :: upto n (Z.succ i)
  end.

End Calendar.

(** ** A small company, for the examples

    An administrator, a manager and two employees of the manager's team,
    Ali and Sara, both on the 80 hour target at 5000 an hour with an
    overtime multiplier of 1.25 and one comp leave earned; Sara has used
    hers.  Each has three closed time logs of 30 hours in February 2024;
    Ali also has a closed log in January, and the log of the day,
    15 February, still open, with one closed and one open break, and one
    task logged.  Ali has a pending leave request; Sara's was approved. *)

Module Examples.

Definition person (id name : string) (managerId : option string)
    (role : UserRole) (compLeavesUsed : Z) : Employee.t :=
  Employee.mk id name (id ^^ "@harphrm.com") "secret" "" "" "" "2023-01-01"
    managerId H80 5000 role 1 compLeavesUsed None None None None.

Definition admin : Employee.t := person "emp_admin" "Admin" None RoleAdmin 0.
Definition manager : Employee.t :=
  person "emp_mgr" "Manager" None RoleManager 0.
Definition ali : Employee.t :=
  person "emp_ali" "Ali" (Some "emp_mgr") RoleEmployee 0.
Definition sara : Employee.t :=
  person "emp_sara" "Sara" (Some "emp_mgr") RoleEmployee 1.

Definition today : string := "2024-02-15".
Definition month : string := "2024-02".

(** U+00A0, the no-break space, in UTF-8. *)
Definition noBreakSpace : string := String "194" (String "160" "").

(** 15 February 2024, 09:00 and 18:00 UTC. *)
Definition nineOClock : Z := 1707987600000.
Definition now : Z := 1708020000000.

Definition closedLog (id employeeId date : string) (hours : Q) : TimeLog.t :=
  TimeLog.mk id employeeId date (Some 0) (Some 1) [] hours CheckedOut.

(** Ali's day: in at 09:00, a break from 12:00 to 13:00, and a break
    started at 17:00 that is still open. *)
Definition dayLog : TimeLog.t :=
  TimeLog.mk "log_15" "emp_ali" today (Some nineOClock) None
    [BreakLog.mk 1707998400000 (Some 1708002000000);
     BreakLog.mk 1708016400000 None]
    0 CheckedIn.

Definition task : Task.t :=
  Task.mk "task_1" "emp_ali" today "Quarterly report" 6 TaskPending
    None None None.

Definition pendingLeave : LeaveRequest.t :=
  LeaveRequest.mk "leave_1" "emp_ali" "2024-03-01" "2024-03-10" "Family"
    LeavePending 1707000000000 None None None.

Definition approvedLeave : LeaveRequest.t :=
  LeaveRequest.mk "leave_2" "emp_sara" "2024-01-05" "2024-01-05" "Errand"
    LeaveApproved 1704000000000 (Some "emp_mgr") (Some 1704100000000) None.

Definition state : HRMState :=
  mkState
    [admin; manager; ali; sara]
    [closedLog "log_1" "emp_ali" "2024-01-31" 8;
     closedLog "log_2" "emp_ali" "2024-02-01" 30;
     closedLog "log_3" "emp_ali" "2024-02-10" 30;
     closedLog "log_4" "emp_ali" "2024-02-29" 30;
     closedLog "log_5" "emp_sara" "2024-02-01" 30;
     closedLog "log_6" "emp_sara" "2024-02-12" 30;
     closedLog "log_7" "emp_sara" "2024-02-13" 30;
     dayLog]
    [task]
    [pendingLeave; approvedLeave]
    []
    [OvertimeSettings.mk "emp_ali" (5 # 4);
     OvertimeSettings.mk "emp_sara" (5 # 4)]
    []
    None.

(** The same company before Ali logged his task. *)
Definition stateWithoutTasks : HRMState := withTasks [] state.

End Examples.

(** ** The quantities the specification speaks of *)

Definition sumZ (l : list Z) : Z := fold_right Z.add 0 l.

Definition sumQ (l : list Q) : Q := fold_right Qplus 0%Q l.

(** The length of one break, in milliseconds, for a day that ends at
    [checkOut]: an open break is taken to end there. *)
Definition breakDuration (checkOut : Z) (b : BreakLog.t) : Z :=
  match BreakLog.breakOut b with
  | Some breakOut => breakOut - BreakLog.breakIn b
  | None => checkOut - BreakLog.breakIn b
  end.

(** (checkOut - checkIn) - sum of the break durations, in hours, never
    below zero. *)
Definition netHours (checkIn checkOut : Z) (breaks : list BreakLog.t) : Q :=
  Qmax 0
    (inject_Z
       ((checkOut - checkIn) - sumZ (map (breakDuration checkOut) breaks))
     / inject_Z 3600000).

(** A calendar day falls within a month: the text of the day,
    ['YYYY-MM-DD'], begins with that of the month, ['YYYY-MM']. *)
Definition withinMonth (month date : string) : bool :=
  String.prefix month date.

(** The hours of an employee in a month: the sum of [totalHours] over the
    employee's time logs of the month that have a check-out. *)
Definition monthTotalHours (month : string)
    (logs : list TimeLog.t) (employeeId : string) : Q :=
  sumQ
    (map TimeLog.totalHours
       (filter
          (fun log =>
             (TimeLog.employeeId log === employeeId)
             && withinMonth month (TimeLog.date log)
             && isSome (TimeLog.checkOut log))
          logs)).

(** The bounds the runtime gives a month hold, of the days of [logs], those
    of the month and no other. *)
Definition cutsMonth (rt : Runtime) (month : string) (logs : list TimeLog.t)
  : Prop :=
  forall log,
    In log logs ->
    dateGe (parseDate rt (TimeLog.date log)) (AdminView.monthStart rt month)
    && dateLe (parseDate rt (TimeLog.date log)) (AdminView.monthEnd rt month)
    = withinMonth month (TimeLog.date log).

(** The payroll entry of an employee for a month, if there is one. *)
Definition payrollEntryOf (employeeId month : string)
    (entries : list PayrollEntry.t) : option PayrollEntry.t :=
  find
    (fun p =>
       (PayrollEntry.employeeId p === employeeId)
       && (PayrollEntry.month p === month))
    entries.

(** How many payroll entries an employee has for a month. *)
Definition payrollCount (employeeId month : string)
    (entries : list PayrollEntry.t) : nat :=
  List.length
    (filter
       (fun p =>
          (PayrollEntry.employeeId p === employeeId)
          && (PayrollEntry.month p === month))
       entries).

Definition employeeById (employeeId : string) (state : HRMState)
  : option Employee.t :=
  find (fun e => Employee.id e === employeeId) (employees state).

Definition leaveById (leaveId : string) (state : HRMState)
  : option LeaveRequest.t :=
  find (fun l => LeaveRequest.id l === leaveId) (leaveRequests state).

Definition overtimeSettingsOf (employeeId : string) (state : HRMState)
  : option OvertimeSettings.t :=
  find (fun s => OvertimeSettings.employeeId s === employeeId)
    (overtimeSettings state).

(** What the specification asks of the payroll entry [p] of the employee
    [emp] for [month], computed from [state]. *)
Definition payrollFormulas (month : string) (state : HRMState)
    (emp : Employee.t) (p : PayrollEntry.t) : Prop :=
  let totalHours :=
    monthTotalHours month (timeLogs state) (Employee.id emp) in
  let target := targetHours (Employee.monthlyHourTarget emp) in
  let compLeavesAvailable :=
    Employee.compLeavesEarned emp - Employee.compLeavesUsed emp in
  let hourlyRate := Employee.hourlyRate emp in
  PayrollEntry.employeeId p = Employee.id emp
  /\ PayrollEntry.month p = month
  /\ (PayrollEntry.regularHours p == Qmin totalHours target)%Q
  /\ ((target < totalHours)%Q /\ compLeavesAvailable <= 0 ->
      (PayrollEntry.overtimeHours p == totalHours - target)%Q)
  /\ (~ ((target < totalHours)%Q /\ compLeavesAvailable <= 0) ->
      (PayrollEntry.overtimeHours p == 0)%Q)
  /\ (PayrollEntry.regularPay p == PayrollEntry.regularHours p * hourlyRate)%Q
  /\ (forall o,
        overtimeSettingsOf (Employee.id emp) state = Some o ->
        (PayrollEntry.overtimePay p
         == PayrollEntry.overtimeHours p * hourlyRate
            * OvertimeSettings.overtimeMultiplier o)%Q)
  /\ (overtimeSettingsOf (Employee.id emp) state = None ->
      (PayrollEntry.overtimePay p
       == PayrollEntry.overtimeHours p * hourlyRate * 1)%Q)
  /\ (PayrollEntry.totalPay p
      == PayrollEntry.regularPay p + PayrollEntry.overtimePay p)%Q.

(** What one call does to the audit log: an operation that goes through
    appends one entry, whatever the state the updater is applied to; an
    operation that is refused leaves the state alone. *)
Definition auditedOnce (rt : Runtime) (employee : Employee.t)
    (today : string) (now : Z) (op : Operation) (state : HRMState) : Prop :=
  match handlerOf rt employee today now op state with
  | Updated updater =>
    exists entry,
      (forall prevState,
         auditLogs (updater prevState) = auditLogs prevState ++ [entry])
      /\ AuditLog.userId entry = Employee.id employee
      /\ AuditLog.userName entry = Employee.name employee
      /\ AuditLog.entityId entry = affectedEntity employee today now op state
      /\ AuditLog.timestamp entry = now
  | Ignored _ =>
    perform (handlerOf rt employee today now op) state = state
  end.

(** ** TimeTracking: the hours shown while the day runs *)

Module TimeTracking.

(** [timeLog?.breaks.some(b => b.breakIn && !b.breakOut)] *)
Definition onBreak (timeLog : option TimeLog.t) : bool :=
  match timeLog with
  | Some log => existsb EmployeeView.isOpen (TimeLog.breaks log)
  | None => false
  end.

(** [calculateHoursWorked], [currentTime] being the component's clock. *)
Definition calculateHoursWorked (currentTime : Z) (timeLog : option TimeLog.t)
  : Q :=
  match timeLog with
  | None => 0%Q
  | Some log =>
    match TimeLog.checkIn log with
    | None => 0%Q
    | Some checkInTime =>
      let checkOutTime :=
        match TimeLog.checkOut log with
        | Some t => t
        | None => currentTime
        end in
      let totalMs :=
        fold_left
          (fun totalMs breakLog =>
             let breakInTime := BreakLog.breakIn breakLog in
             match BreakLog.breakOut breakLog with
             | Some breakOutTime => totalMs - (breakOutTime - breakInTime)
             | None =>
               if onBreak timeLog
               then totalMs - (currentTime - breakInTime)
               else totalMs
             end)
          (TimeLog.breaks log)
          (checkOutTime - checkInTime) in
      Qmax 0 (inject_Z totalMs / inject_Z (1000 * 60 * 60))
    end
  end.

End TimeTracking.

(** The time logs of an employee for a day. *)
Definition logsOfDay (employeeId date : string) (logs : list TimeLog.t)
  : list TimeLog.t :=
  filter
    (fun log =>
       (TimeLog.employeeId log === employeeId) && (TimeLog.date log === date))
    logs.

(** No employee has two time logs for one day. *)
Definition oneLogPerDay (state : HRMState) : Prop :=
  forall employeeId date,
    (List.length (logsOfDay employeeId date (timeLogs state)) <= 1)%nat.

(** The breaks of a log that have no end. *)
Definition openBreaks (log : TimeLog.t) : list BreakLog.t :=
  filter EmployeeView.isOpen (TimeLog.breaks log).

(** ** PayrollManagementView: the edit dialog of a payroll entry *)

Module PayrollManagementView.

(** [{ ...editValues, regularPay, overtimePay, totalPay }] *)
Definition withPay (editValues : PayrollEntry.partial)
    (regularPay overtimePay totalPay : Q) : PayrollEntry.partial :=
  PayrollEntry.mkPartial
    (PayrollEntry.p_id editValues) (PayrollEntry.p_employeeId editValues)
    (PayrollEntry.p_month editValues)
    (PayrollEntry.p_regularHours editValues)
    (PayrollEntry.p_overtimeHours editValues)
    (Some regularPay) (Some overtimePay) (Some totalPay)
    (PayrollEntry.p_status editValues)
    (PayrollEntry.p_processedBy editValues)
    (PayrollEntry.p_processedAt editValues)
    (PayrollEntry.p_notes editValues).

(** [handleUpdatePayroll], with the component's props and its state
    ([selectedPayroll], [editValues]). *)
Definition handleUpdatePayroll
    (onUpdatePayroll : string -> PayrollEntry.partial -> Outcome)
    (employees : list Employee.t)
    (overtimeSettings : list OvertimeSettings.t)
    (selectedPayroll : option PayrollEntry.t)
    (editValues : PayrollEntry.partial) : Outcome :=
  match selectedPayroll with
  | None => Ignored None
  | Some selectedPayroll =>
    match find (fun e => Employee.id e
                         === PayrollEntry.employeeId selectedPayroll)
            employees
    with
    | None => Ignored None
    | Some emp =>
      let regularHours :=
        orDefault (PayrollEntry.p_regularHours editValues)
          (PayrollEntry.regularHours selectedPayroll) in
      let overtimeHours :=
        orDefault (PayrollEntry.p_overtimeHours editValues)
          (PayrollEntry.overtimeHours selectedPayroll) in
      let settings :=
        find (fun s => OvertimeSettings.employeeId s === Employee.id emp)
          overtimeSettings in
      let multiplier :=
        match settings with
        | Some s => orElse (OvertimeSettings.overtimeMultiplier s) 1%Q
        | None => 1%Q
        end in
      let regularPay := (regularHours * Employee.hourlyRate emp)%Q in
      let overtimePay :=
        (overtimeHours * Employee.hourlyRate emp * multiplier)%Q in
      let totalPay := (regularPay + overtimePay)%Q in
      onUpdatePayroll (PayrollEntry.id selectedPayroll)
        (withPay editValues regularPay overtimePay totalPay)
    end
  end.

(** The dialog of the administrator's view, opened on the entry
    [selectedPayroll] and submitted with [editValues]. *)
Definition edit (employee : Employee.t) (now : Z)
    (selectedPayroll : PayrollEntry.t) (editValues : PayrollEntry.partial)
    (state : HRMState) : Outcome :=
  handleUpdatePayroll (AdminView.handleUpdatePayroll employee now)
    (employees state) (overtimeSettings state) (Some selectedPayroll)
    editValues.

End PayrollManagementView.

(** ** SettingsView: rate and target of an employee *)

Module SettingsView.

(** [handleUpdate]: the update goes out when
    [editValues.hourlyRate || editValues.monthlyHourTarget] is truthy. *)
Definition handleUpdate
    (onUpdateEmployee : string -> Employee.partial -> Outcome)
    (selectedEmployee : option Employee.t) (editValues : Employee.partial)
  : Outcome :=
  match selectedEmployee with
  | None => Ignored None
  | Some selectedEmployee =>
    if match Employee.p_hourlyRate editValues with
       | Some rate => negb (Qeq_bool rate 0)
       | None => false
       end
       || isSome (Employee.p_monthlyHourTarget editValues)
    then onUpdateEmployee (Employee.id selectedEmployee) editValues
    else Ignored None
  end.

(** The dialog of the administrator's view. *)
Definition update (employee : Employee.t) (now : Z)
    (selectedEmployee : Employee.t) (editValues : Employee.partial)
  : Outcome :=
  handleUpdate (AdminView.handleUpdateEmployee employee now)
    (Some selectedEmployee) editValues.

(** The click on [Edit] in the row of [emp]: the dialog opens with
    [{ hourlyRate: emp.hourlyRate, monthlyHourTarget:
    emp.monthlyHourTarget }] as its values. *)
Definition clickEdit (emp : Employee.t) : Employee.partial :=
  Employee.mkPartial None None None None None None None None None
    (Some (Employee.monthlyHourTarget emp)) (Some (Employee.hourlyRate emp))
    None None None None None None None.

(** [{ ...editValues, hourlyRate: v }] *)
Definition withHourlyRate (v : Q) (u : Employee.partial) : Employee.partial :=
  Employee.mkPartial (Employee.p_id u) (Employee.p_name u)
    (Employee.p_email u) (Employee.p_password u) (Employee.p_phone u)
    (Employee.p_position u) (Employee.p_department u)
    (Employee.p_employmentStartDate u) (Employee.p_managerId u)
    (Employee.p_monthlyHourTarget u) (Some v) (Employee.p_role u)
    (Employee.p_compLeavesEarned u) (Employee.p_compLeavesUsed u)
    (Employee.p_profilePicture u) (Employee.p_address u)
    (Employee.p_dateOfBirth u) (Employee.p_emergencyContact u).

(** [{ ...editValues, monthlyHourTarget: v }] *)
Definition withMonthlyHourTarget (v : MonthlyHourTarget)
    (u : Employee.partial) : Employee.partial :=
  Employee.mkPartial (Employee.p_id u) (Employee.p_name u)
    (Employee.p_email u) (Employee.p_password u) (Employee.p_phone u)
    (Employee.p_position u) (Employee.p_department u)
    (Employee.p_employmentStartDate u) (Employee.p_managerId u)
    (Some v) (Employee.p_hourlyRate u) (Employee.p_role u)
    (Employee.p_compLeavesEarned u) (Employee.p_compLeavesUsed u)
    (Employee.p_profilePicture u) (Employee.p_address u)
    (Employee.p_dateOfBirth u) (Employee.p_emergencyContact u).

(** What is done in the open dialog: a text typed in the rate field, a
    target picked in the list of 40, 60, 80 and 100 hours. *)
Inductive Change :=
| TypeRate (value : string)
| ChooseTarget (value : MonthlyHourTarget).

(** The two [onChange] handlers; the rate is
    [parseFloat(e.target.value) || 0], with [parseFloat] the runtime's,
    [None] standing for [NaN]. *)
Definition change (parseFloat : string -> option Q) (c : Change)
    (editValues : Employee.partial) : Employee.partial :=
  match c with
  | TypeRate value =>
    withHourlyRate
      (match parseFloat value with Some x => orElse x 0 | None => 0%Q end)
      editValues
  | ChooseTarget value => withMonthlyHourTarget value editValues
  end.

(** The dialog from the click on [Edit] to the click on
    [Update Settings]. *)
Definition session (parseFloat : string -> option Q) (employee : Employee.t)
    (now : Z) (selectedEmployee : Employee.t) (changes : list Change)
  : Outcome :=
  update employee now selectedEmployee
    (fold_left (fun editValues c => change parseFloat c editValues) changes
       (clickEdit selectedEmployee)).

End SettingsView.

(** ** EmployeeFormDialog, as the edit dialog of EmployeeManagementView *)

Module EmployeeFormDialog.

(** An optional property of an object, as a key of its spread. *)
Definition own {A} (o : option A) : option (option A) :=
  match o with Some v => Some (Some v) | None => None end.

(** The initial [formData] of the edit dialog: the employee object. *)
Definition formOf (employee : Employee.t) : Employee.partial :=
  Employee.mkPartial
    (Some (Employee.id employee)) (Some (Employee.name employee))
    (Some (Employee.email employee)) (Some (Employee.password employee))
    (Some (Employee.phone employee)) (Some (Employee.position employee))
    (Some (Employee.department employee))
    (Some (Employee.employmentStartDate employee))
    (Some (Employee.managerId employee))
    (Some (Employee.monthlyHourTarget employee))
    (Some (Employee.hourlyRate employee)) (Some (Employee.role employee))
    (Some (Employee.compLeavesEarned employee))
    (Some (Employee.compLeavesUsed employee))
    (own (Employee.profilePicture employee))
    (own (Employee.address employee))
    (own (Employee.dateOfBirth employee))
    (own (Employee.emergencyContact employee)).

(** A required field of the form is filled in. *)
Definition filled (field : option string) : bool :=
  match field with Some v => truthy v | None => false end.

Definition handleSubmit (onSave : Employee.partial -> Outcome)
    (formData : Employee.partial) : Outcome :=
  if negb (filled (Employee.p_name formData))
     || negb (filled (Employee.p_email formData))
     || negb (filled (Employee.p_password formData))
  then Ignored (Some "Please fill in all required fields")
  else onSave formData.

(** The edit dialog opened on [selectedEmployee]: its save, and the grant
    of comp leave made from within it. *)
Definition save (employee : Employee.t) (now : Z)
    (selectedEmployee : Employee.t) (formData : Employee.partial)
  : Outcome :=
  handleSubmit
    (AdminView.handleUpdateEmployee employee now
       (Employee.id selectedEmployee))
    formData.

Definition grant (employee : Employee.t) (now : Z)
    (selectedEmployee : Employee.t) (days : Z) : Outcome :=
  AdminView.handleGrantCompLeave employee now (Employee.id selectedEmployee)
    days.

End EmployeeFormDialog.

(** The payroll entry of a given id, if there is one. *)
Definition payrollById (payrollId : string) (state : HRMState)
  : option PayrollEntry.t :=
  find (fun p => PayrollEntry.id p === payrollId) (payrollEntries state).

(** The total of every payroll entry is its regular pay plus its overtime
    pay. *)
Definition payConsistent (state : HRMState) : Prop :=
  forall p,
    In p (payrollEntries state) ->
    PayrollEntry.totalPay p
    = (PayrollEntry.regularPay p + PayrollEntry.overtimePay p)%Q.

(** The overtime settings records of an employee. *)
Definition settingsOf (employeeId : string) (state : HRMState)
  : list OvertimeSettings.t :=
  filter (fun o => OvertimeSettings.employeeId o === employeeId)
    (overtimeSettings state).

(** No record of the state carries [id] as its employee. *)
Definition unusedEmployeeId (id : string) (state : HRMState) : Prop :=
  (forall e, In e (employees state) -> Employee.id e <> id)
  /\ (forall t, In t (timeLogs state) -> TimeLog.employeeId t <> id)
  /\ (forall t, In t (tasks state) -> Task.employeeId t <> id)
  /\ (forall l, In l (leaveRequests state) -> LeaveRequest.employeeId l <> id)
  /\ (forall p, In p (payrollEntries state) -> PayrollEntry.employeeId p <> id)
  /\ (forall o,
        In o (overtimeSettings state) -> OvertimeSettings.employeeId o <> id).

(** The employee with another hourly rate and monthly target. *)
Definition rated (rate : Q) (target : MonthlyHourTarget) (e : Employee.t)
  : Employee.t :=
  Employee.mk (Employee.id e) (Employee.name e) (Employee.email e)
    (Employee.password e) (Employee.phone e) (Employee.position e)
    (Employee.department e) (Employee.employmentStartDate e)
    (Employee.managerId e) target rate (Employee.role e)
    (Employee.compLeavesEarned e) (Employee.compLeavesUsed e)
    (Employee.profilePicture e) (Employee.address e)
    (Employee.dateOfBirth e) (Employee.emergencyContact e).

Definition isTypeRate (c : SettingsView.Change) : bool :=
  match c with SettingsView.TypeRate _ => true | _ => false end.

(** The rate last typed in the settings dialog, [shown] when none was: a
    field left empty, that does not read as a number, or at 0 gives 0. *)
Definition rateEntered (parseFloat : string -> option Q)
    (changes : list SettingsView.Change) (shown : Q) : Q :=
  match find isTypeRate (rev changes) with
  | Some (SettingsView.TypeRate value) =>
    match parseFloat value with
    | Some x => if Qeq_bool x 0 then 0%Q else x
    | None => 0%Q
    end
  | _ => shown
  end.

(** The target last picked in the settings dialog, [shown] when none
    was. *)
Definition targetChosen (changes : list SettingsView.Change)
    (shown : MonthlyHourTarget) : MonthlyHourTarget :=
  match find (fun c => negb (isTypeRate c)) (rev changes) with
  | Some (SettingsView.ChooseTarget value) => value
  | _ => shown
  end.

(** The task of a given id, if there is one. *)
Definition taskById (taskId : string) (state : HRMState) : option Task.t :=
  find (fun t => Task.id t === taskId) (tasks state).

(** ** TaskLogger: the employee's list of the day's tasks *)

Module TaskLogger.

Definition isPending (task : Task.t) : bool :=
  match Task.status task with TaskPending => true | _ => false end.

(** [handleSubmit]; [parseFloat] is the runtime's, [None] standing for
    [NaN]. *)
Definition handleSubmit (parseFloat : string -> option Q)
    (onAddTask : string -> Q -> Outcome) (description hours : string)
  : Outcome :=
  match parseFloat hours with
  | Some h =>
    if truthy (trim description) && truthy hours
       && negb (Qle_bool h 0)
    then onAddTask (trim description) h
    else Ignored None
  | None => Ignored None
  end.

(** A click on the delete button of the row of the [row]-th task of the
    [tasks] prop; the button is rendered when
    [canEdit && task.status === 'pending']. *)
Definition clickDelete (onDeleteTask : string -> HRMState -> Outcome)
    (canEdit : bool) (tasks : list Task.t) (row : nat) (state : HRMState)
  : Outcome :=
  match nth_error tasks row with
  | Some task =>
    if canEdit && isPending task
    then onDeleteTask (Task.id task) state
    else Ignored None
  | None => Ignored None
  end.

(** The logger as the employee's view mounts it: on the tasks of the day,
    editable. *)
Definition addTask (rt : Runtime) (parseFloat : string -> option Q)
    (employee : Employee.t) (today : string) (now : Z)
    (description hours : string) : Outcome :=
  handleSubmit parseFloat
    (EmployeeView.handleAddTask rt employee today now) description hours.

Definition deleteTask (employee : Employee.t) (today : string) (now : Z)
    (row : nat) (state : HRMState) : Outcome :=
  clickDelete (EmployeeView.handleDeleteTask employee now) true
    (EmployeeView.myTasks employee today state) row state.

End TaskLogger.

(** ** TaskReviewView: the manager's list of the team's tasks *)

Module TaskReviewView.

(** The tasks the manager's view passes down: those of the team dated
    within the last three days. *)
Definition teamTasks (rt : Runtime) (employee : Employee.t) (now : Z)
    (state : HRMState) : list Task.t :=
  let threeDaysAgo := now - 3 * 24 * 60 * 60 * 1000 in
  filter
    (fun task =>
       existsb (fun tm => Employee.id tm === Task.employeeId task)
         (ManagerView.teamMembers employee state)
       && dateGe (parseDate rt (Task.date task)) (Some threeDaysAgo))
    (tasks state).

(** The buttons of a row, rendered when [task.status === 'pending']:
    [Approve] calls [onApprove(task.id)], [Add Comment] selects the
    task. *)
Definition pendingRow (tasks : list Task.t) (row : nat) : option Task.t :=
  match nth_error tasks row with
  | Some task => if TaskLogger.isPending task then Some task else None
  | None => None
  end.

Definition clickApprove
    (onApprove : string -> option string -> Outcome)
    (tasks : list Task.t) (row : nat) : Outcome :=
  match pendingRow tasks row with
  | Some task => onApprove (Task.id task) None
  | None => Ignored None
  end.

(** [handleSubmitComment] *)
Definition handleSubmitComment (onComment : string -> string -> Outcome)
    (selectedTask : option Task.t) (comment : string) : Outcome :=
  match selectedTask with
  | Some task =>
    if truthy (trim comment) then onComment (Task.id task) (trim comment)
    else Ignored None
  | None => Ignored None
  end.

(** The button [Approve with Comment] of the dialog. *)
Definition approveWithComment
    (onApprove : string -> option string -> Outcome)
    (selectedTask : option Task.t) (comment : string) : Outcome :=
  match selectedTask with
  | Some task =>
    onApprove (Task.id task)
      (if truthy (trim comment) then Some (trim comment) else None)
  | None => Ignored None
  end.

(** The three ways of reviewing the task of a row. *)
Inductive Review :=
| Approve
| Comment (comment : string)
| ApproveWithComment (comment : string).

Definition review (rt : Runtime) (employee : Employee.t) (now : Z)
    (row : nat) (how : Review) (state : HRMState) : Outcome :=
  let tasks := teamTasks rt employee now state in
  match how with
  | Approve =>
    clickApprove (ManagerView.handleApproveTask employee now) tasks row
  | Comment comment =>
    handleSubmitComment (ManagerView.handleCommentTask employee now)
      (pendingRow tasks row) comment
  | ApproveWithComment comment =>
    approveWithComment (ManagerView.handleApproveTask employee now)
      (pendingRow tasks row) comment
  end.

End TaskReviewView.

(** ** LoginScreen *)

Module LoginScreen.

Inductive Result :=
| LoggedIn (employeeId : string) (toastSuccess : string)
| Refused (toastError : string).

Section HandleLogin.

(** [String.prototype.toLowerCase], the runtime's. *)
Variable toLowerCase : string -> string.

(** The test of the [find] of [handleLogin]. *)
Definition holds (email password : string) (emp : Employee.t) : bool :=
  (toLowerCase (Employee.email emp) === toLowerCase email)
  && (Employee.password emp === password).

Definition handleLogin (employees : list Employee.t)
    (email password : string) : Result :=
  if negb (truthy email) || negb (truthy password)
  then Refused "Please enter both email and password"
  else
    match find (holds email password) employees with
    | Some employee =>
      LoggedIn (Employee.id employee)
        ("Welcome back, " ^^ Employee.name employee ^^ "!")
    | None => Refused "Invalid email or password"
    end.

End HandleLogin.

(** For the examples: the lower case of the letters A to Z, which is what
    [toLowerCase] makes of a text of the ASCII range. *)
Definition lowerChar (c : ascii) : ascii :=
  if (65 <=? code c) && (code c <=? 90)
  then ascii_of_N (N_of_ascii c + 32) else c.

Fixpoint asciiLowerCase (s : string) : string :=
  match s with
  | EmptyString => EmptyString
  | String c r => String (lowerChar c) (asciiLowerCase r)
  end.

End LoginScreen.

(** The employee [emp] has the email, up to the case of its letters, and
    the very password. *)
Definition matches (toLowerCase : string -> string) (email password : string)
    (emp : Employee.t) : Prop :=
  toLowerCase (Employee.email emp) = toLowerCase email
  /\ Employee.password emp = password.

(** ** hrmStorage: the text of a CSV export *)

Module Csv.

Definition quote : ascii := ascii_of_nat 34.
Definition comma : ascii := ","%char.
Definition lineFeed : ascii := ascii_of_nat 10.
Definition carriageReturn : ascii := ascii_of_nat 13.
Definition newline : string := String lineFeed "".

(** A cell of an exported record: a string, or any other value, kept as
    the text [Array.prototype.join] gives it ([undefined] and [null]
    giving the empty text). *)
Inductive Value :=
| Text (s : string)
| Other (joined : string).

Definition Row := list (string * Value).

(** [row[header]], [undefined] for a key the record lacks. *)
Fixpoint lookup (header : string) (row : Row) : Value :=
  match row with
  | [] => Other ""
  | (k, v) :: r => if k === header then v else lookup header r
  end.

(** [value.includes(c)] *)
Fixpoint includes (c : ascii) (s : string) : bool :=
  match s with
  | EmptyString => false
  | String x r => (x =? c)%char || includes c r
  end.

(** The [replace] of the escape: every quote doubled. *)
Fixpoint doubleQuotes (s : string) : string :=
  match s with
  | EmptyString => EmptyString
  | String x r =>
    if (x =? quote)%char
    then String quote (String quote (doubleQuotes r))
    else String x (doubleQuotes r)
  end.

(** The text of one cell. *)
Definition cell (value : Value) : string :=
  match value with
  | Text s =>
    if includes comma s || includes quote s
    then String quote (doubleQuotes s ^^ String quote "")
    else s
  | Other joined => joined
  end.

(** [csvContent] of [exportToCSV]; nothing is exported for no record. *)
Definition csvContent (data : list Row) : option string :=
  match data with
  | [] => None
  | first :: _ =>
    let headers := map fst first in
    Some
      (join newline
         (join "," headers
          :: map (fun row =>
                    join "," (map (fun header => cell (lookup header row))
                                headers))
               data))
  end.

(** One record of the export: the cells of [values] between commas. *)
Definition line (values : list Value) : string :=
  join "," (map cell values).

(** ** Reading a CSV text (RFC 4180)

    Fields are separated by commas and records by line feeds; a field
    that opens with a quote runs to its closing quote, commas and line
    feeds included, a doubled quote inside it standing for one quote.
    The reader is outside a quoted field ([Bare]), inside one
    ([Quoted]), or just past a quote met inside one ([Closed]); [field]
    holds the characters of the field read so far, last first, and [row]
    the fields of the record, last first. *)
Inductive Mode := Bare | Quoted | Closed.

Definition text (field : list ascii) : string :=
  string_of_list_ascii (rev field).

Fixpoint read (mode : Mode) (field : list ascii) (row : list string)
    (s : string) : list (list string) :=
  match s with
  | EmptyString => [rev (text field :: row)]
  | String c r =>
    match mode with
    | Quoted =>
      if (c =? quote)%char then read Closed field row r
      else read Quoted (c :: field) row r
    | _ =>
      if (c =? comma)%char then read Bare [] (text field :: row) r
      else if (c =? lineFeed)%char
      then rev (text field :: row) :: read Bare [] [] r
      else if (c =? quote)%char
      then
        match mode, field with
        | Closed, _ => read Quoted (c :: field) row r
        | _, [] => read Quoted [] row r
        | _, _ :: _ => read Bare (c :: field) row r
        end
      else read Bare (c :: field) row r
    end
  end.

Definition readCsv (s : string) : list (list string) := read Bare [] [] s.

(** The text a cell stands for. *)
Definition shown (value : Value) : string :=
  match value with Text s => s | Other joined => joined end.

(** A text without comma, quote or line break. *)
Definition plain (s : string) : bool :=
  negb (includes comma s || includes quote s
        || includes lineFeed s || includes carriageReturn s).

(** A cell whose text comes back from the export: a string that holds a
    line break only together with a comma or a quote, which put it
    between quotes; any other value whose text is plain. *)
Definition readable (value : Value) : bool :=
  match value with
  | Text s =>
    includes comma s || includes quote s
    || negb (includes lineFeed s || includes carriageReturn s)
  | Other joined => plain joined
  end.

End Csv.

(** ** The server: the routes over the key-value store

    The store itself ([kv_store]) is not part of the sources read here:
    it is taken as a parameter, any type with a [get] and a [set] such
    that a [get] returns what the last [set] of the key stored.  [Json]
    is the type of parsed JSON values, with [JSON.stringify],
    [JSON.parse] and truthiness.  The routes are followed on the path
    where neither the store nor the reading of the request throws (what
    they answer with status 500 otherwise is left out). *)

Module Server.

Record Kv := {
  Store : Type;
  get : string -> Store -> option string;
  set : string -> string -> Store -> Store
}.

Record JsonOps := {
  Json : Type;
  stringify : Json -> string;
  parse : string -> Json;
  isTruthy : Json -> bool
}.

Section Routes.

Variable kv : Kv.
Variable json : JsonOps.

(** The body of a request, once [c.req.json()] returned: its [data]
    field, if it has one. *)
Definition Body := option (Json json).

Inductive Response :=
| DataReply (data : option (Json json))
| SuccessReply (message : option string) (initialized : option bool)
| ErrorReply (status : Z) (error : string).

Definition key : string := "harp_hrm_data".

(** [!body.data] *)
Definition missing (body : Body) : bool :=
  match body with
  | Some data => negb (isTruthy json data)
  | None => true
  end.

(** [!data] for what [kv.get] returned. *)
Definition absent (data : option string) : bool :=
  match data with
  | Some text => negb (truthy text)
  | None => true
  end.

(** [GET /hrm/data] *)
Definition getData (store : Store kv) : Response :=
  let data := get kv key store in
  if absent data then DataReply None
  else DataReply (Some (parse json (orDefault data ""))).

(** [POST /hrm/data] *)
Definition postData (body : Body) (store : Store kv)
  : Response * Store kv :=
  match body with
  | Some data =>
    if missing body
    then (ErrorReply 400 "Missing data field in request body", store)
    else (SuccessReply None None, set kv key (stringify json data) store)
  | None => (ErrorReply 400 "Missing data field in request body", store)
  end.

(** [POST /hrm/init] *)
Definition postInit (body : Body) (store : Store kv)
  : Response * Store kv :=
  match body with
  | Some data =>
    if missing body
    then (ErrorReply 400 "Missing data field in request body", store)
    else
      let existingData := get kv key store in
      if negb (absent existingData)
      then (SuccessReply (Some "Data already initialized") (Some false),
            store)
      else (SuccessReply (Some "Data initialized successfully") (Some true),
            set kv key (stringify json data) store)
  | None => (ErrorReply 400 "Missing data field in request body", store)
  end.

(** [POST /hrm/reset] *)
Definition postReset (body : Body) (store : Store kv)
  : Response * Store kv :=
  match body with
  | Some data =>
    if missing body
    then (ErrorReply 400 "Missing data field in request body", store)
    else (SuccessReply (Some "Data reset successfully") None,
          set kv key (stringify json data) store)
  | None => (ErrorReply 400 "Missing data field in request body", store)
  end.

End Routes.

(** A store for the examples: a function from keys to texts; JSON values
    that are texts, written between brackets. *)
Definition tableKv : Kv :=
  Build_Kv (string -> option string)
    (fun k store => store k)
    (fun k v store => fun k' => if k' === k then Some v else store k').

Definition textJson : JsonOps :=
  Build_JsonOps string
    (fun s => "[" ^^ s ^^ "]")
    (fun t =>
       match t with
       | String _ r => string_of_list_ascii (removelast (list_ascii_of_string r))
       | EmptyString => EmptyString
       end)
    truthy.

End Server.

(** ** SyncManager: the periodic fetch of the shared state *)

Module SyncManager.

Record t := mk {
  syncInterval : option Z;
  isEnabled : bool;
  lastDataHash : string
}.

(** [new SyncManager()] *)
Definition initial : t := mk None false "".

(** [start(callback, intervalMs)], [timer] being the id
    [window.setInterval] returns. *)
Definition start (timer : Z) (m : t) : t :=
  if isEnabled m then m
  else mk (Some timer) true (lastDataHash m).

Definition stop (m : t) : t :=
  match syncInterval m with
  | Some _ => mk None false (lastDataHash m)
  | None => m
  end.

Definition isRunning (m : t) : bool := isEnabled m.

Section Polling.

Variable json : Server.JsonOps.

(** The end of one tick, once the response has been read: [data] is
    [result.data].  The second component is the argument of the
    [callback], when it is called. *)
Definition received (data : option (Server.Json json)) (m : t)
  : t * option (Server.Json json) :=
  match data with
  | Some d =>
    if Server.isTruthy json d
    then
      let dataHash := Server.stringify json d in
      if negb (dataHash === lastDataHash m)
      then (mk (syncInterval m) (isEnabled m) dataHash, Some d)
      else (m, None)
    else (m, None)
  | None => (m, None)
  end.

(** What happens to a sync manager. *)
Inductive Event :=
| Start (timer : Z)
| Stop
| Received (data : option (Server.Json json)).

Definition step (e : Event) (m : t) : t * option (Server.Json json) :=
  match e with
  | Start timer => (start timer m, None)
  | Stop => (stop m, None)
  | Received data => received data m
  end.

(** The manager after a run of events, and the data handed to the
    callback, latest first. *)
Fixpoint run (events : list Event) (m : t)
    (delivered : list (Server.Json json))
  : t * list (Server.Json json) :=
  match events with
  | [] => (m, delivered)
  | e :: r =>
    let '(m', d) := step e m in
    run r m' (match d with Some x => x :: delivered | None => delivered end)
  end.

End Polling.

End SyncManager.

(** No two neighbours of the list are equal. *)
Fixpoint noRepeat (l : list string) : Prop :=
  match l with
  | a :: (b :: _) as r => a <> b /\ noRepeat r
  | _ => True
  end.

(** What holds of a sync manager and of what it has handed to its
    callback, latest first. *)
Definition syncInvariant (json : Server.JsonOps) (m : SyncManager.t)
    (delivered : list (Server.Json json)) : Prop :=
  SyncManager.isEnabled m = isSome (SyncManager.syncInterval m)
  /\ SyncManager.lastDataHash m
     = hd "" (map (Server.stringify json) delivered)
  /\ noRepeat (map (Server.stringify json) delivered).

(** ** The example company on other days

    [morning]: Ali has checked in at nine and taken no break yet.
    [processed]: February has been processed; [saraEntry] is Sara's
    payroll entry. *)

Module Day.

Definition morningLog : TimeLog.t :=
  TimeLog.mk "log_15" "emp_ali" Examples.today (Some Examples.nineOClock)
    None [] 0 CheckedIn.

Definition morning : HRMState :=
  withTimeLogs
    (removelast (timeLogs Examples.state) ++ [morningLog])
    Examples.state.

Definition processed : HRMState :=
  perform
    (AdminView.handleProcessPayroll Utc.runtime Examples.admin Examples.now
       Examples.month)
    Examples.state.

Definition saraEntry : PayrollEntry.t :=
  nth 3 (payrollEntries processed)
    (PayrollEntry.mk "" "" "" 0 0 0 0 0 PayPending None None None).

(** Sara's hours corrected to 85 regular and 5 overtime. *)
Definition correction : PayrollEntry.partial :=
  PayrollEntry.mkPartial None None None (Some 85%Q) (Some 5%Q) None None None
    None None None None.

(** A rate of 6000 entered in the settings dialog. *)
Definition newRate : Employee.partial :=
  Employee.mkPartial None None None None None None None None None None
    (Some 6000%Q) None None None None None None None.

(** Two records to export: a name with a comma, a note with quotes, a
    note of two lines with a comma, and hours that are numbers. *)
Definition exported : list Csv.Row :=
  [[("Name", Csv.Text "Khan, Ali");
    ("Note",
     Csv.Text ("said " ^^ String Csv.quote "yes" ^^ String Csv.quote ""));
    ("Hours", Csv.Other "7.5")];
   [("Name", Csv.Text "Sara");
    ("Note", Csv.Text ("first" ^^ Csv.newline ^^ "second, third"));
    ("Hours", Csv.Other "8")]].

(** The store of the server, empty. *)
Definition emptyStore : Server.Store Server.tableKv := fun _ => None.

End Day.

(** ** Time ledger: check-out *)

Section TimeLedger.

Variable rt : Runtime.
Variable employee : Employee.t.
Variable today : string.

Local Abbreviation todayTimeLog := (EmployeeView.todayTimeLog employee today).
Local Abbreviation myTasks := (EmployeeView.myTasks employee today).
Local Abbreviation isToday := (EmployeeView.isToday employee today).
Local Abbreviation handleCheckOut :=
  (EmployeeView.handleCheckOut rt employee today).
Local Abbreviation handleAddTask :=
  (EmployeeView.handleAddTask rt employee today).

(** [{ ...log, checkOut, totalHours, status: 'checked-out' }] *)
Definition checkedOut (now : Z) (totalHours : Q) (log : TimeLog.t)
  : TimeLog.t :=
  TimeLog.mk (TimeLog.id log) (TimeLog.employeeId log) (TimeLog.date log)
    (TimeLog.checkIn log) (Some now) (TimeLog.breaks log) totalHours
    CheckedOut.

Lemma fold_subtract (f : BreakLog.t -> Z) (l : list BreakLog.t) (a : Z) :
  fold_left (fun totalMs b => totalMs - f b) l a = a - sumZ (map f l).
Proof.
  revert a. induction l as [|b l IH]; intros a; simpl.
  - lia.
  - rewrite IH. lia.
Qed.

Lemma breakMs_duration (now : Z) (b : BreakLog.t) :
  EmployeeView.breakMs now b = breakDuration now b.
Proof.
  unfold EmployeeView.breakMs, breakDuration.
  destruct (BreakLog.breakOut b); reflexivity.
Qed.

Lemma sumZ_permutation (l l' : list Z) :
  Permutation l l' -> sumZ l = sumZ l'.
Proof.
  induction 1; simpl; lia.
Qed.

Lemma workedMs_net (now : Z) (log : TimeLog.t) :
  EmployeeView.workedMs now log
  = (now - getTime (TimeLog.checkIn log))
    - sumZ (map (breakDuration now) (TimeLog.breaks log)).
Proof.
  unfold EmployeeView.workedMs. rewrite fold_subtract.
  f_equal. f_equal. apply map_ext. intros b. apply breakMs_duration.
Qed.

Lemma hoursOfMs_net (now : Z) (log : TimeLog.t) :
  EmployeeView.hoursOfMs (EmployeeView.workedMs now log)
  = netHours (getTime (TimeLog.checkIn log)) now (TimeLog.breaks log).
Proof.
  unfold EmployeeView.hoursOfMs, netHours. rewrite workedMs_net. reflexivity.
Qed.

(** The updater of the check-out, applied to the logs. *)
Lemma find_checkedOut (id : string) (upd : TimeLog.t -> TimeLog.t)
    (logs : list TimeLog.t) (log : TimeLog.t) :
  (forall l, isToday (upd l) = isToday l) ->
  find isToday logs = Some log ->
  TimeLog.id log = id ->
  find isToday (map (fun l => if TimeLog.id l === id then upd l else l) logs)
  = Some (upd log).
Proof.
  intros Hupd. induction logs as [|l logs IH]; simpl; intros Hfind Hid.
  - discriminate.
  - destruct (isToday l) eqn:Hl.
    + injection Hfind as ->. rewrite Hid, String.eqb_refl, Hupd, Hl.
      reflexivity.
    + assert (isToday (if TimeLog.id l === id then upd l else l) = false)
        as -> by (destruct (TimeLog.id l === id); rewrite ?Hupd; exact Hl).
      apply IH; assumption.
Qed.

Lemma handleCheckOut_success (now : Z) (state : HRMState) (log : TimeLog.t) :
  todayTimeLog state = Some log ->
  TimeLog.checkOut log = None ->
  myTasks state <> [] ->
  perform (handleCheckOut now) state
  = withAudit
      (auditEntry employee now "Check Out" "TimeLog" (TimeLog.id log)
         ("Employee checked out. Total hours: "
          ^^ toFixed2 rt
               (EmployeeView.hoursOfMs (EmployeeView.workedMs now log))))
      (withTimeLogs
         (map (fun l =>
                 if TimeLog.id l === TimeLog.id log
                 then checkedOut now
                        (EmployeeView.hoursOfMs
                           (EmployeeView.workedMs now log)) l
                 else l)
            (timeLogs state))
         state).
Proof.
  intros Hlog Hout Htasks.
  unfold perform, EmployeeView.handleCheckOut. rewrite Hlog, Hout. simpl.
  destruct (myTasks state) as [|t ts]; [congruence|]. reflexivity.
Qed.

(** C3.  On a successful check-out (the day's entry exists, has no
    check-out yet, and a task is logged for the day) the day's entry stores
    totalHours = max(0, (checkOut - checkIn) - sum of the break durations),
    in hours, an open break being counted up to the check-out time; the
    value is not negative, does not depend on the order of the breaks, and
    the entry's status is checked-out. *)
Theorem checkOut_totalHours (now : Z) (state : HRMState) (log : TimeLog.t) :
  todayTimeLog state = Some log ->
  TimeLog.checkOut log = None ->
  myTasks state <> [] ->
  exists log',
    todayTimeLog (perform (handleCheckOut now) state) = Some log'
    /\ TimeLog.totalHours log'
       = netHours (getTime (TimeLog.checkIn log)) now (TimeLog.breaks log)
    /\ (0 <= TimeLog.totalHours log')%Q
    /\ TimeLog.status log' = CheckedOut
    /\ TimeLog.checkOut log' = Some now
    /\ forall breaks',
         Permutation breaks' (TimeLog.breaks log) ->
         EmployeeView.hoursOfMs
           (EmployeeView.workedMs now (EmployeeView.withBreaks breaks' log))
         = TimeLog.totalHours log'.
Proof.
  intros Hlog Hout Htasks.
  rewrite (handleCheckOut_success now state log Hlog Hout Htasks).
  eexists. split.
  - unfold EmployeeView.todayTimeLog. simpl.
    apply find_checkedOut; [reflexivity | exact Hlog | reflexivity].
  - simpl. rewrite hoursOfMs_net.
    repeat split.
    + apply Q.le_max_l.
    + intros breaks' Hperm. rewrite hoursOfMs_net. simpl.
      unfold netHours. do 4 f_equal.
      apply sumZ_permutation, Permutation_map, Hperm.
Qed.

Lemma isToday_true (l : TimeLog.t) :
  isToday l = true
  <-> TimeLog.employeeId l = Employee.id employee /\ TimeLog.date l = today.
Proof.
  unfold EmployeeView.isToday.
  rewrite andb_true_iff, !String.eqb_eq. reflexivity.
Qed.

Lemma myTasks_after_add (now : Z) (description : string) (hours : Q)
    (state : HRMState) :
  myTasks (perform (fun _ => handleAddTask now description hours) state)
  <> [].
Proof.
  unfold perform, EmployeeView.handleAddTask, EmployeeView.myTasks. simpl.
  rewrite filter_app. simpl. rewrite !String.eqb_refl. simpl.
  intros H. apply app_eq_nil in H. destruct H as [_ H]. discriminate.
Qed.

(** C4.  A check-out is refused, and the state left as it is, when the day
    has no entry, when the entry already has a check-out, and whenever the
    employee has no task logged for the day; once a task has been added for
    the day, the check-out that was refused for want of a task succeeds. *)
Theorem checkOut_preconditions (now : Z) (state : HRMState) :
  (todayTimeLog state = None ->
   handleCheckOut now state = Ignored (Some "Invalid check-out attempt")
   /\ perform (handleCheckOut now) state = state)
  /\ (forall log out,
        todayTimeLog state = Some log ->
        TimeLog.checkOut log = Some out ->
        handleCheckOut now state = Ignored (Some "Invalid check-out attempt")
        /\ perform (handleCheckOut now) state = state)
  /\ (myTasks state = [] ->
      succeeded (handleCheckOut now state) = false
      /\ perform (handleCheckOut now) state = state)
  /\ (forall log,
        todayTimeLog state = Some log ->
        TimeLog.checkOut log = None ->
        myTasks state = [] ->
        handleCheckOut now state
        = Ignored (Some "Please add your tasks before checking out")
        /\ forall now1 description hours,
             let state1 :=
               perform (fun _ => handleAddTask now1 description hours) state
             in
             succeeded (handleCheckOut now state1) = true
             /\ exists log',
                  todayTimeLog (perform (handleCheckOut now) state1)
                  = Some log'
                  /\ TimeLog.status log' = CheckedOut
                  /\ TimeLog.checkOut log' = Some now).
Proof.
  split; [|split; [|split]].
  - intros H. unfold perform, EmployeeView.handleCheckOut. rewrite H.
    split; reflexivity.
  - intros log out H H0. unfold perform, EmployeeView.handleCheckOut.
    rewrite H, H0. split; reflexivity.
  - intros H. unfold perform, EmployeeView.handleCheckOut. rewrite H.
    destruct (todayTimeLog state) as [l|]; [|split; reflexivity].
    destruct (isSome (TimeLog.checkOut l)); split; reflexivity.
  - intros log H H0 H1. split.
    { unfold EmployeeView.handleCheckOut. rewrite H, H0, H1. reflexivity. }
    intros now1 description hours state1.
    pose proof (myTasks_after_add now1 description hours state) as Hne.
    fold state1 in Hne.
    assert (todayTimeLog state1 = Some log) as Hlog by exact H.
    split.
    + unfold EmployeeView.handleCheckOut. rewrite Hlog, H0. simpl.
      destruct (myTasks state1); [congruence | reflexivity].
    + rewrite (handleCheckOut_success now state1 log Hlog H0 Hne).
      eexists. split.
      * unfold EmployeeView.todayTimeLog. simpl.
        apply find_checkedOut; [reflexivity | exact H | reflexivity].
      * split; reflexivity.
Qed.

Lemma NoDup_map_injective {A B} (f : A -> B) (l : list A) (x y : A) :
  NoDup (map f l) -> In x l -> In y l -> f x = f y -> x = y.
Proof.
  induction l as [|a l IH]; simpl; intros Hnd Hx Hy Hf; [contradiction|].
  inversion Hnd as [|? ? Hnotin Hnd']; subst.
  destruct Hx as [<-|Hx], Hy as [<-|Hy].
  - reflexivity.
  - exfalso. apply Hnotin. rewrite Hf. apply in_map, Hy.
  - exfalso. apply Hnotin. rewrite <- Hf. apply in_map, Hx.
  - apply IH; assumption.
Qed.

(** C10.  A successful check-out, in a state whose time logs have distinct
    ids, rewrites only checkOut, totalHours and status of the day's entry:
    every time log keeps its id, employee, date, check-in and breaks (so a
    break that is open stays stored with no breakOut), the logs of other
    days and of other employees are unchanged, and so are the employees,
    tasks, leave requests, payroll entries and overtime settings. *)
Theorem checkOut_frame (now : Z) (state : HRMState) (log : TimeLog.t) :
  todayTimeLog state = Some log ->
  TimeLog.checkOut log = None ->
  myTasks state <> [] ->
  NoDup (map TimeLog.id (timeLogs state)) ->
  let state' := perform (handleCheckOut now) state in
  (forall i l,
     nth_error (timeLogs state) i = Some l ->
     exists l',
       nth_error (timeLogs state') i = Some l'
       /\ TimeLog.id l' = TimeLog.id l
       /\ TimeLog.employeeId l' = TimeLog.employeeId l
       /\ TimeLog.date l' = TimeLog.date l
       /\ TimeLog.checkIn l' = TimeLog.checkIn l
       /\ TimeLog.breaks l' = TimeLog.breaks l
       /\ (forall b,
             In b (TimeLog.breaks l) -> BreakLog.breakOut b = None ->
             In b (TimeLog.breaks l') /\ BreakLog.breakOut b = None)
       /\ (TimeLog.employeeId l <> Employee.id employee
           \/ TimeLog.date l <> today ->
           l' = l))
  /\ List.length (timeLogs state') = List.length (timeLogs state)
  /\ employees state' = employees state
  /\ tasks state' = tasks state
  /\ leaveRequests state' = leaveRequests state
  /\ payrollEntries state' = payrollEntries state
  /\ overtimeSettings state' = overtimeSettings state.
Proof.
  intros Hlog Hout Htasks Hnd state'. subst state'.
  rewrite (handleCheckOut_success now state log Hlog Hout Htasks). simpl.
  split; [|split; [apply length_map | repeat split]].
  intros i l Hl.
  rewrite nth_error_map, Hl. simpl. eexists. split; [reflexivity|].
  destruct (TimeLog.id l === TimeLog.id log) eqn:Hid; simpl.
  - repeat split; try assumption.
    intros Hother. exfalso.
    apply String.eqb_eq in Hid.
    assert (l = log) as ->.
    { apply (NoDup_map_injective TimeLog.id (timeLogs state)); trivial.
      - eapply nth_error_In, Hl.
      - apply (find_some _ _ Hlog). }
    apply find_some in Hlog. destruct Hlog as [_ Hlog].
    apply isToday_true in Hlog. tauto.
  - repeat split; assumption.
Qed.

End TimeLedger.

(** ** Payroll engine *)

Section Payroll.

Variable rt : Runtime.
Variable employee : Employee.t.

Local Abbreviation newPayrollEntries :=
  (AdminView.newPayrollEntries rt employee).
Local Abbreviation payrollEntryFor := (AdminView.payrollEntryFor rt employee).
Local Abbreviation handleProcessPayroll :=
  (AdminView.handleProcessPayroll rt employee).

Lemma fold_add (f : TimeLog.t -> Q) (l : list TimeLog.t) (a : Q) :
  (fold_left (fun sum log => sum + f log) l a == a + sumQ (map f l))%Q.
Proof.
  revert a. induction l as [|x l IH]; intros a; simpl.
  - ring.
  - rewrite IH. ring.
Qed.

(** Where the runtime cuts the month as the calendar does, the filter of
    [handleProcessPayroll] keeps the logs of the employee dated in the
    month that have a check-out. *)
Lemma monthLogs_filter (month : string) (state : HRMState)
    (emp : Employee.t) :
  cutsMonth rt month (timeLogs state) ->
  AdminView.monthLogs rt month state emp
  = filter
      (fun log =>
         (TimeLog.employeeId log === Employee.id emp)
         && withinMonth month (TimeLog.date log)
         && isSome (TimeLog.checkOut log))
      (timeLogs state).
Proof.
  intros Hcut. unfold AdminView.monthLogs. apply filter_ext_in.
  intros log Hin. rewrite <- (Hcut log Hin), !andb_assoc. reflexivity.
Qed.

Lemma monthLogs_total (month : string) (state : HRMState) (emp : Employee.t) :
  cutsMonth rt month (timeLogs state) ->
  (fold_left (fun sum log => sum + TimeLog.totalHours log)
     (AdminView.monthLogs rt month state emp) 0
   == monthTotalHours month (timeLogs state) (Employee.id emp))%Q.
Proof.
  intros Hcut. rewrite fold_add, (monthLogs_filter _ _ _ Hcut).
  unfold monthTotalHours. ring.
Qed.

Lemma orElse_nonzero (x d : Q) : ~ (x == 0)%Q -> orElse x d = x.
Proof.
  intros Hx. unfold orElse. destruct (Qeq_bool x 0) eqn:E; [|reflexivity].
  apply Qeq_bool_iff in E. contradiction.
Qed.

Lemma overtime_condition (totalHours target : Q) (available : Z) :
  negb (Qle_bool totalHours target) && (available <=? 0) = true
  <-> (target < totalHours)%Q /\ available <= 0.
Proof.
  rewrite andb_true_iff, negb_true_iff, Z.leb_le.
  split; intros [H1 H2]; split; trivial.
  - apply Qnot_le_lt. intros Hle. apply Qle_bool_iff in Hle. congruence.
  - destruct (Qle_bool totalHours target) eqn:E; [|reflexivity].
    apply Qle_bool_iff in E. exfalso. exact (Qlt_not_le _ _ H1 E).
Qed.

(** The entry pushed for an employee who has none for the month. *)
Lemma payrollEntryFor_new (now : Z) (month : string) (state : HRMState)
    (emp : Employee.t) :
  cutsMonth rt month (timeLogs state) ->
  (forall o,
     In o (overtimeSettings state) ->
     ~ (OvertimeSettings.overtimeMultiplier o == 0)%Q) ->
  payrollEntryOf (Employee.id emp) month (payrollEntries state) = None ->
  exists p,
    payrollEntryFor now month state emp = [p]
    /\ payrollFormulas month state emp p
    /\ PayrollEntry.status p = PayPending
    /\ PayrollEntry.processedBy p = Some (Employee.id employee)
    /\ PayrollEntry.processedAt p = Some now.
Proof.
  intros Hcut Hmult Hnone.
  unfold AdminView.payrollEntryFor.
  unfold payrollEntryOf in Hnone. rewrite Hnone.
  eexists. split; [reflexivity|]. split; [|repeat split].
  pose proof (monthLogs_total month state emp Hcut) as HT.
  unfold payrollFormulas. simpl.
  set (T := fold_left _ _ _) in *.
  set (T' := monthTotalHours _ _ _) in *.
  set (target := targetHours _).
  set (avail := Employee.compLeavesEarned emp - Employee.compLeavesUsed emp).
  split; [reflexivity|]. split; [reflexivity|].
  split. { rewrite HT. reflexivity. }
  split.
  { intros Hcond. rewrite <- HT in Hcond.
    apply overtime_condition in Hcond. rewrite Hcond, HT. reflexivity. }
  split.
  { intros Hcond. rewrite <- HT, <- overtime_condition in Hcond.
    destruct (negb (Qle_bool T target) && (avail <=? 0)); [tauto|].
    reflexivity. }
  split; [reflexivity|].
  split.
  { intros o Ho. unfold overtimeSettingsOf in Ho. rewrite Ho.
    rewrite orElse_nonzero; [reflexivity|].
    apply Hmult. apply (find_some _ _ Ho). }
  split; [|reflexivity].
  intros Ho. unfold overtimeSettingsOf in Ho. rewrite Ho. reflexivity.
Qed.

(** The employee who already has an entry for the month is skipped. *)
Lemma payrollEntryFor_existing (now : Z) (month : string) (state : HRMState)
    (emp : Employee.t) (p : PayrollEntry.t) :
  payrollEntryOf (Employee.id emp) month (payrollEntries state) = Some p ->
  payrollEntryFor now month state emp = [].
Proof.
  intros Hsome. unfold AdminView.payrollEntryFor.
  unfold payrollEntryOf in Hsome. rewrite Hsome. reflexivity.
Qed.

(** Where the runtime cuts the month as the calendar does: one entry is
    emitted for every employee without an entry for the month, it has the
    hours and the pay of the formulas, and nothing else is emitted. *)
Lemma processMonth_formulas (now : Z) (month : string) (state : HRMState) :
  cutsMonth rt month (timeLogs state) ->
  (forall o,
     In o (overtimeSettings state) ->
     ~ (OvertimeSettings.overtimeMultiplier o == 0)%Q) ->
  let new := newPayrollEntries now month state in
  (forall emp,
     In emp (employees state) ->
     payrollEntryOf (Employee.id emp) month (payrollEntries state) = None ->
     exists p,
       payrollEntryFor now month state emp = [p]
       /\ In p new
       /\ payrollFormulas month state emp p)
  /\ (forall p,
        In p new ->
        exists emp,
          In emp (employees state)
          /\ payrollEntryOf (Employee.id emp) month (payrollEntries state)
             = None
          /\ payrollFormulas month state emp p)
  /\ (new <> [] ->
      payrollEntries (perform (handleProcessPayroll now month) state)
      = payrollEntries state ++ new).
Proof.
  intros Hcut Hmult new. split; [|split].
  - intros emp Hin Hnone.
    destruct (payrollEntryFor_new now month state emp Hcut Hmult Hnone)
      as (p & Hp & Hform & _).
    exists p. split; [exact Hp|]. split; [|exact Hform].
    apply in_flat_map. exists emp. split; [exact Hin|].
    rewrite Hp. left. reflexivity.
  - intros p Hp. apply in_flat_map in Hp. destruct Hp as (emp & Hin & Hp).
    exists emp. split; [exact Hin|].
    destruct (payrollEntryOf (Employee.id emp) month (payrollEntries state))
      as [q|] eqn:Hex.
    + rewrite (payrollEntryFor_existing now month state emp q Hex) in Hp.
      contradiction.
    + split; [reflexivity|].
      destruct (payrollEntryFor_new now month state emp Hcut Hmult Hex)
        as (p' & Hp' & Hform & _).
      rewrite Hp' in Hp. destruct Hp as [<-|[]]. exact Hform.
  - intros Hne. unfold perform, AdminView.handleProcessPayroll.
    fold new. destruct new; [congruence | reflexivity].
Qed.

(** The split of 90 hours against a target of 80 with one comp leave
    earned: 80 regular hours and no overtime while the leave is unused, 80
    and 10 once it is used. *)
Lemma payrollFormulas_split (month : string) (state : HRMState)
    (emp : Employee.t) (p : PayrollEntry.t) :
  payrollFormulas month state emp p ->
  (monthTotalHours month (timeLogs state) (Employee.id emp) == 90)%Q ->
  Employee.monthlyHourTarget emp = H80 ->
  Employee.compLeavesEarned emp = 1 ->
  (Employee.compLeavesUsed emp = 0 ->
   (PayrollEntry.regularHours p == 80)%Q
   /\ (PayrollEntry.overtimeHours p == 0)%Q)
  /\ (Employee.compLeavesUsed emp = 1 ->
      (PayrollEntry.regularHours p == 80)%Q
      /\ (PayrollEntry.overtimeHours p == 10)%Q).
Proof.
  intros Hform HT Htarget Hearned.
  unfold payrollFormulas in Hform. cbv zeta in Hform.
  destruct Hform as (_ & _ & Hreg & Hot & Hnot & _).
  rewrite Htarget, Hearned in Hot, Hnot. rewrite Htarget in Hreg.
  change (targetHours H80) with 80%Q in Hreg, Hot, Hnot.
  assert ((Qmin 90 80 == 80)%Q) as Hmin
    by (apply Q.min_r; discriminate).
  split; intros Hused; rewrite Hused in Hot, Hnot.
  + split.
    * rewrite Hreg, HT. exact Hmin.
    * apply Hnot. intros [_ Habs]. lia.
  + split.
    * rewrite Hreg, HT. exact Hmin.
    * rewrite Hot, HT; [reflexivity|].
      split; [rewrite HT; reflexivity | lia].
Qed.

Lemma payrollEntryFor_cases (now : Z) (month : string) (state : HRMState)
    (emp : Employee.t) :
  (payrollEntryOf (Employee.id emp) month (payrollEntries state) <> None
   /\ payrollEntryFor now month state emp = [])
  \/ (payrollEntryOf (Employee.id emp) month (payrollEntries state) = None
      /\ exists p,
           payrollEntryFor now month state emp = [p]
           /\ PayrollEntry.employeeId p = Employee.id emp
           /\ PayrollEntry.month p = month).
Proof.
  unfold AdminView.payrollEntryFor, payrollEntryOf.
  destruct (find _ (payrollEntries state)) as [q|].
  - left. split; [discriminate | reflexivity].
  - right. split; [reflexivity|]. eexists. repeat split.
Qed.

Lemma newPayrollEntries_nil (now : Z) (month : string) (state : HRMState) :
  newPayrollEntries now month state = []
  <-> forall emp,
        In emp (employees state) ->
        payrollEntryOf (Employee.id emp) month (payrollEntries state)
        <> None.
Proof.
  unfold AdminView.newPayrollEntries.
  induction (employees state) as [|e emps IH]; simpl.
  - tauto.
  - split.
    + intros H. apply app_eq_nil in H. destruct H as [He Hr].
      intros emp [<-|Hin].
      * destruct (payrollEntryFor_cases now month state e)
          as [[Hsome _]|[_ (p & Hp & _)]]; [exact Hsome | congruence].
      * apply IH; assumption.
    + intros H.
      destruct (payrollEntryFor_cases now month state e)
        as [[_ ->]|[Hnone _]].
      * simpl. apply IH. intros emp Hin. apply H. right. exact Hin.
      * exfalso. apply (H e); [left; reflexivity | exact Hnone].
Qed.

Lemma find_app {A} (f : A -> bool) (l l' : list A) :
  find f (l ++ l')
  = match find f l with Some x => Some x | None => find f l' end.
Proof.
  induction l as [|x l IH]; simpl; [reflexivity|].
  destruct (f x); [reflexivity | exact IH].
Qed.

Lemma find_In {A} (f : A -> bool) (l : list A) (x : A) :
  In x l -> f x = true -> find f l <> None.
Proof.
  intros Hin Hf Hnone. pose proof (find_none _ _ Hnone x Hin). congruence.
Qed.

Lemma find_none_filter {A} (f : A -> bool) (l : list A) :
  find f l = None -> filter f l = [].
Proof.
  induction l as [|x l IH]; simpl; [reflexivity|].
  destruct (f x); [discriminate | exact IH].
Qed.

(** After a run, every employee has an entry for the month. *)
Lemma processed_all (now : Z) (month : string) (state : HRMState)
    (emp : Employee.t) :
  In emp (employees state) ->
  payrollEntryOf (Employee.id emp) month
    (payrollEntries (perform (handleProcessPayroll now month) state))
  <> None.
Proof.
  intros Hin.
  unfold perform, AdminView.handleProcessPayroll.
  destruct (newPayrollEntries now month state) as [|q new] eqn:Hnew.
  - simpl. apply (proj1 (newPayrollEntries_nil now month state) Hnew emp Hin).
  - simpl. rewrite <- Hnew. unfold payrollEntryOf. rewrite find_app.
    destruct (payrollEntryFor_cases now month state emp)
      as [[Hsome _]|[Hnone (p & Hp & Heid & Hmonth)]].
    + unfold payrollEntryOf in Hsome.
      destruct (find _ (payrollEntries state)); [discriminate | congruence].
    + unfold payrollEntryOf in Hnone. rewrite Hnone.
      apply (find_In _ _ p).
      * apply in_flat_map. exists emp. split; [exact Hin|].
        rewrite Hp. left. reflexivity.
      * rewrite Heid, Hmonth, !String.eqb_refl. reflexivity.
Qed.

Lemma payrollCount_app (eid month : string) (l l' : list PayrollEntry.t) :
  payrollCount eid month (l ++ l')
  = (payrollCount eid month l + payrollCount eid month l')%nat.
Proof.
  unfold payrollCount. rewrite filter_app, length_app. reflexivity.
Qed.

(** With distinct employee ids, a run emits at most one entry for an id,
    and none for an id that has an entry already. *)
Lemma payrollCount_new (now : Z) (month eid : string) (state : HRMState)
    (emps : list Employee.t) :
  NoDup (map Employee.id emps) ->
  let new := flat_map (payrollEntryFor now month state) emps in
  (payrollCount eid month new <= 1)%nat
  /\ (~ In eid (map Employee.id emps) -> payrollCount eid month new = 0%nat)
  /\ (payrollEntryOf eid month (payrollEntries state) <> None ->
      payrollCount eid month new = 0%nat).
Proof.
  induction emps as [|e emps IH]; simpl; intros Hnd.
  - repeat split; auto.
  - inversion Hnd as [|? ? Hnotin Hnd']; subst.
    destruct (IH Hnd') as (IH1 & IH2 & IH3).
    rewrite payrollCount_app.
    destruct (payrollEntryFor_cases now month state e)
      as [[Hsome ->]|[Hnone (p & -> & Heid & Hmonth)]].
    + simpl. repeat split; auto.
    + unfold payrollCount at 1 3 5. simpl.
      rewrite Heid, Hmonth, String.eqb_refl, andb_true_r.
      destruct (Employee.id e === eid) eqn:E; simpl.
      * apply String.eqb_eq in E. subst eid.
        rewrite (IH2 Hnotin).
        split; [lia|]. split; [tauto | congruence].
      * apply String.eqb_neq in E.
        split; [exact IH1|]. split; [|exact IH3].
        intros Hn. apply IH2. tauto.
Qed.

(** C2.  Processing a month skips every employee who already has an entry
    for it; a second run on the result emits no entry, is reported
    (Payroll already processed for this month) and leaves the state as the
    first run left it; when every employee already has an entry the run is
    that report and no state change; and, employee ids being distinct, a
    state with at most one entry per employee for the month keeps at most
    one. *)
Theorem processMonth_idempotent (now now' : Z) (month : string)
    (state : HRMState) :
  let state1 := perform (handleProcessPayroll now month) state in
  (forall emp p,
     payrollEntryOf (Employee.id emp) month (payrollEntries state) = Some p ->
     payrollEntryFor now month state emp = [])
  /\ newPayrollEntries now' month state1 = []
  /\ handleProcessPayroll now' month state1
     = Ignored (Some "Payroll already processed for this month")
  /\ perform (handleProcessPayroll now' month) state1 = state1
  /\ payrollEntries (perform (handleProcessPayroll now' month) state1)
     = payrollEntries state1
  /\ ((forall emp,
         In emp (employees state) ->
         payrollEntryOf (Employee.id emp) month (payrollEntries state)
         <> None) ->
      handleProcessPayroll now month state
      = Ignored (Some "Payroll already processed for this month")
      /\ state1 = state)
  /\ (NoDup (map Employee.id (employees state)) ->
      (forall eid,
         (payrollCount eid month (payrollEntries state) <= 1)%nat) ->
      forall eid,
        (payrollCount eid month (payrollEntries state1) <= 1)%nat).
Proof.
  intros state1.
  assert (employees state1 = employees state) as Hemps.
  { unfold state1, perform, AdminView.handleProcessPayroll.
    destruct (newPayrollEntries now month state); reflexivity. }
  assert (newPayrollEntries now' month state1 = []) as Hnil.
  { apply newPayrollEntries_nil. rewrite Hemps. intros emp Hin.
    apply processed_all, Hin. }
  assert (handleProcessPayroll now' month state1
          = Ignored (Some "Payroll already processed for this month"))
    as Hign.
  { unfold AdminView.handleProcessPayroll. rewrite Hnil. reflexivity. }
  split; [|split; [|split; [|split; [|split; [|split]]]]].
  - intros emp p. apply payrollEntryFor_existing.
  - exact Hnil.
  - exact Hign.
  - unfold perform. rewrite Hign. reflexivity.
  - unfold perform. rewrite Hign. reflexivity.
  - intros Hall. apply newPayrollEntries_nil with (now := now) in Hall.
    unfold state1, perform, AdminView.handleProcessPayroll.
    rewrite Hall. split; reflexivity.
  - intros Hnd Hold eid.
    unfold state1, perform, AdminView.handleProcessPayroll.
    destruct (newPayrollEntries now month state) as [|q new] eqn:Hnew.
    + simpl. apply Hold.
    + simpl. rewrite <- Hnew, payrollCount_app.
      destruct (payrollCount_new now month eid state (employees state) Hnd)
        as (H1 & _ & H3).
      fold (newPayrollEntries now month state) in H1, H3.
      destruct (payrollEntryOf eid month (payrollEntries state)) eqn:Hex.
      * rewrite H3 by discriminate. specialize (Hold eid). lia.
      * unfold payrollCount at 1. unfold payrollEntryOf in Hex.
        rewrite (find_none_filter _ _ Hex). simpl. exact H1.
Qed.

End Payroll.

(** ** Payroll engine: the month of the calendar

    The bounds of the month that [handleProcessPayroll] compares the logs
    with, in UTC and in a zone east of it. *)

Section PayrollCalendar.

Lemma upto_In (n : nat) (s i : Z) :
  s <= i < s + Z.of_nat n -> In i (Calendar.upto n s).
Proof.
  revert s. induction n as [|n IH]; intros s H; simpl; [lia|].
  destruct (Z.eq_dec s i) as [E|E]; [left; exact E|].
  right. apply IH. lia.
Qed.

(** The months of four hundred years, one by one. *)
Lemma months_tile :
  forallb Calendar.tiles (Calendar.upto (Z.to_nat 4800) 0) = true.
Proof.
  vm_compute. reflexivity.
Qed.

(** The calendar repeats after four hundred years, which are 146097
    days. *)
Lemma daysFromCivil_period (y m d : Z) :
  Utc.daysFromCivil (y + 400) m d = Utc.daysFromCivil y m d + 146097.
Proof.
  unfold Utc.daysFromCivil. cbv zeta.
  replace (if m <=? 2 then y + 400 - 1 else y + 400)
    with ((if m <=? 2 then y - 1 else y) + 1 * 400)
    by (destruct (m <=? 2); lia).
  set (y0 := if m <=? 2 then y - 1 else y).
  rewrite Z.div_add by lia.
  replace (y0 + 1 * 400 - (y0 / 400 + 1) * 400) with (y0 - y0 / 400 * 400)
    by lia.
  lia.
Qed.

Lemma yearMonthOfDays_period (z : Z) :
  Utc.yearMonthOfDays (z + 146097)
  = (fst (Utc.yearMonthOfDays z) + 400, snd (Utc.yearMonthOfDays z)).
Proof.
  unfold Utc.yearMonthOfDays. cbv zeta.
  replace (z + 146097 + 719468) with (z + 719468 + 1 * 146097) by lia.
  rewrite Z.div_add by lia.
  replace (z + 719468 + 1 * 146097 - ((z + 719468) / 146097 + 1) * 146097)
    with (z + 719468 - (z + 719468) / 146097 * 146097) by lia.
  set (doe := z + 719468 - (z + 719468) / 146097 * 146097).
  set (yoe := (doe - doe / 1460 + doe / 36524 - doe / 146096) / 365).
  set (mp := (5 * (doe - (365 * yoe + yoe / 4 - yoe / 100)) + 2) / 153).
  simpl fst. simpl snd.
  destruct ((if mp <? 10 then mp + 3 else mp - 9) <=? 2); f_equal; lia.
Qed.

Lemma daysInMonth_period (y m : Z) :
  Calendar.daysInMonth (y + 400) m = Calendar.daysInMonth y m.
Proof.
  unfold Calendar.daysInMonth, Calendar.leapYear.
  replace ((y + 400) mod 4) with (y mod 4)
    by (change 400 with (100 * 4); rewrite Z_mod_plus_full; reflexivity).
  replace ((y + 400) mod 100) with (y mod 100)
    by (change 400 with (4 * 100); rewrite Z_mod_plus_full; reflexivity).
  replace ((y + 400) mod 400) with (y mod 400)
    by (change (y + 400) with (y + 1 * 400); rewrite Z_mod_plus_full;
        reflexivity).
  reflexivity.
Qed.

Lemma firstDay_period (i : Z) :
  Calendar.firstDay (i + 4800) = Calendar.firstDay i + 146097.
Proof.
  unfold Calendar.firstDay.
  change (i + 4800) with (i + 400 * 12).
  rewrite Z.div_add, Z_mod_plus_full by lia.
  apply daysFromCivil_period.
Qed.

Lemma tiles_period (i : Z) : Calendar.tiles (i + 4800) = Calendar.tiles i.
Proof.
  unfold Calendar.tiles.
  replace (i + 4800 + 1) with (i + 1 + 4800) by lia.
  rewrite !firstDay_period, yearMonthOfDays_period.
  change (i + 4800) with (i + 400 * 12).
  rewrite Z.div_add, Z_mod_plus_full by lia.
  rewrite daysInMonth_period.
  destruct (Utc.yearMonthOfDays (Calendar.firstDay i)) as [y m].
  simpl fst. simpl snd. f_equal.
  - f_equal. destruct (Z.eqb_spec (y + 400) (i / 12 + 400));
      destruct (Z.eqb_spec y (i / 12)); lia || reflexivity.
  - destruct (Z.eqb_spec
                (Calendar.firstDay (i + 1) + 146097)
                (Calendar.firstDay i + 146097
                 + Calendar.daysInMonth (i / 12) (i mod 12 + 1)));
      destruct (Z.eqb_spec
                  (Calendar.firstDay (i + 1))
                  (Calendar.firstDay i
                   + Calendar.daysInMonth (i / 12) (i mod 12 + 1)));
      lia || reflexivity.
Qed.

Lemma tiles_month (i : Z) : 0 <= i -> Calendar.tiles i = true.
Proof.
  intros Hi.
  assert (forall (n : nat) (r : Z),
            0 <= r < 4800 ->
            Calendar.tiles (r + 4800 * Z.of_nat n) = true) as Hall.
  { induction n as [|n IH]; intros r Hr.
    - rewrite Z.add_0_r.
      apply (proj1 (forallb_forall _ _) months_tile).
      apply upto_In. rewrite Z2Nat.id; lia.
    - replace (r + 4800 * Z.of_nat (S n))
        with (r + 4800 * Z.of_nat n + 4800) by lia.
      rewrite tiles_period. apply IH. exact Hr. }
  pose proof (Z.div_mod i 4800) as Hdiv.
  pose proof (Z.mod_pos_bound i 4800) as Hmod.
  assert (0 <= i / 4800) by (apply Z.div_pos; lia).
  replace i with (i mod 4800 + 4800 * Z.of_nat (Z.to_nat (i / 4800)))
    by (rewrite Z2Nat.id; lia).
  apply Hall. lia.
Qed.

Lemma firstDay_found (i : Z) :
  0 <= i < 120000 ->
  Utc.yearMonthOfDays (Calendar.firstDay i) = (i / 12, i mod 12 + 1).
Proof.
  intros H. pose proof (tiles_month i (proj1 H)) as Ht.
  unfold Calendar.tiles in Ht.
  apply andb_true_iff in Ht. destruct Ht as [Ht _].
  destruct (Utc.yearMonthOfDays (Calendar.firstDay i)) as [y m].
  apply andb_true_iff in Ht. destruct Ht as [Hy Hm].
  apply Z.eqb_eq in Hy, Hm. congruence.
Qed.

Lemma firstDay_next (i : Z) :
  0 <= i < 120000 ->
  Calendar.firstDay (i + 1)
  = Calendar.firstDay i + Calendar.daysInMonth (i / 12) (i mod 12 + 1).
Proof.
  intros H. pose proof (tiles_month i (proj1 H)) as Ht.
  unfold Calendar.tiles in Ht.
  apply andb_true_iff in Ht. destruct Ht as [_ Ht].
  apply Z.eqb_eq in Ht. exact Ht.
Qed.

Lemma daysInMonth_bounds (y m : Z) : 28 <= Calendar.daysInMonth y m <= 31.
Proof.
  unfold Calendar.daysInMonth.
  destruct (m =? 2); [destruct (Calendar.leapYear y); lia|].
  destruct ((m =? 4) || (m =? 6) || (m =? 9) || (m =? 11)); lia.
Qed.

Lemma firstDay_mono (i j : Z) :
  0 <= i -> i <= j -> j <= 120000 ->
  Calendar.firstDay i <= Calendar.firstDay j.
Proof.
  intros Hi Hij Hj.
  replace j with (i + Z.of_nat (Z.to_nat (j - i))) in * by lia.
  generalize dependent (Z.to_nat (j - i)). intros n. clear j.
  induction n as [|n IH]; intros Hij Hj.
  - rewrite Z.add_0_r. lia.
  - rewrite Nat2Z.inj_succ in *.
    replace (i + Z.succ (Z.of_nat n)) with (i + Z.of_nat n + 1) by lia.
    rewrite firstDay_next by lia.
    pose proof (daysInMonth_bounds ((i + Z.of_nat n) / 12)
                  ((i + Z.of_nat n) mod 12 + 1)).
    assert (Calendar.firstDay i <= Calendar.firstDay (i + Z.of_nat n))
      by (apply IH; lia).
    lia.
Qed.

(** The number of the month [m] of the year [y]. *)
Lemma month_index (y m : Z) :
  1 <= m <= 12 ->
  (12 * y + m - 1) / 12 = y /\ (12 * y + m - 1) mod 12 + 1 = m.
Proof.
  intros Hm.
  assert ((12 * y + m - 1) / 12 = y) as Hq
    by (symmetry; apply (Z.div_unique _ _ _ (m - 1)); lia).
  split; [exact Hq|].
  rewrite Z.mod_eq by lia. rewrite Hq. lia.
Qed.

Lemma firstDay_month (y m : Z) :
  1 <= m <= 12 ->
  Calendar.firstDay (12 * y + m - 1) = Utc.daysFromCivil y m 1.
Proof.
  intros Hm. unfold Calendar.firstDay.
  destruct (month_index y m Hm) as [-> ->]. reflexivity.
Qed.

Lemma daysFromCivil_day (y m d : Z) :
  Utc.daysFromCivil y m d = Utc.daysFromCivil y m 1 + (d - 1).
Proof.
  unfold Utc.daysFromCivil. cbv zeta. lia.
Qed.

(** The texts of the calendar and the numbers they name. *)
Lemma digit_range (c : ascii) (v : Z) : Utc.digit c = Some v -> 0 <= v <= 9.
Proof.
  unfold Utc.digit. cbv zeta.
  destruct ((48 <=? Z.of_nat (nat_of_ascii c))
            && (Z.of_nat (nat_of_ascii c) <=? 57)) eqn:E; [|discriminate].
  intros [= <-]. apply andb_true_iff in E. destruct E as [E1 E2].
  apply Z.leb_le in E1, E2. lia.
Qed.

Lemma digit_inj (c c' : ascii) (v : Z) :
  Utc.digit c = Some v -> Utc.digit c' = Some v -> c = c'.
Proof.
  unfold Utc.digit. cbv zeta.
  destruct ((48 <=? Z.of_nat (nat_of_ascii c))
            && (Z.of_nat (nat_of_ascii c) <=? 57)); [|discriminate].
  destruct ((48 <=? Z.of_nat (nat_of_ascii c'))
            && (Z.of_nat (nat_of_ascii c') <=? 57)); [|discriminate].
  intros [= <-] [= H].
  assert (nat_of_ascii c = nat_of_ascii c') as E by lia.
  rewrite <- (ascii_nat_embedding c), <- (ascii_nat_embedding c'), E.
  reflexivity.
Qed.

Lemma number_two (a b : ascii) (v : Z) :
  Utc.number 0 [a; b] = Some v ->
  exists va vb,
    Utc.digit a = Some va /\ Utc.digit b = Some vb /\ v = va * 10 + vb.
Proof.
  simpl. destruct (Utc.digit a) as [va|]; [|discriminate].
  destruct (Utc.digit b) as [vb|]; [|discriminate].
  intros [= <-]. exists va, vb. auto.
Qed.

Lemma number_four (a b c d : ascii) (v : Z) :
  Utc.number 0 [a; b; c; d] = Some v ->
  exists va vb vc vd,
    Utc.digit a = Some va /\ Utc.digit b = Some vb
    /\ Utc.digit c = Some vc /\ Utc.digit d = Some vd
    /\ v = ((va * 10 + vb) * 10 + vc) * 10 + vd.
Proof.
  simpl. destruct (Utc.digit a) as [va|]; [|discriminate].
  destruct (Utc.digit b) as [vb|]; [|discriminate].
  destruct (Utc.digit c) as [vc|]; [|discriminate].
  destruct (Utc.digit d) as [vd|]; [|discriminate].
  intros [= <-]. exists va, vb, vc, vd. auto 6.
Qed.

Lemma number_two_inj (a b a' b' : ascii) (v : Z) :
  Utc.number 0 [a; b] = Some v -> Utc.number 0 [a'; b'] = Some v ->
  a = a' /\ b = b'.
Proof.
  intros H H'.
  destruct (number_two _ _ _ H) as (va & vb & Ha & Hb & ->).
  destruct (number_two _ _ _ H') as (va' & vb' & Ha' & Hb' & E).
  pose proof (digit_range _ _ Ha). pose proof (digit_range _ _ Hb).
  pose proof (digit_range _ _ Ha'). pose proof (digit_range _ _ Hb').
  assert (va = va') by lia. assert (vb = vb') by lia. subst.
  split; eapply digit_inj; eassumption.
Qed.

Lemma number_four_inj (a b c d a' b' c' d' : ascii) (v : Z) :
  Utc.number 0 [a; b; c; d] = Some v ->
  Utc.number 0 [a'; b'; c'; d'] = Some v ->
  a = a' /\ b = b' /\ c = c' /\ d = d'.
Proof.
  intros H H'.
  destruct (number_four _ _ _ _ _ H)
    as (va & vb & vc & vd & Ha & Hb & Hc & Hd & ->).
  destruct (number_four _ _ _ _ _ H')
    as (va' & vb' & vc' & vd' & Ha' & Hb' & Hc' & Hd' & E).
  pose proof (digit_range _ _ Ha). pose proof (digit_range _ _ Hb).
  pose proof (digit_range _ _ Hc). pose proof (digit_range _ _ Hd).
  pose proof (digit_range _ _ Ha'). pose proof (digit_range _ _ Hb').
  pose proof (digit_range _ _ Hc'). pose proof (digit_range _ _ Hd').
  assert (va = va') by lia. assert (vb = vb') by lia.
  assert (vc = vc') by lia. assert (vd = vd') by lia. subst.
  repeat split; eapply digit_inj; eassumption.
Qed.

Lemma number_four_range (a b c d : ascii) (v : Z) :
  Utc.number 0 [a; b; c; d] = Some v -> 0 <= v <= 9999.
Proof.
  intros H.
  destruct (number_four _ _ _ _ _ H)
    as (va & vb & vc & vd & Ha & Hb & Hc & Hd & ->).
  pose proof (digit_range _ _ Ha). pose proof (digit_range _ _ Hb).
  pose proof (digit_range _ _ Hc). pose proof (digit_range _ _ Hd). lia.
Qed.

Lemma monthOf_text (s : string) (Y M : Z) :
  Calendar.monthOf s = Some (Y, M) ->
  exists y1 y2 y3 y4 m1 m2,
    s = string_of_list_ascii [y1; y2; y3; y4; "-"%char; m1; m2]
    /\ Utc.number 0 [y1; y2; y3; y4] = Some Y
    /\ Utc.number 0 [m1; m2] = Some M
    /\ 1 <= M <= 12.
Proof.
  unfold Calendar.monthOf. intros H.
  rewrite <- (string_of_list_ascii_of_string s).
  destruct (list_ascii_of_string s)
    as [|y1 [|y2 [|y3 [|y4 [|dash [|m1 [|m2 [|]]]]]]]]; try discriminate.
  destruct (dash =? "-")%char eqn:Ed; [|discriminate].
  apply Ascii.eqb_eq in Ed. subst dash.
  destruct (Utc.number 0 [y1; y2; y3; y4]) as [y|] eqn:Ey; [|discriminate].
  destruct (Utc.number 0 [m1; m2]) as [m|] eqn:Em'; [|discriminate].
  destruct ((1 <=? m) && (m <=? 12)) eqn:Em; [|discriminate].
  injection H as <- <-.
  apply andb_true_iff in Em. destruct Em as [E1 E2].
  apply Z.leb_le in E1, E2.
  exists y1, y2, y3, y4, m1, m2.
  split; [reflexivity|]. split; [exact Ey|]. split; [exact Em'|]. lia.
Qed.

Lemma dayOf_text (s : string) (y m d : Z) :
  Calendar.dayOf s = Some (y, m, d) ->
  exists y1 y2 y3 y4 m1 m2 d1 d2,
    s = string_of_list_ascii
          [y1; y2; y3; y4; "-"%char; m1; m2; "-"%char; d1; d2]
    /\ Utc.number 0 [y1; y2; y3; y4] = Some y
    /\ Utc.number 0 [m1; m2] = Some m
    /\ Utc.number 0 [d1; d2] = Some d
    /\ 1 <= m <= 12
    /\ 1 <= d <= Calendar.daysInMonth y m.
Proof.
  unfold Calendar.dayOf. intros H.
  rewrite <- (string_of_list_ascii_of_string s).
  destruct (list_ascii_of_string s)
    as [|y1 [|y2 [|y3 [|y4 [|dash1 [|m1 [|m2 [|dash2 [|d1 [|d2 [|]]]]]]]]]]];
    try discriminate.
  destruct (dash1 =? "-")%char eqn:E1; [|discriminate].
  destruct (dash2 =? "-")%char eqn:E2; [|discriminate].
  apply Ascii.eqb_eq in E1, E2. subst dash1 dash2. simpl andb in H.
  destruct (Utc.number 0 [y1; y2; y3; y4]) as [y'|] eqn:Ey; [|discriminate].
  destruct (Utc.number 0 [m1; m2]) as [m'|] eqn:Em; [|discriminate].
  destruct (Utc.number 0 [d1; d2]) as [d'|] eqn:Ed; [|discriminate].
  destruct ((1 <=? m') && (m' <=? 12) && (1 <=? d')
            && (d' <=? Calendar.daysInMonth y' m')) eqn:Ec; [|discriminate].
  injection H as <- <- <-.
  rewrite !andb_true_iff, !Z.leb_le in Ec.
  exists y1, y2, y3, y4, m1, m2, d1, d2.
  split; [reflexivity|]. split; [exact Ey|]. split; [exact Em|].
  split; [exact Ed|]. lia.
Qed.

(** The day begins with the text of the month when its year and month are
    the month's. *)
Lemma withinMonth_same (month date : string) (Y M y m d : Z) :
  Calendar.monthOf month = Some (Y, M) ->
  Calendar.dayOf date = Some (y, m, d) ->
  withinMonth month date = true <-> Y = y /\ M = m.
Proof.
  intros Hmonth Hday.
  destruct (monthOf_text _ _ _ Hmonth)
    as (Y1 & Y2 & Y3 & Y4 & M1 & M2 & -> & HY & HM & _).
  destruct (dayOf_text _ _ _ _ Hday)
    as (y1 & y2 & y3 & y4 & m1 & m2 & d1 & d2 & -> & Hy & Hm & _).
  unfold withinMonth. simpl.
  split.
  - intros H.
    repeat match type of H with
           | (if ascii_dec ?a ?b then _ else _) = true =>
             destruct (ascii_dec a b); [subst|discriminate]
           end.
    split; congruence.
  - intros [<- <-].
    destruct (number_four_inj _ _ _ _ _ _ _ _ _ HY Hy) as (-> & -> & -> & ->).
    destruct (number_two_inj _ _ _ _ _ HM Hm) as (-> & ->).
    repeat match goal with
           | |- (if ascii_dec ?a ?a then _ else _) = true =>
             destruct (ascii_dec a a); [|congruence]
           end.
    reflexivity.
Qed.

Lemma parseDate_day (date : string) (y m d : Z) :
  Calendar.dayOf date = Some (y, m, d) ->
  Utc.parseDate date = Some (Utc.daysFromCivil y m d * Utc.msPerDay).
Proof.
  intros Hday.
  destruct (dayOf_text _ _ _ _ Hday)
    as (y1 & y2 & y3 & y4 & m1 & m2 & d1 & d2 & -> & Hy & Hm & Hd & Hmr & Hdr).
  unfold Utc.parseDate. rewrite list_ascii_of_string_of_list_ascii.
  change (("-" =? "-")%char) with true. simpl andb.
  rewrite Hy, Hm, Hd.
  pose proof (daysInMonth_bounds y m).
  assert ((1 <=? m) && (m <=? 12) && (1 <=? d) && (d <=? 31) = true) as ->.
  { rewrite !andb_true_iff, !Z.leb_le. lia. }
  reflexivity.
Qed.

Lemma parseDate_month (month : string) (Y M : Z) :
  Calendar.monthOf month = Some (Y, M) ->
  Utc.parseDate (month ^^ "-01")
  = Some (Utc.daysFromCivil Y M 1 * Utc.msPerDay).
Proof.
  intros Hmonth.
  destruct (monthOf_text _ _ _ Hmonth)
    as (Y1 & Y2 & Y3 & Y4 & M1 & M2 & -> & HY & HM & HMr).
  unfold Utc.parseDate. simpl list_ascii_of_string. cbv beta iota.
  change (("-" =? "-")%char) with true. simpl andb.
  rewrite HY, HM. change (Utc.number 0 ["0"%char; "1"%char]) with (Some 1).
  cbv beta iota.
  assert ((1 <=? M) && (M <=? 12) && (1 <=? 1) && (1 <=? 31) = true) as ->.
  { rewrite !andb_true_iff, !Z.leb_le. lia. }
  reflexivity.
Qed.

(** The bounds of the month [M] of the year [Y] in a zone [offset] east of
    UTC: from the first day of the month to the first of the next, in
    local time. *)
Lemma zone_month_bounds (offset Y M : Z) :
  0 <= offset < Utc.msPerDay ->
  0 <= Y <= 9999 -> 1 <= M <= 12 ->
  let i := 12 * Y + M - 1 in
  Zone.startOfMonth offset (Utc.daysFromCivil Y M 1 * Utc.msPerDay)
  = Calendar.firstDay i * Utc.msPerDay - offset
  /\ Zone.endOfMonth offset (Calendar.firstDay i * Utc.msPerDay - offset)
     = Calendar.firstDay (i + 1) * Utc.msPerDay - 1 - offset.
Proof.
  intros Ho HY HM i.
  assert (0 <= i < 120000) as Hi by (unfold i; lia).
  assert (Utc.daysFromCivil Y M 1 = Calendar.firstDay i) as HF
    by (symmetry; apply firstDay_month; exact HM).
  destruct (month_index Y M HM) as [Hq Hr]. fold i in Hq, Hr.
  assert (0 < Utc.msPerDay) as HD by reflexivity.
  assert ((Calendar.firstDay i * Utc.msPerDay + offset) / Utc.msPerDay
          = Calendar.firstDay i) as Hdiv.
  { symmetry. apply (Z.div_unique _ _ _ offset); lia. }
  assert ((Calendar.firstDay i * Utc.msPerDay) / Utc.msPerDay
          = Calendar.firstDay i) as Hdiv0
    by (apply Z.div_mul; lia).
  split.
  - unfold Zone.startOfMonth, Utc.startOfMonth. rewrite HF, Hdiv.
    rewrite (firstDay_found i Hi), Hq, Hr, HF. reflexivity.
  - unfold Zone.endOfMonth, Utc.endOfMonth.
    replace (Calendar.firstDay i * Utc.msPerDay - offset + offset)
      with (Calendar.firstDay i * Utc.msPerDay) by lia.
    rewrite Hdiv0, (firstDay_found i Hi), Hq, Hr.
    assert ((if M =? 12 then Utc.daysFromCivil (Y + 1) 1 1
             else Utc.daysFromCivil Y (M + 1) 1)
            = Calendar.firstDay (i + 1)) as ->; [|reflexivity].
    destruct (M =? 12) eqn:E.
    + apply Z.eqb_eq in E.
      replace (i + 1) with (12 * (Y + 1) + 1 - 1) by (unfold i; lia).
      symmetry. apply firstDay_month. lia.
    + apply Z.eqb_neq in E.
      replace (i + 1) with (12 * Y + (M + 1) - 1) by (unfold i; lia).
      symmetry. apply firstDay_month. lia.
Qed.

(** In UTC and east of it the program cuts the month as the calendar
    does. *)
Lemma zone_cutsMonth (offset : Z) (month : string) (logs : list TimeLog.t) :
  0 <= offset < Utc.msPerDay ->
  Calendar.isMonth month = true ->
  (forall log, In log logs -> Calendar.isDay (TimeLog.date log) = true) ->
  cutsMonth (Zone.runtime offset) month logs.
Proof.
  intros Ho Hmonth Hdays log Hin.
  unfold Calendar.isMonth in Hmonth.
  destruct (Calendar.monthOf month) as [[Y M]|] eqn:EM; [|discriminate].
  pose proof (Hdays log Hin) as Hday. unfold Calendar.isDay in Hday.
  destruct (Calendar.dayOf (TimeLog.date log)) as [[[y m] d]|] eqn:ED;
    [|discriminate].
  pose proof (withinMonth_same _ _ _ _ _ _ _ EM ED) as Hsame.
  destruct (monthOf_text _ _ _ EM)
    as (Y1 & Y2 & Y3 & Y4 & M1 & M2 & _ & HY & _ & HMr).
  destruct (dayOf_text _ _ _ _ ED)
    as (y1 & y2 & y3 & y4 & m1 & m2 & d1 & d2 & _ & Hy & _ & _ & Hmr & Hdr).
  apply number_four_range in HY, Hy.
  unfold AdminView.monthEnd, AdminView.monthStart.
  change (parseDate (Zone.runtime offset)) with Utc.parseDate.
  change (startOfMonth (Zone.runtime offset)) with (Zone.startOfMonth offset).
  change (endOfMonth (Zone.runtime offset)) with (Zone.endOfMonth offset).
  rewrite (parseDate_day _ _ _ _ ED), (parseDate_month _ _ _ EM).
  cbv [option_map dateGe dateLe].
  destruct (zone_month_bounds offset Y M Ho HY HMr) as [-> ->].
  rewrite daysFromCivil_day, <- (firstDay_month y m Hmr).
  set (i := 12 * Y + M - 1). set (k := 12 * y + m - 1).
  assert (0 <= i < 120000) as Hi by (unfold i; lia).
  assert (0 <= k < 120000) as Hk by (unfold k; lia).
  pose proof (firstDay_next k Hk) as Hnext.
  destruct (month_index y m Hmr) as [Hq Hr]. fold k in Hq, Hr.
  rewrite Hq, Hr in Hnext.
  assert (0 < Utc.msPerDay) as HD by reflexivity.
  destruct (withinMonth month (TimeLog.date log)) eqn:W.
  - destruct (proj1 Hsame eq_refl) as [<- <-]. fold k in i. subst i.
    rewrite andb_true_iff, !Z.leb_le. split; nia.
  - assert (i <> k) as Hne.
    { intros E. assert (Y = y /\ M = m) as HYM by (unfold i, k in E; lia).
      apply Hsame in HYM. discriminate. }
    rewrite andb_false_iff, !Z.leb_gt.
    destruct (Z.lt_ge_cases k i) as [Hlt|Hge].
    + left. pose proof (firstDay_mono (k + 1) i). nia.
    + right. pose proof (firstDay_mono (i + 1) k). nia.
Qed.


End PayrollCalendar.

(** ** Leave ledger *)

Section LeaveLedger.

(** The manager who decides, or the employee who requests. *)
Variable employee : Employee.t.

Local Abbreviation handleApproveLeave :=
  (ManagerView.handleApproveLeave employee).

Lemma find_map_same {A} (p : A -> bool) (upd : A -> A) (l : list A) :
  (forall x, p x = true -> p (upd x) = true) ->
  find p (map (fun x => if p x then upd x else x) l)
  = option_map upd (find p l).
Proof.
  intros Hupd. induction l as [|x l IH]; simpl; [reflexivity|].
  destruct (p x) eqn:Hx.
  - rewrite (Hupd x Hx). reflexivity.
  - rewrite Hx. exact IH.
Qed.

(** [{ ...req, status, reviewedBy, reviewedAt, reviewComment }] *)
Lemma handleApproveLeave_success (now : Z) (leaveId : string)
    (approved : bool) (comment : option string) (state : HRMState)
    (leave : LeaveRequest.t) (emp : Employee.t) :
  leaveById leaveId state = Some leave ->
  employeeById (LeaveRequest.employeeId leave) state = Some emp ->
  exists entry,
    perform (handleApproveLeave now leaveId approved comment) state
    = withAudit entry
        (withEmployees
           (if approved
            then map (fun e =>
                        if Employee.id e === LeaveRequest.employeeId leave
                        then Employee.withCompLeavesUsed
                               (Employee.compLeavesUsed e + 1) e
                        else e)
                   (employees state)
            else employees state)
           (withLeaveRequests
              (map (fun req =>
                      if LeaveRequest.id req === leaveId
                      then LeaveRequest.mk (LeaveRequest.id req)
                             (LeaveRequest.employeeId req)
                             (LeaveRequest.startDate req)
                             (LeaveRequest.endDate req)
                             (LeaveRequest.reason req)
                             (if approved then LeaveApproved
                              else LeaveRejected)
                             (LeaveRequest.requestedAt req)
                             (Some (Employee.id employee)) (Some now) comment
                      else req)
                 (leaveRequests state))
              state))
    /\ AuditLog.userId entry = Employee.id employee
    /\ AuditLog.userName entry = Employee.name employee
    /\ AuditLog.entityId entry = leaveId.
Proof.
  unfold leaveById, employeeById. intros Hleave Hemp.
  unfold perform, ManagerView.handleApproveLeave. rewrite Hleave, Hemp.
  simpl. eexists. split; [reflexivity|]. repeat split.
Qed.

(** C5.  Deciding a pending leave request: approval adds exactly 1 to the
    compLeavesUsed of the employee who made the request, whatever its start
    and end dates, and leaves compLeavesEarned alone; rejection leaves the
    employees, hence both counters, unchanged; in both cases the request
    gets the status approved or rejected, the reviewer's id and the time of
    the review, and keeps its dates. *)
Theorem decide_compLeave (now : Z) (leaveId : string)
    (comment : option string) (state : HRMState) (leave : LeaveRequest.t)
    (emp : Employee.t) :
  leaveById leaveId state = Some leave ->
  LeaveRequest.status leave = LeavePending ->
  employeeById (LeaveRequest.employeeId leave) state = Some emp ->
  let approvedState :=
    perform (handleApproveLeave now leaveId true comment) state in
  let rejectedState :=
    perform (handleApproveLeave now leaveId false comment) state in
  (exists emp',
     employeeById (LeaveRequest.employeeId leave) approvedState = Some emp'
     /\ Employee.compLeavesUsed emp' = Employee.compLeavesUsed emp + 1
     /\ Employee.compLeavesEarned emp' = Employee.compLeavesEarned emp)
  /\ (forall i e,
        nth_error (employees state) i = Some e ->
        Employee.id e <> LeaveRequest.employeeId leave ->
        nth_error (employees approvedState) i = Some e)
  /\ employees rejectedState = employees state
  /\ (exists leave',
        leaveById leaveId approvedState = Some leave'
        /\ LeaveRequest.status leave' = LeaveApproved
        /\ LeaveRequest.reviewedBy leave' = Some (Employee.id employee)
        /\ LeaveRequest.reviewedAt leave' = Some now
        /\ LeaveRequest.startDate leave' = LeaveRequest.startDate leave
        /\ LeaveRequest.endDate leave' = LeaveRequest.endDate leave)
  /\ (exists leave',
        leaveById leaveId rejectedState = Some leave'
        /\ LeaveRequest.status leave' = LeaveRejected
        /\ LeaveRequest.reviewedBy leave' = Some (Employee.id employee)
        /\ LeaveRequest.reviewedAt leave' = Some now
        /\ LeaveRequest.startDate leave' = LeaveRequest.startDate leave
        /\ LeaveRequest.endDate leave' = LeaveRequest.endDate leave).
Proof.
  intros Hleave _ Hemp approvedState rejectedState.
  destruct (handleApproveLeave_success now leaveId true comment state
              leave emp Hleave Hemp) as (ea & Ha & _).
  destruct (handleApproveLeave_success now leaveId false comment state
              leave emp Hleave Hemp) as (er & Hr & _).
  subst approvedState rejectedState. rewrite Ha, Hr. clear Ha Hr.
  unfold leaveById, employeeById in *. simpl.
  split; [|split; [|split; [|split]]].
  - rewrite find_map_same, Hemp by (intros x Hx; exact Hx).
    simpl. eexists. split; [reflexivity|]. split; reflexivity.
  - intros i e Hi Hid. rewrite nth_error_map, Hi. simpl.
    apply String.eqb_neq in Hid. rewrite Hid. reflexivity.
  - reflexivity.
  - rewrite find_map_same, Hleave by (intros x Hx; exact Hx).
    simpl. eexists. split; [reflexivity|]. repeat split.
  - rewrite find_map_same, Hleave by (intros x Hx; exact Hx).
    simpl. eexists. split; [reflexivity|]. repeat split.
Qed.

(** The handler itself does not look at the status of the request: in the
    example company, approving Sara's request a second time takes her used
    comp leaves from 1 to 2, and rejecting it turns the approved request
    into a rejected one. *)
Lemma handleApproveLeave_decides_again :
  option_map LeaveRequest.status (leaveById "leave_2" Examples.state)
  = Some LeaveApproved
  /\ option_map Employee.compLeavesUsed
       (employeeById "emp_sara" Examples.state)
     = Some 1
  /\ option_map Employee.compLeavesUsed
       (employeeById "emp_sara"
          (perform
             (ManagerView.handleApproveLeave Examples.manager Examples.now
                "leave_2" true None)
             Examples.state))
     = Some 2
  /\ option_map LeaveRequest.status
       (leaveById "leave_2"
          (perform
             (ManagerView.handleApproveLeave Examples.manager Examples.now
                "leave_2" false None)
             Examples.state))
     = Some LeaveRejected.
Proof.
  repeat split.
Qed.

Lemma clickReview_pending (requests : list LeaveRequest.t) (row : nat)
    (request : LeaveRequest.t) :
  LeaveReviewView.clickReview requests row = Some request ->
  nth_error requests row = Some request
  /\ LeaveRequest.status request = LeavePending.
Proof.
  unfold LeaveReviewView.clickReview, LeaveReviewView.isPending.
  destruct (nth_error requests row) as [r|]; [|discriminate].
  destruct (LeaveRequest.status r) eqn:E; try discriminate.
  intros H. injection H as <-. split; [reflexivity | exact E].
Qed.

(** C6, as the program has it.  The pending check is made by the review
    list, not by the handler: a request that is already approved or
    rejected has no Review button, so a decision taken through the list
    on such a row does nothing, and the state, with the request's status
    and every comp-leave counter, stays as it is.  A decision taken
    through the list on a pending request (the first one of its id) leaves
    no request with that id pending, so none of them can be reviewed
    again. *)
Theorem decide_only_pending (now : Z) (row : nat) (approved : bool)
    (comment : string) (state : HRMState) (request : LeaveRequest.t) :
  nth_error (ManagerView.teamLeaveRequests employee state) row
  = Some request ->
  (LeaveRequest.status request <> LeavePending ->
   LeaveReviewView.decide employee now row approved comment state
   = Ignored None
   /\ perform (LeaveReviewView.decide employee now row approved comment)
        state
      = state)
  /\ (LeaveRequest.status request = LeavePending ->
      leaveById (LeaveRequest.id request) state = Some request ->
      let state' :=
        perform (LeaveReviewView.decide employee now row approved comment)
          state in
      forall row' request',
        nth_error (ManagerView.teamLeaveRequests employee state') row'
        = Some request' ->
        LeaveRequest.id request' = LeaveRequest.id request ->
        LeaveRequest.status request'
        = (if approved then LeaveApproved else LeaveRejected)
        /\ LeaveReviewView.clickReview
             (ManagerView.teamLeaveRequests employee state') row'
           = None).
Proof.
  intros Hrow. split.
  - intros Hstatus.
    unfold perform, LeaveReviewView.decide, LeaveReviewView.clickReview.
    rewrite Hrow. unfold LeaveReviewView.isPending.
    destruct (LeaveRequest.status request); [congruence | | ];
      split; reflexivity.
  - intros Hstatus Hleave state' row' request' Hrow' Hid.
    assert (exists emp,
              employeeById (LeaveRequest.employeeId request) state = Some emp)
      as [emp Hemp].
    { apply nth_error_In in Hrow.
      unfold ManagerView.teamLeaveRequests in Hrow.
      apply filter_In in Hrow. destruct Hrow as [_ Hteam].
      apply existsb_exists in Hteam. destruct Hteam as (tm & Htm & Heq).
      unfold ManagerView.teamMembers in Htm. apply filter_In in Htm.
      destruct Htm as [Htm _]. unfold employeeById.
      destruct (find _ (employees state)) as [e|] eqn:Hfind.
      - exists e. reflexivity.
      - exfalso. exact (find_In _ _ tm Htm Heq Hfind). }
    destruct (handleApproveLeave_success now (LeaveRequest.id request)
                approved (LeaveReviewView.commentArg comment) state
                request emp Hleave Hemp) as (entry & Hperf & _).
    assert (state'
            = perform
                (handleApproveLeave now (LeaveRequest.id request) approved
                   (LeaveReviewView.commentArg comment))
                state) as Hstate'.
    { subst state'.
      unfold perform, LeaveReviewView.decide, LeaveReviewView.clickReview.
      rewrite Hrow. unfold LeaveReviewView.isPending. rewrite Hstatus.
      reflexivity. }
    rewrite Hperf in Hstate'. clear Hperf.
    assert (LeaveRequest.status request'
            = (if approved then LeaveApproved else LeaveRejected)) as Hdone.
    { apply nth_error_In in Hrow'.
      unfold ManagerView.teamLeaveRequests in Hrow'.
      apply filter_In in Hrow'. destruct Hrow' as [Hin' _].
      rewrite Hstate' in Hin'. simpl in Hin'.
      apply in_map_iff in Hin'. destruct Hin' as (req & Hreq & _).
      destruct (LeaveRequest.id req === LeaveRequest.id request) eqn:E.
      - subst request'. reflexivity.
      - subst request'. apply String.eqb_neq in E. contradiction. }
    split; [exact Hdone|].
    unfold LeaveReviewView.clickReview, LeaveReviewView.isPending.
    rewrite Hrow', Hdone. destruct approved; reflexivity.
Qed.

Lemma truthy_false (s : string) : truthy s = false <-> s = "".
Proof.
  destruct s; simpl; split; intros H; congruence.
Qed.

(** The dialog accepts an end date that precedes the start date: in the
    example company, Ali's request from 10 February back to 1 February is
    stored as a pending request. *)
Lemma requestLeave_accepts_reversed_range :
  String.compare "2024-02-01" "2024-02-10" = Lt
  /\ leaveRequests
       (perform
          (fun _ =>
             LeaveManagementEmployee.requestLeave Examples.ali Examples.now
               "2024-02-10" "2024-02-01" "Trip")
          Examples.state)
     = leaveRequests Examples.state
       ++ [LeaveRequest.mk "leave_1708020000000" "emp_ali" "2024-02-10"
             "2024-02-01" "Trip" LeavePending Examples.now None None None].
Proof.
  split; reflexivity.
Qed.

(** C7, as the program has it.  The request dialog creates no request,
    and changes nothing, when the start date or the end date is empty or
    the reason is blank (nothing but white space, that of [trim]); for
    every other input, whatever the order of the two dates, it appends
    exactly one request, with status pending, the dates as entered, the
    reason trimmed, and the time of the request. *)
Theorem requestLeave_validation (now : Z) (startDate endDate reason : string)
    (state : HRMState) :
  (startDate = "" \/ endDate = "" \/ trim reason = "" ->
   LeaveManagementEmployee.requestLeave employee now startDate endDate reason
   = Ignored None
   /\ perform
        (fun _ =>
           LeaveManagementEmployee.requestLeave employee now startDate
             endDate reason)
        state
      = state)
  /\ (startDate <> "" -> endDate <> "" -> trim reason <> "" ->
      leaveRequests
        (perform
           (fun _ =>
              LeaveManagementEmployee.requestLeave employee now startDate
                endDate reason)
           state)
      = leaveRequests state
        ++ [LeaveRequest.mk ("leave_" ^^ showInt now) (Employee.id employee)
              startDate endDate (trim reason) LeavePending now
              None None None]).
Proof.
  unfold perform, LeaveManagementEmployee.requestLeave,
    LeaveManagementEmployee.handleSubmit.
  split.
  - intros H.
    assert (truthy startDate && truthy endDate && truthy (trim reason)
            = false) as ->; [|split; reflexivity].
    rewrite !andb_false_iff, !truthy_false. tauto.
  - intros Hs He Hr.
    assert (truthy startDate && truthy endDate && truthy (trim reason)
            = true) as ->; [|reflexivity].
    rewrite !andb_true_iff.
    repeat split; apply not_false_is_true; rewrite truthy_false; assumption.
Qed.

End LeaveLedger.

(** ** Employee deletion *)

Section Deletion.

Variable employee : Employee.t.

Lemma filter_negb_not {A} (f : A -> string) (E : string) (l : list A) (x : A) :
  In x (filter (fun y => negb (f y === E)) l) -> f x <> E.
Proof.
  intros H. apply filter_In in H. destruct H as [_ H].
  apply negb_true_iff, String.eqb_neq in H. exact H.
Qed.

Lemma filter_other {A} (f : A -> string) (E other : string) (l : list A) :
  other <> E ->
  filter (fun y => f y === other) (filter (fun y => negb (f y === E)) l)
  = filter (fun y => f y === other) l.
Proof.
  intros Hne. induction l as [|x l IH]; simpl; [reflexivity|].
  destruct (f x === E) eqn:HE; simpl.
  - apply String.eqb_eq in HE.
    assert ((f x === other) = false) as ->
      by (apply String.eqb_neq; congruence).
    exact IH.
  - destruct (f x === other); [f_equal|]; exact IH.
Qed.

(** C8.  After the deletion of an employee E, no time log, task, leave
    request, payroll entry or overtime settings record has E as its
    employee, and E is no longer among the employees; for every other
    employee, the time logs, tasks, leave requests, payroll entries,
    overtime settings and employee records that are theirs are the same
    as before, in the same order. *)
Theorem deleteEmployee_cascade (now : Z) (E : string) (state : HRMState)
    (emp : Employee.t) :
  employeeById E state = Some emp ->
  let state' := perform (AdminView.handleDeleteEmployee employee now E) state
  in
  ((forall t, In t (timeLogs state') -> TimeLog.employeeId t <> E)
   /\ (forall t, In t (tasks state') -> Task.employeeId t <> E)
   /\ (forall l, In l (leaveRequests state') -> LeaveRequest.employeeId l <> E)
   /\ (forall p,
         In p (payrollEntries state') -> PayrollEntry.employeeId p <> E)
   /\ (forall o,
         In o (overtimeSettings state') -> OvertimeSettings.employeeId o <> E)
   /\ (forall e, In e (employees state') -> Employee.id e <> E))
  /\ (forall other,
        other <> E ->
        filter (fun t => TimeLog.employeeId t === other) (timeLogs state')
        = filter (fun t => TimeLog.employeeId t === other) (timeLogs state)
        /\ filter (fun t => Task.employeeId t === other) (tasks state')
           = filter (fun t => Task.employeeId t === other) (tasks state)
        /\ filter (fun l => LeaveRequest.employeeId l === other)
             (leaveRequests state')
           = filter (fun l => LeaveRequest.employeeId l === other)
               (leaveRequests state)
        /\ filter (fun p => PayrollEntry.employeeId p === other)
             (payrollEntries state')
           = filter (fun p => PayrollEntry.employeeId p === other)
               (payrollEntries state)
        /\ filter (fun o => OvertimeSettings.employeeId o === other)
             (overtimeSettings state')
           = filter (fun o => OvertimeSettings.employeeId o === other)
               (overtimeSettings state)
        /\ filter (fun e => Employee.id e === other) (employees state')
           = filter (fun e => Employee.id e === other) (employees state)).
Proof.
  intros Hemp state'. subst state'. unfold employeeById in Hemp.
  unfold perform, AdminView.handleDeleteEmployee. rewrite Hemp. simpl.
  split.
  - conjuncts; intros x Hx.
    + exact (filter_negb_not TimeLog.employeeId E _ x Hx).
    + exact (filter_negb_not Task.employeeId E _ x Hx).
    + exact (filter_negb_not LeaveRequest.employeeId E _ x Hx).
    + exact (filter_negb_not PayrollEntry.employeeId E _ x Hx).
    + exact (filter_negb_not OvertimeSettings.employeeId E _ x Hx).
    + exact (filter_negb_not Employee.id E _ x Hx).
  - intros other Hne. conjuncts.
    + exact (filter_other TimeLog.employeeId E other _ Hne).
    + exact (filter_other Task.employeeId E other _ Hne).
    + exact (filter_other LeaveRequest.employeeId E other _ Hne).
    + exact (filter_other PayrollEntry.employeeId E other _ Hne).
    + exact (filter_other OvertimeSettings.employeeId E other _ Hne).
    + exact (filter_other Employee.id E other _ Hne).
Qed.

(** The cascade follows the owner of a record only: a leave request of
    another employee that the deleted employee reviewed is kept, with the
    reviewer's id in it. *)
Lemma deleteEmployee_keeps_reviewer :
  map LeaveRequest.reviewedBy
    (leaveRequests
       (perform
          (AdminView.handleDeleteEmployee Examples.admin Examples.now
             "emp_mgr")
          Examples.state))
  = [None; Some "emp_mgr"].
Proof.
  reflexivity.
Qed.

End Deletion.

(** ** Audit trail *)

Section AuditTrail.

Variable rt : Runtime.

Lemma handlerOf_audited (employee : Employee.t) (today : string) (now : Z)
    (op : Operation) (state : HRMState) :
  auditedOnce rt employee today now op state.
Proof.
  unfold auditedOnce, perform.
  destruct op; simpl.
  - unfold EmployeeView.handleCheckIn.
    destruct (EmployeeView.todayTimeLog employee today state);
      [reflexivity | audited].
  - unfold EmployeeView.handleCheckOut.
    destruct (EmployeeView.todayTimeLog employee today state) as [log|];
      [|reflexivity].
    destruct (isSome (TimeLog.checkOut log)); [reflexivity|].
    destruct (EmployeeView.myTasks employee today state);
      [reflexivity | audited].
  - unfold EmployeeView.handleBreakIn.
    destruct (EmployeeView.todayTimeLog employee today state) as [log|];
      [|reflexivity].
    destruct (isSome (TimeLog.checkOut log)); [reflexivity|].
    destruct (existsb EmployeeView.isOpen (TimeLog.breaks log));
      [reflexivity | audited].
  - unfold EmployeeView.handleBreakOut.
    destruct (EmployeeView.todayTimeLog employee today state) as [log|];
      [|reflexivity].
    destruct (find EmployeeView.isOpen (TimeLog.breaks log));
      [audited | reflexivity].
  - audited.
  - unfold EmployeeView.handleDeleteTask.
    destruct (find _ (tasks state)); [audited | reflexivity].
  - audited.
  - unfold ManagerView.handleCommentTask.
    destruct (negb (truthy (trim commentText))); [reflexivity | audited].
  - audited.
  - unfold ManagerView.handleApproveLeave.
    destruct (find _ (leaveRequests state)) as [leave|]; [|reflexivity].
    destruct (find _ (employees state)); [audited | reflexivity].
  - audited.
  - audited.
  - unfold AdminView.handleDeleteEmployee.
    destruct (find _ (employees state)); [audited | reflexivity].
  - audited.
  - audited.
  - audited.
  - unfold AdminView.handleProcessPayroll.
    destruct (AdminView.newPayrollEntries rt employee now month state);
      [reflexivity | audited].
  - audited.
Qed.

Lemma perform_audit_length (c : Call) (state : HRMState) :
  List.length (auditLogs (perform (handlerOfCall rt c) state))
  = (List.length (auditLogs state)
     + (if succeeded (handlerOfCall rt c state) then 1 else 0))%nat.
Proof.
  pose proof (handlerOf_audited (actor c) (day c) (clock c) (operation c)
                state) as H.
  unfold auditedOnce in H. unfold handlerOfCall, perform in *.
  destruct (handlerOf rt (actor c) (day c) (clock c) (operation c) state)
    as [updater|msg]; simpl.
  - destruct H as (entry & Happ & _). rewrite Happ, length_app. reflexivity.
  - lia.
Qed.

Lemma performAll_audit_length (calls : list Call) (state : HRMState) :
  List.length (auditLogs (performAll rt calls state))
  = (List.length (auditLogs state) + successes rt calls state)%nat.
Proof.
  revert state. induction calls as [|c calls IH]; intros state; simpl.
  - lia.
  - unfold performAll in *. simpl. rewrite IH, perform_audit_length. lia.
Qed.

(** C9.  Every mutating operation that goes through (check-in, check-out,
    break start and end, task add, delete, approve and comment, leave
    request and decision, employee create, update and delete, comp-leave
    grant, overtime-settings update, payroll processing and payroll edit)
    appends, in the same update of the state, exactly one audit entry,
    carrying the acting user's id and name and the id of the entity
    concerned; an operation that is refused changes nothing and appends
    nothing; and a run of calls lengthens the audit log by the number of
    calls that went through. *)
Theorem audit_one_per_operation :
  (forall employee today now op state,
     auditedOnce rt employee today now op state)
  /\ (forall calls state,
        List.length (auditLogs (performAll rt calls state))
        = (List.length (auditLogs state) + successes rt calls state)%nat)
  /\ (forall calls state,
        successes rt calls state = 0%nat -> performAll rt calls state = state).
Proof.
  split; [exact handlerOf_audited|]. split; [exact performAll_audit_length|].
  intros calls. induction calls as [|c calls IH]; intros state; simpl.
  - reflexivity.
  - intros Hzero. unfold performAll in *. simpl.
    assert (succeeded (handlerOfCall rt c state) = false) as Hc
      by (destruct (succeeded (handlerOfCall rt c state)); [lia | reflexivity]).
    assert (perform (handlerOfCall rt c) state = state) as Hsame.
    { unfold perform. destruct (handlerOfCall rt c state);
        [discriminate | reflexivity]. }
    rewrite Hsame in *. rewrite Hc in Hzero. apply IH. exact Hzero.
Qed.

End AuditTrail.

(** ** The theorems at work in the example company *)

Section Worked.

Import Examples.

Lemma example_multipliers (o : OvertimeSettings.t) :
  In o (overtimeSettings state) ->
  ~ (OvertimeSettings.overtimeMultiplier o == 0)%Q.
Proof.
  intros [<-|[<-|[]]]; discriminate.
Defined.

(** February for Ali and Sara: 90 hours each against a target of 80; Ali
    still holds a comp leave and gets no overtime, Sara has none left and
    gets 10 hours at 1.25. *)
Lemma processMonth_february :
  map (fun p =>
         (PayrollEntry.employeeId p,
          (Qred (PayrollEntry.regularHours p),
           Qred (PayrollEntry.overtimeHours p)),
          (Qred (PayrollEntry.regularPay p),
           Qred (PayrollEntry.overtimePay p),
           Qred (PayrollEntry.totalPay p))))
    (AdminView.newPayrollEntries Utc.runtime admin now month state)
  = [("emp_admin", (0, 0), (0, 0, 0))%Q;
     ("emp_mgr", (0, 0), (0, 0, 0))%Q;
     ("emp_ali", (80, 0), (400000, 0, 400000))%Q;
     ("emp_sara", (80, 10), (400000, 62500, 462500))%Q].
Proof.
  vm_compute. reflexivity.
Qed.

(** C1, where the program departs from it.  The month is cut by
    comparing [new Date(log.date)], midnight UTC of the day, with
    [startOfMonth(new Date(month + '-01'))] and its [endOfMonth], which
    date-fns takes in local time.  Five hours west of UTC the first of
    February parses to the evening of 31 January, the bounds are those of
    January, and the logs taken for February are those dated from 2 January
    to 1 February.  Ali has 90 hours in his logs of February 2024, as the
    manager's view counts them too; the payroll of February is made from
    his logs of 31 January and 1 February, 38 hours, and the entry emitted
    does not satisfy the formulas of the specification. *)
Theorem processMonth_west_of_utc :
  let rt := Zone.runtime (- 5 * Zone.hour) in
  (monthTotalHours month (timeLogs state) "emp_ali" == 90)%Q
  /\ (TeamMembersView.getMonthlyHours month state "emp_ali" == 90)%Q
  /\ map TimeLog.date (AdminView.monthLogs rt month state ali)
     = ["2024-01-31"; "2024-02-01"]
  /\ exists p,
       AdminView.payrollEntryFor rt admin now month state ali = [p]
       /\ (PayrollEntry.regularHours p == 38)%Q
       /\ (PayrollEntry.overtimeHours p == 0)%Q
       /\ (PayrollEntry.totalPay p == 190000)%Q
       /\ ~ payrollFormulas month state ali p.
Proof.
  intros rt. conjuncts; try (vm_compute; reflexivity).
  eexists. split; [reflexivity|].
  conjuncts; try (vm_compute; reflexivity).
  intros (_ & _ & Hreg & _). vm_compute in Hreg. discriminate.
Qed.

Lemma example_days (log : TimeLog.t) :
  In log (timeLogs state) -> Calendar.isDay (TimeLog.date log) = true.
Proof.
  intros [<-|[<-|[<-|[<-|[<-|[<-|[<-|[<-|[]]]]]]]]]; reflexivity.
Qed.


Lemma processMonth_idempotent_witness :
  NoDup (map Employee.id (employees state))
  /\ (forall eid,
        (payrollCount eid month (payrollEntries state) <= 1)%nat)
  /\ perform (AdminView.handleProcessPayroll Utc.runtime admin (now + 1) month)
       (perform (AdminView.handleProcessPayroll Utc.runtime admin now month)
          state)
     = perform (AdminView.handleProcessPayroll Utc.runtime admin now month)
         state
  /\ forall eid,
       (payrollCount eid month
          (payrollEntries
             (perform
                (AdminView.handleProcessPayroll Utc.runtime admin now month)
                state))
        <= 1)%nat.
Proof.
  assert (NoDup (map Employee.id (employees state))) as Hnd.
  { simpl. repeat constructor; simpl; intuition discriminate. }
  assert (forall eid,
            (payrollCount eid month (payrollEntries state) <= 1)%nat)
    as Hold.
  { intros eid. simpl. repeat constructor. }
  destruct (processMonth_idempotent Utc.runtime admin now (now + 1) month
              state) as (_ & _ & _ & Hsame & _ & _ & Huniq).
  split; [exact Hnd|]. split; [exact Hold|]. split; [exact Hsame|].
  exact (Huniq Hnd Hold).
Defined.

Lemma checkOut_totalHours_witness :
  EmployeeView.todayTimeLog ali today state = Some dayLog
  /\ TimeLog.checkOut dayLog = None
  /\ EmployeeView.myTasks ali today state <> []
  /\ exists log',
       EmployeeView.todayTimeLog ali today
         (perform (EmployeeView.handleCheckOut Utc.runtime ali today now)
            state)
       = Some log'
       /\ TimeLog.totalHours log'
          = netHours nineOClock now (TimeLog.breaks dayLog)
       /\ (TimeLog.totalHours log' == 7)%Q
       /\ TimeLog.status log' = CheckedOut.
Proof.
  assert (EmployeeView.todayTimeLog ali today state = Some dayLog) as H1
    by reflexivity.
  assert (TimeLog.checkOut dayLog = None) as H2 by reflexivity.
  assert (EmployeeView.myTasks ali today state <> []) as H3
    by (simpl; discriminate).
  destruct (checkOut_totalHours Utc.runtime ali today now state dayLog
              H1 H2 H3) as (log' & Hfind & Hhours & _ & Hstatus & _).
  conjuncts; trivial.
  exists log'. conjuncts; trivial.
  rewrite Hhours. reflexivity.
Defined.

Lemma checkOut_preconditions_witness :
  EmployeeView.todayTimeLog ali today stateWithoutTasks = Some dayLog
  /\ TimeLog.checkOut dayLog = None
  /\ EmployeeView.myTasks ali today stateWithoutTasks = []
  /\ EmployeeView.handleCheckOut Utc.runtime ali today now stateWithoutTasks
     = Ignored (Some "Please add your tasks before checking out")
  /\ succeeded
       (EmployeeView.handleCheckOut Utc.runtime ali today now
          (perform
             (fun _ =>
                EmployeeView.handleAddTask Utc.runtime ali today
                  nineOClock "Quarterly report" 6)
             stateWithoutTasks))
     = true.
Proof.
  assert (EmployeeView.todayTimeLog ali today stateWithoutTasks
          = Some dayLog) as H1 by reflexivity.
  assert (TimeLog.checkOut dayLog = None) as H2 by reflexivity.
  assert (EmployeeView.myTasks ali today stateWithoutTasks = []) as H3
    by reflexivity.
  destruct (checkOut_preconditions Utc.runtime ali today now
              stateWithoutTasks) as (_ & _ & _ & Hlast).
  destruct (Hlast dayLog H1 H2 H3) as (Hrefused & Hthen).
  destruct (Hthen nineOClock "Quarterly report" 6%Q) as (Hok & _).
  conjuncts; trivial.
Defined.

Lemma checkOut_frame_witness :
  EmployeeView.todayTimeLog ali today state = Some dayLog
  /\ TimeLog.checkOut dayLog = None
  /\ EmployeeView.myTasks ali today state <> []
  /\ NoDup (map TimeLog.id (timeLogs state))
  /\ exists log',
       nth_error
         (timeLogs
            (perform (EmployeeView.handleCheckOut Utc.runtime ali today now)
               state))
         7
       = Some log'
       /\ TimeLog.breaks log' = TimeLog.breaks dayLog.
Proof.
  assert (EmployeeView.todayTimeLog ali today state = Some dayLog) as H1
    by reflexivity.
  assert (TimeLog.checkOut dayLog = None) as H2 by reflexivity.
  assert (EmployeeView.myTasks ali today state <> []) as H3
    by (simpl; discriminate).
  assert (NoDup (map TimeLog.id (timeLogs state))) as H4.
  { simpl. repeat constructor; simpl; intuition discriminate. }
  destruct (checkOut_frame Utc.runtime ali today now state dayLog
              H1 H2 H3 H4) as (Hlogs & _).
  destruct (Hlogs 7%nat dayLog eq_refl) as (log' & Hnth & _ & _ & _ & _ & Hb & _).
  conjuncts; trivial.
  exists log'. split; assumption.
Defined.

Lemma decide_compLeave_witness :
  leaveById "leave_1" state = Some pendingLeave
  /\ LeaveRequest.status pendingLeave = LeavePending
  /\ employeeById (LeaveRequest.employeeId pendingLeave) state = Some ali
  /\ exists emp',
       employeeById "emp_ali"
         (perform
            (ManagerView.handleApproveLeave manager now "leave_1" true None)
            state)
       = Some emp'
       /\ Employee.compLeavesUsed emp' = 1.
Proof.
  assert (leaveById "leave_1" state = Some pendingLeave) as H1
    by reflexivity.
  assert (LeaveRequest.status pendingLeave = LeavePending) as H2
    by reflexivity.
  assert (employeeById (LeaveRequest.employeeId pendingLeave) state
          = Some ali) as H3 by reflexivity.
  destruct (decide_compLeave manager now "leave_1" None state pendingLeave
              ali H1 H2 H3) as ((emp' & Hfind & Hused & _) & _).
  conjuncts; trivial.
  exists emp'. split; assumption.
Defined.

Lemma decide_only_pending_witness :
  nth_error (ManagerView.teamLeaveRequests manager state) 1
  = Some approvedLeave
  /\ LeaveRequest.status approvedLeave <> LeavePending
  /\ perform (LeaveReviewView.decide manager now 1 true "Again") state
     = state.
Proof.
  assert (nth_error (ManagerView.teamLeaveRequests manager state) 1
          = Some approvedLeave) as H1 by reflexivity.
  assert (LeaveRequest.status approvedLeave <> LeavePending) as H2
    by discriminate.
  destruct (decide_only_pending manager now 1 true "Again" state
              approvedLeave H1) as (Hdecided & _).
  destruct (Hdecided H2) as (_ & Hsame).
  conjuncts; trivial.
Defined.

Lemma requestLeave_validation_witness :
  trim (" " ^^ noBreakSpace ^^ " ") = ""
  /\ perform
       (fun _ =>
          LeaveManagementEmployee.requestLeave ali now "2024-03-01"
            "2024-03-02" (" " ^^ noBreakSpace ^^ " "))
       state
     = state
  /\ leaveRequests
       (perform
          (fun _ =>
             LeaveManagementEmployee.requestLeave ali now "2024-03-01"
               "2024-03-02" (noBreakSpace ^^ " Rest "))
          state)
     = leaveRequests state
       ++ [LeaveRequest.mk "leave_1708020000000" "emp_ali" "2024-03-01"
             "2024-03-02" "Rest" LeavePending now None None None].
Proof.
  assert (trim (" " ^^ noBreakSpace ^^ " ") = "") as H1 by reflexivity.
  destruct (requestLeave_validation ali now "2024-03-01" "2024-03-02"
              (" " ^^ noBreakSpace ^^ " ") state) as (Hblank & _).
  destruct (Hblank (or_intror (or_intror H1))) as (_ & Hsame).
  destruct (requestLeave_validation ali now "2024-03-01" "2024-03-02"
              (noBreakSpace ^^ " Rest ") state) as (_ & Hadd).
  split; [exact H1|]. split; [exact Hsame|].
  rewrite Hadd by discriminate. reflexivity.
Defined.

Lemma deleteEmployee_cascade_witness :
  employeeById "emp_ali" state = Some ali
  /\ forall t,
       In t
         (timeLogs
            (perform (AdminView.handleDeleteEmployee admin now "emp_ali")
               state)) ->
       TimeLog.employeeId t <> "emp_ali".
Proof.
  assert (employeeById "emp_ali" state = Some ali) as H1 by reflexivity.
  destruct (deleteEmployee_cascade admin now "emp_ali" state ali H1)
    as ((Hlogs & _) & _).
  split; assumption.
Defined.

Lemma audit_one_per_operation_witness :
  successes Utc.runtime
    [mkCall ali today now CheckIn;
     mkCall ali today now CheckOut;
     mkCall manager today (now + 1) (LeaveDecision "leave_1" true None);
     mkCall admin today (now + 2) (EmployeeDelete "emp_nobody");
     mkCall admin today (now + 3) (PayrollProcess month)]
    state
  = 3%nat
  /\ List.length
       (auditLogs
          (performAll Utc.runtime
             [mkCall ali today now CheckIn;
              mkCall ali today now CheckOut;
              mkCall manager today (now + 1)
                (LeaveDecision "leave_1" true None);
              mkCall admin today (now + 2) (EmployeeDelete "emp_nobody");
              mkCall admin today (now + 3) (PayrollProcess month)]
             state))
     = 3%nat.
Proof.
  destruct (audit_one_per_operation Utc.runtime) as (_ & Hlen & _).
  split; [reflexivity|].
  rewrite Hlen. reflexivity.
Defined.

End Worked.

(** ** Time ledger: check-in, breaks and the running clock *)

Section TimeLedgerDay.

Variable rt : Runtime.
Variable employee : Employee.t.
Variable today : string.

Local Abbreviation todayLog := (EmployeeView.todayTimeLog employee today).
Local Abbreviation isTodayLog := (EmployeeView.isToday employee today).
Local Abbreviation checkIn := (EmployeeView.handleCheckIn employee today).
Local Abbreviation checkOut := (EmployeeView.handleCheckOut rt employee today).
Local Abbreviation breakIn := (EmployeeView.handleBreakIn employee today).
Local Abbreviation breakOut := (EmployeeView.handleBreakOut employee today).

Lemma find_app_none {A} (f : A -> bool) (l : list A) (x : A) :
  find f l = None -> f x = true -> find f (l ++ [x]) = Some x.
Proof.
  intros Hnone Hx. rewrite find_app, Hnone. simpl. rewrite Hx. reflexivity.
Qed.

(** X1.  A check-in on a day without a log appends the day's log, open,
    with the time of the check-in, no break and no hours; whatever the
    state, a check-in that follows a check-in of the same day is refused
    (Already checked in today) and changes nothing. *)
Theorem checkIn_once (now now' : Z) (state : HRMState) :
  let newLog :=
    TimeLog.mk ("log_" ^^ showInt now) (Employee.id employee) today
      (Some now) None [] 0%Q CheckedIn in
  let state1 := perform (checkIn now) state in
  (todayLog state = None ->
   timeLogs state1 = timeLogs state ++ [newLog]
   /\ todayLog state1 = Some newLog)
  /\ checkIn now' state1 = Ignored (Some "Already checked in today")
  /\ perform (checkIn now') state1 = state1.
Proof.
  intros newLog state1.
  assert (todayLog state = None ->
          timeLogs state1 = timeLogs state ++ [newLog]
          /\ todayLog state1 = Some newLog) as Hnew.
  { intros Hnone. subst state1.
    unfold perform, EmployeeView.handleCheckIn. rewrite Hnone. simpl.
    split; [reflexivity|].
    unfold EmployeeView.todayTimeLog. simpl.
    apply find_app_none; [exact Hnone|].
    unfold EmployeeView.isToday. simpl. rewrite !String.eqb_refl.
    reflexivity. }
  split; [exact Hnew|].
  assert (exists log, todayLog state1 = Some log) as [log Hlog].
  { destruct (todayLog state) as [log|] eqn:Hday.
    - exists log. subst state1.
      unfold perform, EmployeeView.handleCheckIn. rewrite Hday. exact Hday.
    - exists newLog. apply Hnew. reflexivity. }
  unfold perform, EmployeeView.handleCheckIn. rewrite Hlog.
  split; reflexivity.
Qed.

Lemma logsOfDay_today (logs : list TimeLog.t) :
  logsOfDay (Employee.id employee) today logs = filter isTodayLog logs.
Proof.
  reflexivity.
Qed.

Lemma logsOfDay_map (employeeId date : string) (f : TimeLog.t -> TimeLog.t)
    (logs : list TimeLog.t) :
  (forall l,
     TimeLog.employeeId (f l) = TimeLog.employeeId l
     /\ TimeLog.date (f l) = TimeLog.date l) ->
  List.length (logsOfDay employeeId date (map f logs))
  = List.length (logsOfDay employeeId date logs).
Proof.
  intros Hf. unfold logsOfDay.
  induction logs as [|l logs IH]; simpl; [reflexivity|].
  destruct (Hf l) as [-> ->].
  destruct ((TimeLog.employeeId l === employeeId)
            && (TimeLog.date l === date)); simpl; congruence.
Qed.

Lemma logsOfDay_updateFirst (employeeId date : string)
    (p : TimeLog.t -> bool) (f : TimeLog.t -> TimeLog.t)
    (logs : list TimeLog.t) :
  (forall l,
     TimeLog.employeeId (f l) = TimeLog.employeeId l
     /\ TimeLog.date (f l) = TimeLog.date l) ->
  List.length (logsOfDay employeeId date (updateFirst p f logs))
  = List.length (logsOfDay employeeId date logs).
Proof.
  intros Hf. unfold logsOfDay.
  induction logs as [|l logs IH]; simpl; [reflexivity|].
  destruct (p l); simpl.
  - destruct (Hf l) as [-> ->].
    destruct ((TimeLog.employeeId l === employeeId)
              && (TimeLog.date l === date)); reflexivity.
  - destruct ((TimeLog.employeeId l === employeeId)
              && (TimeLog.date l === date)); simpl; congruence.
Qed.

Lemma logsOfDay_filter (employeeId date : string) (p : TimeLog.t -> bool)
    (logs : list TimeLog.t) :
  (List.length (logsOfDay employeeId date (filter p logs))
   <= List.length (logsOfDay employeeId date logs))%nat.
Proof.
  unfold logsOfDay.
  induction logs as [|l logs IH]; simpl; [lia|].
  destruct (p l); simpl;
    destruct ((TimeLog.employeeId l === employeeId)
              && (TimeLog.date l === date)); simpl; lia.
Qed.

Lemma oneLogPerDay_le (state state' : HRMState) :
  (forall employeeId date,
     (List.length (logsOfDay employeeId date (timeLogs state'))
      <= List.length (logsOfDay employeeId date (timeLogs state)))%nat) ->
  oneLogPerDay state -> oneLogPerDay state'.
Proof.
  unfold oneLogPerDay. intros Hle H e d.
  specialize (Hle e d). specialize (H e d). lia.
Qed.

(** X2.  No operation gives an employee a second time log for a day: a
    state in which every employee has at most one log per day is taken
    to such a state by each of the eighteen operations, whoever performs
    it and whenever. *)
Theorem oneLogPerDay_preserved (now : Z) (op : Operation)
    (state : HRMState) :
  oneLogPerDay state ->
  oneLogPerDay (perform (handlerOf rt employee today now op) state).
Proof.
  intros Hinv. unfold perform.
  destruct op; simpl.
  - unfold EmployeeView.handleCheckIn.
    destruct (todayLog state) as [log|] eqn:Hday; [exact Hinv|].
    simpl. intros e d. simpl.
    unfold logsOfDay. rewrite filter_app, length_app. simpl.
    destruct ((Employee.id employee === e) && (today === d)) eqn:Hed.
    + apply andb_true_iff in Hed. destruct Hed as [He Hd].
      apply String.eqb_eq in He, Hd. subst e d.
      fold (logsOfDay (Employee.id employee) today (timeLogs state)).
      rewrite logsOfDay_today.
      rewrite (find_none_filter _ _ Hday). simpl. lia.
    + simpl. specialize (Hinv e d). unfold logsOfDay in Hinv. lia.
  - unfold EmployeeView.handleCheckOut.
    destruct (todayLog state) as [log|]; [|exact Hinv].
    destruct (isSome (TimeLog.checkOut log)); [exact Hinv|].
    destruct (EmployeeView.myTasks employee today state); [exact Hinv|].
    simpl. apply (oneLogPerDay_le state); [|exact Hinv].
    intros e d. simpl. rewrite logsOfDay_map; [lia|].
    intros x. destruct (TimeLog.id x === TimeLog.id log); split; reflexivity.
  - unfold EmployeeView.handleBreakIn.
    destruct (todayLog state) as [log|]; [|exact Hinv].
    destruct (isSome (TimeLog.checkOut log)); [exact Hinv|].
    destruct (existsb EmployeeView.isOpen (TimeLog.breaks log));
      [exact Hinv|].
    simpl. apply (oneLogPerDay_le state); [|exact Hinv].
    intros e d. simpl. rewrite logsOfDay_map; [lia|].
    intros x. destruct (TimeLog.id x === TimeLog.id log); split; reflexivity.
  - unfold EmployeeView.handleBreakOut.
    destruct (todayLog state) as [log|]; [|exact Hinv].
    destruct (find EmployeeView.isOpen (TimeLog.breaks log)); [|exact Hinv].
    simpl. apply (oneLogPerDay_le state); [|exact Hinv].
    intros e d. simpl. rewrite logsOfDay_updateFirst; [lia|].
    intros x. split; reflexivity.
  - exact Hinv.
  - unfold EmployeeView.handleDeleteTask.
    destruct (find _ (tasks state)); exact Hinv.
  - exact Hinv.
  - unfold ManagerView.handleCommentTask.
    destruct (negb (truthy (trim commentText))); exact Hinv.
  - exact Hinv.
  - unfold ManagerView.handleApproveLeave.
    destruct (find _ (leaveRequests state)) as [leave|]; [|exact Hinv].
    destruct (find _ (employees state)); exact Hinv.
  - exact Hinv.
  - exact Hinv.
  - unfold AdminView.handleDeleteEmployee.
    destruct (find _ (employees state)); [|exact Hinv].
    simpl. apply (oneLogPerDay_le state); [|exact Hinv].
    intros e d. simpl. apply logsOfDay_filter.
  - exact Hinv.
  - exact Hinv.
  - exact Hinv.
  - unfold AdminView.handleProcessPayroll.
    destruct (AdminView.newPayrollEntries rt employee now month state);
      exact Hinv.
  - exact Hinv.
Qed.

Lemma openBreaks_nil (log : TimeLog.t) :
  openBreaks log = []
  <-> existsb EmployeeView.isOpen (TimeLog.breaks log) = false.
Proof.
  unfold openBreaks. induction (TimeLog.breaks log) as [|b l IH]; simpl.
  - tauto.
  - destruct (EmployeeView.isOpen b); simpl; [|exact IH].
    split; discriminate.
Qed.

Lemma filter_find_first {A} (p : A -> bool) (l : list A) (x : A) (r : list A) :
  filter p l = x :: r -> find p l = Some x.
Proof.
  induction l as [|y l IH]; simpl; [discriminate|].
  destruct (p y); [congruence | exact IH].
Qed.

Lemma find_updateFirst {A} (p : A -> bool) (f : A -> A) (l : list A) :
  (forall x, p x = true -> p (f x) = true) ->
  find p (updateFirst p f l) = option_map f (find p l).
Proof.
  intros Hf. induction l as [|x l IH]; simpl; [reflexivity|].
  destruct (p x) eqn:Hx; simpl.
  - rewrite (Hf x Hx). reflexivity.
  - rewrite Hx. exact IH.
Qed.

Lemma updateFirst_last {A} (p : A -> bool) (f : A -> A) (l : list A) (x : A) :
  filter p l = [] -> p x = true ->
  updateFirst p f (l ++ [x]) = l ++ [f x].
Proof.
  intros Hl Hx. induction l as [|y l IH]; simpl in *.
  - rewrite Hx. reflexivity.
  - destruct (p y); [discriminate|]. rewrite (IH Hl). reflexivity.
Qed.

(** The state a break start leaves. *)
Lemma handleBreakIn_success (now : Z) (state : HRMState) (log : TimeLog.t) :
  todayLog state = Some log ->
  TimeLog.checkOut log = None ->
  openBreaks log = [] ->
  exists entry,
    perform (breakIn now) state
    = withAudit entry
        (withTimeLogs
           (map (fun l =>
                   if TimeLog.id l === TimeLog.id log
                   then EmployeeView.withBreaks
                          (TimeLog.breaks l ++ [BreakLog.mk now None]) l
                   else l)
              (timeLogs state))
           state)
    /\ todayLog (perform (breakIn now) state)
       = Some (EmployeeView.withBreaks
                 (TimeLog.breaks log ++ [BreakLog.mk now None]) log).
Proof.
  intros Hlog Hout Hopen. apply openBreaks_nil in Hopen.
  unfold perform, EmployeeView.handleBreakIn.
  rewrite Hlog, Hout, Hopen. simpl. eexists. split; [reflexivity|].
  unfold EmployeeView.todayTimeLog. simpl.
  apply (find_checkedOut employee today (TimeLog.id log)
           (fun l =>
              EmployeeView.withBreaks
                (TimeLog.breaks l ++ [BreakLog.mk now None]) l));
    [reflexivity | exact Hlog | reflexivity].
Qed.

(** X3.  A break started while checked in and not on break is appended,
    open, to the day's log, which then has exactly that one open break;
    as long as it is open a further break start is refused (Already on
    break) and changes nothing. *)
Theorem breakStart_opens_one (now : Z) (state : HRMState) (log : TimeLog.t) :
  todayLog state = Some log ->
  TimeLog.checkOut log = None ->
  openBreaks log = [] ->
  let state1 := perform (breakIn now) state in
  exists log1,
    todayLog state1 = Some log1
    /\ TimeLog.breaks log1 = TimeLog.breaks log ++ [BreakLog.mk now None]
    /\ openBreaks log1 = [BreakLog.mk now None]
    /\ forall now',
         breakIn now' state1 = Ignored (Some "Already on break")
         /\ perform (breakIn now') state1 = state1.
Proof.
  intros Hlog Hout Hopen state1.
  destruct (handleBreakIn_success now state log Hlog Hout Hopen)
    as (entry & _ & Hday).
  fold state1 in Hday.
  eexists. split; [exact Hday|]. split; [reflexivity|].
  assert (openBreaks
            (EmployeeView.withBreaks
               (TimeLog.breaks log ++ [BreakLog.mk now None]) log)
          = [BreakLog.mk now None]) as Hone.
  { unfold openBreaks in *. simpl. rewrite filter_app, Hopen. reflexivity. }
  split; [exact Hone|].
  intros now'. unfold perform, EmployeeView.handleBreakIn.
  rewrite Hday. simpl. rewrite Hout. simpl.
  assert (existsb EmployeeView.isOpen
            (TimeLog.breaks log ++ [BreakLog.mk now None]) = true) as ->.
  { rewrite existsb_app. simpl. apply orb_true_r. }
  split; reflexivity.
Qed.

(** The day's log after a break was started and ended. *)
Lemma break_pair_log (now1 now2 : Z) (state : HRMState) (log : TimeLog.t) :
  todayLog state = Some log ->
  TimeLog.checkOut log = None ->
  openBreaks log = [] ->
  todayLog (perform (breakOut now2) (perform (breakIn now1) state))
  = Some (EmployeeView.withBreaks
            (TimeLog.breaks log ++ [BreakLog.mk now1 (Some now2)]) log)
  /\ tasks (perform (breakOut now2) (perform (breakIn now1) state))
     = tasks state.
Proof.
  intros Hlog Hout Hopen.
  destruct (handleBreakIn_success now1 state log Hlog Hout Hopen)
    as (entry & Hperf & Hday).
  set (state1 := perform (breakIn now1) state) in *.
  assert (find EmployeeView.isOpen
            (TimeLog.breaks log ++ [BreakLog.mk now1 None])
          = Some (BreakLog.mk now1 None)) as Hfind.
  { apply (filter_find_first _ _ _ []).
    unfold openBreaks in Hopen. rewrite filter_app, Hopen. reflexivity. }
  unfold perform. unfold EmployeeView.handleBreakOut.
  rewrite Hday. simpl. rewrite Hfind. simpl.
  split; [|rewrite Hperf; reflexivity].
  unfold EmployeeView.todayTimeLog in *. simpl.
  rewrite find_updateFirst by (intros x Hx; exact Hx).
  rewrite Hday. simpl. unfold EmployeeView.withBreaks. simpl.
  rewrite updateFirst_last; [reflexivity | exact Hopen | reflexivity].
Qed.

(** X4.  A break started and then ended adds one closed break, from the
    time of the start to the time of the end, to the day's log and touches
    nothing else of it; no break is open afterwards, and a further break
    end is refused (No active break). *)
Theorem break_start_end (now1 now2 now' : Z) (state : HRMState)
    (log : TimeLog.t) :
  todayLog state = Some log ->
  TimeLog.checkOut log = None ->
  openBreaks log = [] ->
  let state2 := perform (breakOut now2) (perform (breakIn now1) state) in
  exists log2,
    todayLog state2 = Some log2
    /\ TimeLog.breaks log2
       = TimeLog.breaks log ++ [BreakLog.mk now1 (Some now2)]
    /\ openBreaks log2 = []
    /\ (TimeLog.id log2 = TimeLog.id log
        /\ TimeLog.checkIn log2 = TimeLog.checkIn log
        /\ TimeLog.checkOut log2 = None
        /\ TimeLog.totalHours log2 = TimeLog.totalHours log
        /\ TimeLog.status log2 = TimeLog.status log)
    /\ breakOut now' state2 = Ignored (Some "No active break")
    /\ perform (breakOut now') state2 = state2.
Proof.
  intros Hlog Hout Hopen state2.
  destruct (break_pair_log now1 now2 state log Hlog Hout Hopen)
    as [Hday _].
  fold state2 in Hday.
  assert (openBreaks
            (EmployeeView.withBreaks
               (TimeLog.breaks log ++ [BreakLog.mk now1 (Some now2)]) log)
          = []) as Hnone.
  { unfold openBreaks in *. simpl. rewrite filter_app, Hopen. reflexivity. }
  eexists. split; [exact Hday|]. split; [reflexivity|].
  split; [exact Hnone|].
  split; [conjuncts; trivial|].
  unfold perform, EmployeeView.handleBreakOut. rewrite Hday.
  assert (find EmployeeView.isOpen
            (TimeLog.breaks
               (EmployeeView.withBreaks
                  (TimeLog.breaks log ++ [BreakLog.mk now1 (Some now2)])
                  log))
          = None) as ->.
  { unfold openBreaks in Hnone.
    destruct (find _ _) as [b|] eqn:Hf; [|reflexivity].
    apply find_some in Hf. destruct Hf as [Hin Hb].
    assert (In b []) as [].
    rewrite <- Hnone. apply filter_In. split; assumption. }
  split; reflexivity.
Qed.

Lemma sumZ_app (l l' : list Z) : sumZ (l ++ l') = sumZ l + sumZ l'.
Proof.
  induction l as [|x l IH]; simpl; lia.
Qed.

(** X5.  A break taken during the day, started at [now1] and ended at
    [now2], takes exactly its length off the hours of the day: the
    check-out that follows stores the hours of the milliseconds a
    check-out at the same time without that break would have counted,
    less [now2 - now1]. *)
Theorem break_reduces_hours (now1 now2 now3 : Z) (state : HRMState)
    (log : TimeLog.t) :
  todayLog state = Some log ->
  TimeLog.checkOut log = None ->
  openBreaks log = [] ->
  EmployeeView.myTasks employee today state <> [] ->
  let state3 :=
    perform (checkOut now3)
      (perform (breakOut now2) (perform (breakIn now1) state)) in
  exists log3,
    todayLog state3 = Some log3
    /\ TimeLog.totalHours log3
       = EmployeeView.hoursOfMs
           (EmployeeView.workedMs now3 log - (now2 - now1))
    /\ TimeLog.status log3 = CheckedOut.
Proof.
  intros Hlog Hout Hopen Htasks state3.
  destruct (break_pair_log now1 now2 state log Hlog Hout Hopen)
    as [Hday Htasks2].
  set (state2 := perform (breakOut now2) (perform (breakIn now1) state)) in *.
  set (log2 := EmployeeView.withBreaks
                 (TimeLog.breaks log ++ [BreakLog.mk now1 (Some now2)]) log)
    in *.
  assert (EmployeeView.myTasks employee today state2 <> []) as Htasks'.
  { unfold EmployeeView.myTasks in *. rewrite Htasks2. exact Htasks. }
  subst state3.
  rewrite (handleCheckOut_success rt employee today now3 state2 log2 Hday
             Hout Htasks').
  eexists. split.
  - unfold EmployeeView.todayTimeLog. simpl.
    apply find_checkedOut; [reflexivity | exact Hday | reflexivity].
  - simpl. split; [|reflexivity]. f_equal.
    rewrite !workedMs_net. subst log2. simpl.
    rewrite map_app, sumZ_app. simpl.
    change (breakDuration now3 (BreakLog.mk now1 (Some now2)))
      with (now2 - now1).
    lia.
Qed.

Lemma display_closed (currentTime : Z) (onBreak : bool)
    (breaks : list BreakLog.t) (a : Z) :
  filter EmployeeView.isOpen breaks = [] ->
  fold_left
    (fun totalMs breakLog =>
       match BreakLog.breakOut breakLog with
       | Some breakOutTime =>
         totalMs - (breakOutTime - BreakLog.breakIn breakLog)
       | None =>
         if onBreak
         then totalMs - (currentTime - BreakLog.breakIn breakLog)
         else totalMs
       end)
    breaks a
  = a - sumZ (map (fun b => getTime (BreakLog.breakOut b) - BreakLog.breakIn b)
                breaks).
Proof.
  revert a. induction breaks as [|b l IH]; simpl; intros a Hopen; [lia|].
  unfold EmployeeView.isOpen in Hopen at 1.
  destruct (BreakLog.breakOut b) as [t|]; simpl in Hopen; [|discriminate].
  rewrite (IH _ Hopen). simpl. lia.
Qed.

Lemma breakMs_closed (now : Z) (breaks : list BreakLog.t) :
  filter EmployeeView.isOpen breaks = [] ->
  map (breakDuration now) breaks
  = map (fun b => getTime (BreakLog.breakOut b) - BreakLog.breakIn b) breaks.
Proof.
  induction breaks as [|b l IH]; simpl; intros Hopen; [reflexivity|].
  unfold EmployeeView.isOpen in Hopen at 1. unfold breakDuration at 1.
  destruct (BreakLog.breakOut b) as [t|]; simpl in Hopen; [|discriminate].
  rewrite (IH Hopen). reflexivity.
Qed.

(** X6.  After a check-out made with no break open, the hours the time
    tracking card computes for the day's log are the hours stored in it,
    at whatever time the card is looked at. *)
Theorem display_after_checkOut (now checkInTime : Z) (state : HRMState)
    (log : TimeLog.t) :
  todayLog state = Some log ->
  TimeLog.checkIn log = Some checkInTime ->
  TimeLog.checkOut log = None ->
  openBreaks log = [] ->
  EmployeeView.myTasks employee today state <> [] ->
  exists log',
    todayLog (perform (checkOut now) state) = Some log'
    /\ forall currentTime,
         TimeTracking.calculateHoursWorked currentTime (Some log')
         = TimeLog.totalHours log'.
Proof.
  intros Hlog Hin Hout Hopen Htasks.
  rewrite (handleCheckOut_success rt employee today now state log Hlog Hout
             Htasks).
  eexists. split.
  - unfold EmployeeView.todayTimeLog. simpl.
    apply find_checkedOut; [reflexivity | exact Hlog | reflexivity].
  - intros currentTime. unfold TimeTracking.calculateHoursWorked. simpl.
    rewrite Hin. unfold EmployeeView.hoursOfMs. do 3 f_equal.
    rewrite display_closed by exact Hopen.
    rewrite workedMs_net, Hin, (breakMs_closed now _ Hopen). reflexivity.
Qed.

Lemma display_ms (currentTime : Z) (breaks : list BreakLog.t) (a : Z) :
  fold_left
    (fun totalMs breakLog =>
       match BreakLog.breakOut breakLog with
       | Some breakOutTime =>
         totalMs - (breakOutTime - BreakLog.breakIn breakLog)
       | None => totalMs - (currentTime - BreakLog.breakIn breakLog)
       end)
    breaks a
  = a - sumZ (map (breakDuration currentTime) breaks).
Proof.
  revert a. induction breaks as [|b l IH]; simpl; intros a; [lia|].
  rewrite IH. unfold breakDuration at 2.
  destruct (BreakLog.breakOut b); lia.
Qed.

Lemma breakDuration_shift (t t' : Z) (breaks : list BreakLog.t) :
  sumZ (map (breakDuration t') breaks)
  = sumZ (map (breakDuration t) breaks)
    + Z.of_nat (List.length (filter EmployeeView.isOpen breaks)) * (t' - t).
Proof.
  induction breaks as [|b l IH]; simpl; [lia|].
  rewrite IH. unfold breakDuration at 1 3. unfold EmployeeView.isOpen at 2.
  destruct (BreakLog.breakOut b); simpl List.length; lia.
Qed.

Lemma hoursOfMs_le (a b : Z) :
  a <= b -> (EmployeeView.hoursOfMs a <= EmployeeView.hoursOfMs b)%Q.
Proof.
  intros Hab. unfold EmployeeView.hoursOfMs.
  apply Q.max_le_compat_l.
  apply Qmult_le_compat_r; [|discriminate].
  rewrite <- Zle_Qle. exact Hab.
Qed.

(** X7.  While the employee is checked in, the hours on the time tracking
    card follow the clock: with no break open they never go down as time
    passes, and with one break open they stand still. *)
Theorem display_follows_clock (log : TimeLog.t) (checkInTime t t' : Z) :
  TimeLog.checkIn log = Some checkInTime ->
  TimeLog.checkOut log = None ->
  (openBreaks log = [] ->
   t <= t' ->
   (TimeTracking.calculateHoursWorked t (Some log)
    <= TimeTracking.calculateHoursWorked t' (Some log))%Q)
  /\ (forall b,
        openBreaks log = [b] ->
        TimeTracking.calculateHoursWorked t (Some log)
        = TimeTracking.calculateHoursWorked t' (Some log)).
Proof.
  intros Hin Hout.
  unfold TimeTracking.calculateHoursWorked, TimeTracking.onBreak.
  rewrite Hin, Hout. split.
  - intros Hopen Htt'.
    rewrite !(display_closed _ _ _ _ Hopen).
    apply hoursOfMs_le. lia.
  - intros b Hopen.
    assert (existsb EmployeeView.isOpen (TimeLog.breaks log) = true) as ->.
    { destruct (existsb _ _) eqn:E; [reflexivity|].
      apply openBreaks_nil in E. congruence. }
    rewrite !display_ms.
    rewrite (breakDuration_shift t t'). unfold openBreaks in Hopen.
    rewrite Hopen. simpl List.length.
    do 3 f_equal. lia.
Qed.

End TimeLedgerDay.

(** ** Payroll edits and overtime settings *)

Section PayrollEdits.

Variable rt : Runtime.
Variable employee : Employee.t.

Lemma merge_withPay (entry : PayrollEntry.t) (editValues : PayrollEntry.partial)
    (regularPay overtimePay totalPay : Q) :
  let p :=
    PayrollEntry.merge entry
      (PayrollManagementView.withPay editValues regularPay overtimePay
         totalPay) in
  PayrollEntry.regularPay p = regularPay
  /\ PayrollEntry.overtimePay p = overtimePay
  /\ PayrollEntry.totalPay p = totalPay
  /\ PayrollEntry.regularHours p
     = orDefault (PayrollEntry.p_regularHours editValues)
         (PayrollEntry.regularHours entry)
  /\ PayrollEntry.overtimeHours p
     = orDefault (PayrollEntry.p_overtimeHours editValues)
         (PayrollEntry.overtimeHours entry)
  /\ PayrollEntry.id p
     = orDefault (PayrollEntry.p_id editValues) (PayrollEntry.id entry).
Proof.
  simpl. conjuncts; reflexivity.
Qed.

(** X8.  An edit of a payroll entry through the payroll dialog keeps the
    hours entered (or the entry's own, for a field left alone) and
    recomputes the pay from them with the employee's rate and overtime
    multiplier of the moment of the edit: regularPay = regularHours x
    rate, overtimePay = overtimeHours x rate x multiplier (1 without
    overtime settings), totalPay their sum; entries of another id are
    untouched; and when the employee of the entry is gone, the edit does
    nothing. *)
Theorem payrollEdit_recomputes (now : Z) (selected : PayrollEntry.t)
    (editValues : PayrollEntry.partial) (state : HRMState) :
  payrollById (PayrollEntry.id selected) state = Some selected ->
  PayrollEntry.p_id editValues = None ->
  let state' :=
    perform (PayrollManagementView.edit employee now selected editValues)
      state in
  (forall emp,
     employeeById (PayrollEntry.employeeId selected) state = Some emp ->
     exists p,
       payrollById (PayrollEntry.id selected) state' = Some p
       /\ PayrollEntry.regularHours p
          = orDefault (PayrollEntry.p_regularHours editValues)
              (PayrollEntry.regularHours selected)
       /\ PayrollEntry.overtimeHours p
          = orDefault (PayrollEntry.p_overtimeHours editValues)
              (PayrollEntry.overtimeHours selected)
       /\ PayrollEntry.regularPay p
          = (PayrollEntry.regularHours p * Employee.hourlyRate emp)%Q
       /\ (forall o,
             overtimeSettingsOf (Employee.id emp) state = Some o ->
             ~ (OvertimeSettings.overtimeMultiplier o == 0)%Q ->
             PayrollEntry.overtimePay p
             = (PayrollEntry.overtimeHours p * Employee.hourlyRate emp
                * OvertimeSettings.overtimeMultiplier o)%Q)
       /\ (overtimeSettingsOf (Employee.id emp) state = None ->
           PayrollEntry.overtimePay p
           = (PayrollEntry.overtimeHours p * Employee.hourlyRate emp * 1)%Q)
       /\ PayrollEntry.totalPay p
          = (PayrollEntry.regularPay p + PayrollEntry.overtimePay p)%Q
       /\ forall i q,
            nth_error (payrollEntries state) i = Some q ->
            PayrollEntry.id q <> PayrollEntry.id selected ->
            nth_error (payrollEntries state') i = Some q)
  /\ (employeeById (PayrollEntry.employeeId selected) state = None ->
      state' = state).
Proof.
  intros Hsel Hid state'. subst state'.
  unfold perform, PayrollManagementView.edit,
    PayrollManagementView.handleUpdatePayroll.
  unfold employeeById, payrollById, overtimeSettingsOf in *.
  split.
  - intros emp Hemp. rewrite Hemp. cbv zeta.
    unfold AdminView.handleUpdatePayroll. cbn [handleUpdateState].
    cbn [payrollEntries withAudit withPayrollEntries].
    rewrite find_map_same.
    2:{ intros x Hx. cbn. rewrite Hid. exact Hx. }
    rewrite Hsel. cbn [option_map].
    eexists. split; [reflexivity|].
    split; [reflexivity|]. split; [reflexivity|]. split; [reflexivity|].
    split.
    { intros o Ho Hnz. cbn. rewrite Ho, (orElse_nonzero _ _ Hnz).
      reflexivity. }
    split.
    { intros Ho. cbn. rewrite Ho. reflexivity. }
    split; [reflexivity|].
    intros i q Hq Hne. rewrite nth_error_map, Hq. cbn [option_map].
    apply String.eqb_neq in Hne. rewrite Hne. reflexivity.
  - intros Hnone. rewrite Hnone. reflexivity.
Qed.

(** X9.  Payroll keeps its totals: if in every payroll entry totalPay is
    regularPay + overtimePay, this is still so after a month is processed
    and after any edit made through the payroll dialog. *)
Theorem payConsistent_preserved (now : Z) (month : string)
    (selected : PayrollEntry.t) (editValues : PayrollEntry.partial)
    (state : HRMState) :
  payConsistent state ->
  payConsistent
    (perform (AdminView.handleProcessPayroll rt employee now month) state)
  /\ payConsistent
       (perform (PayrollManagementView.edit employee now selected editValues)
          state).
Proof.
  intros Hinv. split.
  - unfold perform, AdminView.handleProcessPayroll.
    destruct (AdminView.newPayrollEntries rt employee now month state)
      as [|q new] eqn:Hnew; [exact Hinv|].
    rewrite <- Hnew. intros p Hp. cbn in Hp.
    apply in_app_or in Hp. destruct Hp as [Hp|Hp]; [apply Hinv, Hp|].
    unfold AdminView.newPayrollEntries in Hp.
    apply in_flat_map in Hp. destruct Hp as (emp & _ & Hp).
    unfold AdminView.payrollEntryFor in Hp.
    destruct (find _ (payrollEntries state)); [contradiction|].
    destruct Hp as [<-|[]]. reflexivity.
  - unfold perform, PayrollManagementView.edit,
      PayrollManagementView.handleUpdatePayroll.
    destruct (find _ (employees state)) as [emp|]; [|exact Hinv].
    cbv zeta. unfold AdminView.handleUpdatePayroll.
    intros p Hp. cbn in Hp. apply in_map_iff in Hp.
    destruct Hp as (q & Hq & Hin).
    destruct (PayrollEntry.id q === PayrollEntry.id selected).
    + subst p. reflexivity.
    + subst p. apply Hinv, Hin.
Qed.

Lemma filter_map_keyed {A} (key : A -> string) (k : string) (f : A -> A)
    (c : A -> bool) (l : list A) :
  (forall x, key (f x) = key x) ->
  filter (fun x => key x === k) (map (fun x => if c x then f x else x) l)
  = map (fun x => if c x then f x else x) (filter (fun x => key x === k) l).
Proof.
  intros Hf. induction l as [|x l IH]; simpl; [reflexivity|].
  assert (key (if c x then f x else x) = key x) as ->
    by (destruct (c x); [apply Hf | reflexivity]).
  destruct (key x === k); simpl; congruence.
Qed.

Lemma map_untouched {A} (c : A -> bool) (f : A -> A) (l : list A) :
  (forall x, In x l -> c x = false) ->
  map (fun x => if c x then f x else x) l = l.
Proof.
  induction l as [|x l IH]; simpl; intros H; [reflexivity|].
  rewrite (H x) by (left; reflexivity).
  rewrite IH by (intros y Hy; apply H; right; exact Hy). reflexivity.
Qed.

Lemma overtimeSettings_upsert_lookup (now : Z) (employeeId : string)
    (multiplier : Q) (state : HRMState) :
  exists o,
    overtimeSettingsOf employeeId
      (perform
         (fun _ =>
            AdminView.handleUpdateOvertimeSettings rt employee now
              employeeId multiplier)
         state)
    = Some o
    /\ OvertimeSettings.overtimeMultiplier o = multiplier.
Proof.
  unfold perform, AdminView.handleUpdateOvertimeSettings, overtimeSettingsOf.
  cbn [handleUpdateState overtimeSettings withAudit withOvertimeSettings].
  destruct (find _ (overtimeSettings state)) as [o0|] eqn:Hfind.
  - rewrite find_map_same by (intros x Hx; exact Hx).
    rewrite Hfind. eexists. split; reflexivity.
  - rewrite find_app, Hfind. simpl. rewrite String.eqb_refl.
    eexists. split; reflexivity.
Qed.

(** X10.  Setting the overtime multiplier of an employee updates the
    records that employee has, or adds one when there is none: afterwards
    every record of the employee carries the new multiplier, their number
    is what it was, or 1 if it was 0, and the records of every other
    employee are as before. *)
Theorem overtimeSettings_upsert (now : Z) (employeeId : string)
    (multiplier : Q) (state : HRMState) :
  let state' :=
    perform
      (fun _ =>
         AdminView.handleUpdateOvertimeSettings rt employee now employeeId
           multiplier)
      state in
  (forall o,
     In o (settingsOf employeeId state') ->
     OvertimeSettings.overtimeMultiplier o = multiplier)
  /\ List.length (settingsOf employeeId state')
     = Nat.max 1 (List.length (settingsOf employeeId state))
  /\ (exists o,
        overtimeSettingsOf employeeId state' = Some o
        /\ OvertimeSettings.overtimeMultiplier o = multiplier)
  /\ (forall other,
        other <> employeeId ->
        settingsOf other state' = settingsOf other state).
Proof.
  intros state'. subst state'.
  unfold perform, AdminView.handleUpdateOvertimeSettings, settingsOf,
    overtimeSettingsOf.
  cbn [handleUpdateState overtimeSettings withAudit withOvertimeSettings].
  destruct (find _ (overtimeSettings state)) as [o0|] eqn:Hfind.
  - split; [|split; [|split]].
    + intros o Ho. apply filter_In in Ho. destruct Ho as [Ho Hk].
      apply in_map_iff in Ho. destruct Ho as (x & <- & _).
      destruct (OvertimeSettings.employeeId x === employeeId) eqn:E;
        [reflexivity|]. rewrite E in Hk. discriminate.
    + rewrite (filter_map_keyed OvertimeSettings.employeeId)
        by reflexivity.
      rewrite length_map.
      assert (In o0 (filter
                       (fun x => OvertimeSettings.employeeId x === employeeId)
                       (overtimeSettings state))) as Hin.
      { apply find_some in Hfind. apply filter_In. exact Hfind. }
      destruct (filter _ (overtimeSettings state)); [contradiction|].
      simpl. lia.
    + rewrite find_map_same by (intros x Hx; exact Hx).
      rewrite Hfind. eexists. split; reflexivity.
    + intros other Hne.
      rewrite (filter_map_keyed OvertimeSettings.employeeId)
        by reflexivity.
      apply map_untouched. intros x Hx. apply filter_In in Hx.
      destruct Hx as [_ Hx]. apply String.eqb_eq in Hx.
      apply String.eqb_neq. congruence.
  - rewrite !filter_app, !find_app, Hfind.
    rewrite (find_none_filter _ _ Hfind). simpl.
    rewrite String.eqb_refl. simpl.
    split; [|split; [|split]].
    + intros o [<-|[]]. reflexivity.
    + reflexivity.
    + eexists. split; reflexivity.
    + intros other Hne. apply String.eqb_neq in Hne.
      rewrite filter_app. simpl.
      rewrite (String.eqb_sym employeeId other), Hne. apply app_nil_r.
Qed.

(** X11.  A multiplier set for an employee is the one the next payroll
    run uses: after the overtime multiplier of an employee without an
    entry for the month is set to a non-zero value, processing the month
    emits for that employee an entry with overtimePay = overtimeHours x
    hourlyRate x that multiplier. *)
Theorem multiplier_applies (now now' : Z) (month : string) (multiplier : Q)
    (state : HRMState) (emp : Employee.t) :
  In emp (employees state) ->
  payrollEntryOf (Employee.id emp) month (payrollEntries state) = None ->
  ~ (multiplier == 0)%Q ->
  let state' :=
    perform
      (fun _ =>
         AdminView.handleUpdateOvertimeSettings rt employee now
           (Employee.id emp) multiplier)
      state in
  exists p,
    AdminView.payrollEntryFor rt employee now' month state' emp = [p]
    /\ In p (AdminView.newPayrollEntries rt employee now' month state')
    /\ PayrollEntry.employeeId p = Employee.id emp
    /\ PayrollEntry.overtimePay p
       = (PayrollEntry.overtimeHours p * Employee.hourlyRate emp
          * multiplier)%Q.
Proof.
  intros Hin Hnone Hnz state'.
  destruct (overtimeSettings_upsert_lookup now (Employee.id emp) multiplier
              state) as (o & Ho & Hm).
  fold state' in Ho.
  assert (payrollEntries state' = payrollEntries state) as Hpay
    by reflexivity.
  assert (employees state' = employees state) as Hemps by reflexivity.
  unfold AdminView.payrollEntryFor.
  unfold payrollEntryOf in Hnone. rewrite Hpay, Hnone.
  unfold overtimeSettingsOf in Ho. rewrite Ho, Hm.
  rewrite (orElse_nonzero _ _ Hnz).
  eexists. split; [reflexivity|]. split; [|split; reflexivity].
  unfold AdminView.newPayrollEntries. apply in_flat_map.
  exists emp. rewrite Hemps. split; [exact Hin|].
  unfold AdminView.payrollEntryFor. rewrite Hpay, Hnone.
  rewrite Ho, Hm, (orElse_nonzero _ _ Hnz). left. reflexivity.
Qed.

End PayrollEdits.

(** ** Employees: creation, the edit form and the settings dialog *)

Section EmployeeAdministration.

Variable employee : Employee.t.

Lemma filter_keep_all {A} (p : A -> bool) (l : list A) :
  (forall x, In x l -> p x = true) -> filter p l = l.
Proof.
  induction l as [|x l IH]; simpl; intros H; [reflexivity|].
  rewrite (H x) by (left; reflexivity).
  rewrite IH by (intros y Hy; apply H; right; exact Hy). reflexivity.
Qed.

Lemma filter_not_id {A} (key : A -> string) (id : string) (l : list A) :
  (forall x, In x l -> key x <> id) ->
  filter (fun x => negb (key x === id)) l = l.
Proof.
  intros H. apply filter_keep_all. intros x Hx.
  apply negb_true_iff, String.eqb_neq, H, Hx.
Qed.

Lemma find_not_id {A} (key : A -> string) (id : string) (l : list A) :
  (forall x, In x l -> key x <> id) ->
  find (fun x => key x === id) l = None.
Proof.
  intros H. destruct (find _ l) as [x|] eqn:Hf; [|reflexivity].
  apply find_some in Hf. destruct Hf as [Hin Hx].
  apply String.eqb_eq in Hx. exfalso. exact (H x Hin Hx).
Qed.

Lemma find_app_other {A} (key : A -> string) (id : string) (l : list A)
    (x : A) :
  key x <> id ->
  find (fun y => key y === id) (l ++ [x]) = find (fun y => key y === id) l.
Proof.
  intros Hne. rewrite find_app. simpl.
  apply String.eqb_neq in Hne. rewrite Hne.
  destruct (find _ l); reflexivity.
Qed.

(** X12.  A created employee gets the id emp_<time of creation>; when no
    employee and no overtime settings carry that id yet, the new employee
    is found under it, with the data entered, together with overtime
    settings of 1.25 for the 100 hour target and 1 for any other; and
    whatever is looked up under another id is found as before. *)
Theorem createEmployee_lookup (now : Z) (newEmployee : Employee.t)
    (state : HRMState) :
  let id := "emp_" ^^ showInt now in
  let state' :=
    perform (fun _ => AdminView.handleCreateEmployee employee now newEmployee)
      state in
  (employeeById id state = None ->
   employeeById id state' = Some (Employee.withId id newEmployee))
  /\ (overtimeSettingsOf id state = None ->
      overtimeSettingsOf id state'
      = Some (OvertimeSettings.mk id
                (match Employee.monthlyHourTarget newEmployee with
                 | H100 => 5 # 4
                 | _ => 1
                 end)%Q))
  /\ (forall other,
        other <> id ->
        employeeById other state' = employeeById other state
        /\ overtimeSettingsOf other state' = overtimeSettingsOf other state).
Proof.
  intros id state'. subst state'.
  unfold perform, AdminView.handleCreateEmployee, employeeById,
    overtimeSettingsOf.
  cbn [handleUpdateState employees overtimeSettings withAudit withEmployees
       withOvertimeSettings].
  fold id. split; [|split].
  - intros Hnone. rewrite find_app, Hnone. simpl.
    rewrite String.eqb_refl. reflexivity.
  - intros Hnone. rewrite find_app, Hnone. simpl.
    rewrite String.eqb_refl.
    destruct (Employee.monthlyHourTarget newEmployee); reflexivity.
  - intros other Hne. split.
    + apply (find_app_other Employee.id). simpl. congruence.
    + apply (find_app_other OvertimeSettings.employeeId). simpl. congruence.
Qed.

(** X13.  Deleting an employee right after the creation takes the state
    back: when the id given to the new employee was carried by no record
    before, the employees, time logs, tasks, leave requests, payroll
    entries and overtime settings after the deletion are those from before
    the creation, and the audit log has two more entries. *)
Theorem create_delete_roundtrip (now now' : Z) (newEmployee : Employee.t)
    (state : HRMState) :
  let id := "emp_" ^^ showInt now in
  unusedEmployeeId id state ->
  let state2 :=
    perform (AdminView.handleDeleteEmployee employee now' id)
      (perform
         (fun _ => AdminView.handleCreateEmployee employee now newEmployee)
         state) in
  employees state2 = employees state
  /\ timeLogs state2 = timeLogs state
  /\ tasks state2 = tasks state
  /\ leaveRequests state2 = leaveRequests state
  /\ payrollEntries state2 = payrollEntries state
  /\ overtimeSettings state2 = overtimeSettings state
  /\ List.length (auditLogs state2) = (List.length (auditLogs state) + 2)%nat.
Proof.
  intros id (He & Hl & Ht & Hr & Hp & Ho) state2.
  set (state1 :=
         perform
           (fun _ => AdminView.handleCreateEmployee employee now newEmployee)
           state) in *.
  assert (employees state1
          = employees state ++ [Employee.withId id newEmployee]) as E1
    by reflexivity.
  assert (exists o, overtimeSettings state1
                    = overtimeSettings state ++ [OvertimeSettings.mk id o])
    as [o E2] by (eexists; reflexivity).
  assert (timeLogs state1 = timeLogs state) as E3 by reflexivity.
  assert (tasks state1 = tasks state) as E4 by reflexivity.
  assert (leaveRequests state1 = leaveRequests state) as E5 by reflexivity.
  assert (payrollEntries state1 = payrollEntries state) as E6 by reflexivity.
  assert (List.length (auditLogs state1)
          = (List.length (auditLogs state) + 1)%nat) as E7
    by (unfold state1, perform; simpl; apply length_app).
  clearbody state1 id. subst state2.
  unfold perform, AdminView.handleDeleteEmployee.
  rewrite E1, find_app, (find_not_id Employee.id id _ He). simpl find.
  rewrite String.eqb_refl.
  cbn [handleUpdateState employees timeLogs tasks leaveRequests
       payrollEntries overtimeSettings auditLogs withAudit].
  rewrite E1, E2, E3, E4, E5, E6, !filter_app. simpl.
  rewrite String.eqb_refl. simpl. rewrite !app_nil_r.
  rewrite (filter_not_id Employee.id id _ He),
    (filter_not_id TimeLog.employeeId id _ Hl),
    (filter_not_id Task.employeeId id _ Ht),
    (filter_not_id LeaveRequest.employeeId id _ Hr),
    (filter_not_id PayrollEntry.employeeId id _ Hp),
    (filter_not_id OvertimeSettings.employeeId id _ Ho).
  conjuncts; try reflexivity.
  rewrite length_app, E7. simpl. lia.
Qed.

Lemma merge_formOf (selected : Employee.t) (v : Z) :
  Employee.merge (Employee.withCompLeavesEarned v selected)
    (EmployeeFormDialog.formOf selected)
  = selected.
Proof.
  destruct selected as [i n e pw ph po d s m t r ro ce cu pp a dob ec].
  unfold Employee.merge, EmployeeFormDialog.formOf. simpl.
  destruct pp, a, dob, ec; reflexivity.
Qed.

(** X14.  The edit form of an employee saves every field as it was when
    the dialog was opened.  A comp leave granted from within the dialog
    is therefore lost when the form is saved afterwards: the grant raises
    compLeavesEarned by the days granted, and the save of the untouched
    form puts the employee record back to what it was. *)
Theorem form_save_undoes_grant (now now' days : Z) (selected : Employee.t)
    (state : HRMState) :
  employeeById (Employee.id selected) state = Some selected ->
  Employee.name selected <> "" ->
  Employee.email selected <> "" ->
  Employee.password selected <> "" ->
  let granted :=
    perform (fun _ => EmployeeFormDialog.grant employee now selected days)
      state in
  let saved :=
    perform
      (fun _ =>
         EmployeeFormDialog.save employee now' selected
           (EmployeeFormDialog.formOf selected))
      granted in
  (exists e,
     employeeById (Employee.id selected) granted = Some e
     /\ Employee.compLeavesEarned e
        = Employee.compLeavesEarned selected + days)
  /\ employeeById (Employee.id selected) saved = Some selected.
Proof.
  intros Hsel Hname Hemail Hpw granted saved.
  assert (employeeById (Employee.id selected) granted
          = Some (Employee.withCompLeavesEarned
                    (Employee.compLeavesEarned selected + days) selected))
    as Hgranted.
  { subst granted.
    unfold perform, EmployeeFormDialog.grant, AdminView.handleGrantCompLeave,
      employeeById in *.
    cbn [handleUpdateState employees withAudit withEmployees].
    rewrite find_map_same by (intros x Hx; exact Hx).
    rewrite Hsel. reflexivity. }
  split.
  - eexists. split; [exact Hgranted | reflexivity].
  - subst saved.
    unfold perform, EmployeeFormDialog.save, EmployeeFormDialog.handleSubmit.
    assert (EmployeeFormDialog.filled
              (Employee.p_name (EmployeeFormDialog.formOf selected)) = true)
      as -> by (simpl; apply not_false_is_true; rewrite truthy_false;
                exact Hname).
    assert (EmployeeFormDialog.filled
              (Employee.p_email (EmployeeFormDialog.formOf selected)) = true)
      as -> by (simpl; apply not_false_is_true; rewrite truthy_false;
                exact Hemail).
    assert (EmployeeFormDialog.filled
              (Employee.p_password (EmployeeFormDialog.formOf selected))
            = true)
      as -> by (simpl; apply not_false_is_true; rewrite truthy_false;
                exact Hpw).
    cbn [negb orb]. unfold AdminView.handleUpdateEmployee, employeeById in *.
    cbn [handleUpdateState employees withAudit withEmployees].
    rewrite find_map_same.
    2:{ intros x _. simpl. apply String.eqb_refl. }
    rewrite Hgranted. simpl option_map. f_equal. apply merge_formOf.
Qed.

(** The values of the settings dialog after any changes: the rate and the
    target, both present, and no other key. *)
Lemma settings_values (parseFloat : string -> option Q)
    (selected : Employee.t) (changes : list SettingsView.Change) :
  fold_left (fun editValues c => SettingsView.change parseFloat c editValues)
    changes (SettingsView.clickEdit selected)
  = Employee.mkPartial None None None None None None None None None
      (Some (targetChosen changes (Employee.monthlyHourTarget selected)))
      (Some (rateEntered parseFloat changes (Employee.hourlyRate selected)))
      None None None None None None None.
Proof.
  induction changes as [|c changes IH] using rev_ind; [reflexivity|].
  rewrite fold_left_app. simpl fold_left. rewrite IH.
  unfold rateEntered, targetChosen. rewrite rev_app_distr. simpl rev.
  simpl app. destruct c as [value|value]; simpl; [|reflexivity].
  unfold orElse. destruct (parseFloat value); reflexivity.
Qed.

(** X15.  The settings dialog opens with the rate and the target of the
    employee as its values, so the test of [handleUpdate] (a rate that is
    not 0, or a target) never holds an update back.  Whatever is typed and
    picked, [Update Settings] stores on the employee the rate last typed
    and the target last picked (those the dialog opened with when none
    was), changes no other field, no other employee and no other
    collection, and appends one audit entry for the employee.  A rate
    field left at 0, empty or unreadable stores a rate of 0. *)
Theorem settings_update_sent (parseFloat : string -> option Q) (now : Z)
    (selected : Employee.t) (changes : list SettingsView.Change)
    (state : HRMState) :
  let rate := rateEntered parseFloat changes (Employee.hourlyRate selected) in
  let target := targetChosen changes (Employee.monthlyHourTarget selected) in
  let after changes :=
    perform
      (fun _ => SettingsView.session parseFloat employee now selected changes)
      state in
  employees (after changes)
  = map (fun e =>
           if Employee.id e === Employee.id selected
           then rated rate target e else e)
      (employees state)
  /\ (exists entry,
        auditLogs (after changes) = auditLogs state ++ [entry]
        /\ AuditLog.action entry = "Employee Updated"
        /\ AuditLog.entityId entry = Employee.id selected
        /\ AuditLog.userId entry = Employee.id employee
        /\ AuditLog.timestamp entry = now)
  /\ timeLogs (after changes) = timeLogs state
  /\ tasks (after changes) = tasks state
  /\ leaveRequests (after changes) = leaveRequests state
  /\ payrollEntries (after changes) = payrollEntries state
  /\ overtimeSettings (after changes) = overtimeSettings state
  /\ (forall value e,
        parseFloat value = None \/ parseFloat value = Some 0%Q ->
        In e (employees (after (changes ++ [SettingsView.TypeRate value]))) ->
        Employee.id e = Employee.id selected ->
        Employee.hourlyRate e = 0%Q).
Proof.
  intros rate target after.
  assert (forall cs,
            exists fields,
            after cs
            = withAudit
                (auditEntry employee now "Employee Updated" "Employee"
                   (Employee.id selected) fields)
                (withEmployees
                   (map (fun e =>
                           if Employee.id e === Employee.id selected
                           then rated
                                  (rateEntered parseFloat cs
                                     (Employee.hourlyRate selected))
                                  (targetChosen cs
                                     (Employee.monthlyHourTarget selected))
                                  e
                           else e)
                      (employees state))
                   state)) as Hafter.
  { intros cs. unfold after, perform, SettingsView.session,
      SettingsView.update, SettingsView.handleUpdate.
    rewrite settings_values. cbn [Employee.p_hourlyRate
      Employee.p_monthlyHourTarget isSome]. rewrite orb_true_r.
    eexists. reflexivity. }
  destruct (Hafter changes) as [fields ->]. conjuncts; try reflexivity.
  - eexists. split; [reflexivity|]. conjuncts; reflexivity.
  - intros value e Hvalue Hin Hid.
    destruct (Hafter (changes ++ [SettingsView.TypeRate value]))
      as [fields' Hlast].
    rewrite Hlast in Hin.
    cbn [employees withAudit withEmployees] in Hin.
    apply in_map_iff in Hin. destruct Hin as (e0 & <- & _).
    destruct (Employee.id e0 === Employee.id selected) eqn:E.
    + cbn [rated Employee.hourlyRate].
      unfold rateEntered. rewrite rev_app_distr. simpl.
      destruct Hvalue as [->| ->]; reflexivity.
    + apply String.eqb_neq in E. contradiction.
Qed.

Lemma map_unknown {A} (key : A -> string) (id : string) (f : A -> A)
    (l : list A) :
  find (fun x => key x === id) l = None ->
  map (fun x => if key x === id then f x else x) l = l.
Proof.
  intros Hnone. apply map_untouched. intros x Hx.
  exact (find_none _ _ Hnone x Hx).
Qed.

(** X16.  The handlers that update a record by id without looking it up
    first (employee update, comp-leave grant by the administrator and by
    the manager, payroll edit, task approval and task comment) go through
    for an id that no record has: nothing is changed, and yet one audit
    entry naming that id is appended. *)
Theorem unknown_id_still_audited (now : Z) (id : string) (state : HRMState) :
  (employeeById id state = None ->
   forall updates days,
     (exists entry,
        perform (fun _ => AdminView.handleUpdateEmployee employee now id
                            updates) state
        = withAudit entry state
        /\ AuditLog.entityId entry = id)
     /\ (exists entry,
           perform (fun _ => AdminView.handleGrantCompLeave employee now id
                               days) state
           = withAudit entry state
           /\ AuditLog.entityId entry = id)
     /\ (exists entry,
           perform (fun _ => ManagerView.handleGrantCompLeave employee now id
                               days) state
           = withAudit entry state
           /\ AuditLog.entityId entry = id))
  /\ (payrollById id state = None ->
      forall updates,
        exists entry,
          perform (fun _ => AdminView.handleUpdatePayroll employee now id
                              updates) state
          = withAudit entry state
          /\ AuditLog.entityId entry = id)
  /\ (taskById id state = None ->
      forall withComment commentText,
        (exists entry,
           perform (fun _ => ManagerView.handleApproveTask employee now id
                               withComment) state
           = withAudit entry state
           /\ AuditLog.entityId entry = id)
        /\ (trim commentText <> "" ->
            exists entry,
              perform (fun _ => ManagerView.handleCommentTask employee now id
                                  commentText) state
              = withAudit entry state
              /\ AuditLog.entityId entry = id)).
Proof.
  assert (forall s : HRMState,
            mkState (employees s) (timeLogs s) (tasks s) (leaveRequests s)
              (payrollEntries s) (overtimeSettings s) (auditLogs s)
              (currentUser s) = s) as Heta by (intros []; reflexivity).
  unfold employeeById, payrollById, taskById, perform.
  split; [|split].
  - intros Hnone updates days. conjuncts.
    + unfold AdminView.handleUpdateEmployee. cbn [handleUpdateState].
      unfold withEmployees.
      rewrite (map_unknown Employee.id id _ _ Hnone), Heta.
      eexists. split; reflexivity.
    + unfold AdminView.handleGrantCompLeave. cbn [handleUpdateState].
      unfold withEmployees.
      rewrite (map_unknown Employee.id id _ _ Hnone), Heta.
      eexists. split; reflexivity.
    + unfold ManagerView.handleGrantCompLeave. cbn [handleUpdateState].
      unfold withEmployees.
      rewrite (map_unknown Employee.id id _ _ Hnone), Heta.
      eexists. split; reflexivity.
  - intros Hnone updates.
    unfold AdminView.handleUpdatePayroll. cbn [handleUpdateState].
    unfold withPayrollEntries.
    rewrite (map_unknown PayrollEntry.id id _ _ Hnone), Heta.
    eexists. split; reflexivity.
  - intros Hnone withComment commentText. split.
    + unfold ManagerView.handleApproveTask. cbn [handleUpdateState].
      unfold withTasks.
      rewrite (map_unknown Task.id id _ _ Hnone), Heta.
      eexists. split; reflexivity.
    + intros Hblank. unfold ManagerView.handleCommentTask.
      assert (truthy (trim commentText) = true) as ->
        by (apply not_false_is_true; rewrite truthy_false; exact Hblank).
      cbn [negb handleUpdateState]. unfold withTasks.
      rewrite (map_unknown Task.id id _ _ Hnone), Heta.
      eexists. split; reflexivity.
Qed.

End EmployeeAdministration.

(** ** Task log *)

Section TaskLog.

Variable rt : Runtime.
Variable employee : Employee.t.
Variable today : string.

(** X17.  A task added by the employee is found under the id
    task_<time>, when that id was free, as a pending task of the
    employee for the day with the description and hours given; deleting
    it again leaves the task list as it was before; and deleting an id no
    task has changes nothing at all. *)
Theorem task_add_delete (now now' : Z) (description : string) (hours : Q)
    (state : HRMState) :
  let id := "task_" ^^ showInt now in
  let added :=
    perform
      (fun _ =>
         EmployeeView.handleAddTask rt employee today now description hours)
      state in
  taskById id state = None ->
  taskById id added
  = Some (Task.mk id (Employee.id employee) today description hours
            TaskPending None None None)
  /\ tasks (perform (EmployeeView.handleDeleteTask employee now' id) added)
     = tasks state
  /\ perform (EmployeeView.handleDeleteTask employee now' id) state = state.
Proof.
  intros id added Hfree. unfold taskById in *.
  assert (tasks added
          = tasks state
            ++ [Task.mk id (Employee.id employee) today description hours
                  TaskPending None None None]) as Hadded by reflexivity.
  assert (find (fun t => Task.id t === id) (tasks added)
          = Some (Task.mk id (Employee.id employee) today description hours
                    TaskPending None None None)) as Hfind.
  { rewrite Hadded, find_app, Hfree. simpl. rewrite String.eqb_refl.
    reflexivity. }
  split; [exact Hfind|]. split.
  - clearbody added. unfold perform, EmployeeView.handleDeleteTask.
    rewrite Hfind. cbn [handleUpdateState tasks withAudit withTasks].
    rewrite Hadded, filter_app. simpl. rewrite String.eqb_refl. simpl.
    rewrite app_nil_r. apply filter_keep_all. intros t Ht.
    apply negb_true_iff. exact (find_none _ _ Hfree t Ht).
  - unfold perform, EmployeeView.handleDeleteTask. rewrite Hfree.
    reflexivity.
Qed.

(** X18.  The task dialog adds a task only for a description that is not
    blank and hours that parse to a number above zero; the task it adds
    carries the trimmed description and those hours, and the employee's
    tasks of the day are then not empty, which is what the check-out asks
    for.  Any other input adds nothing. *)
Theorem taskLogger_submit (parseFloat : string -> option Q) (now : Z)
    (description hours : string) (state : HRMState) :
  let submitted :=
    perform
      (fun _ =>
         TaskLogger.addTask rt parseFloat employee today now description hours)
      state in
  (forall h,
     trim description <> "" -> parseFloat hours = Some h -> (0 < h)%Q ->
     hours <> "" ->
     tasks submitted
     = tasks state
       ++ [Task.mk ("task_" ^^ showInt now) (Employee.id employee) today
             (trim description) h TaskPending None None None]
     /\ EmployeeView.myTasks employee today submitted <> [])
  /\ (trim description = "" \/ hours = "" \/ parseFloat hours = None
      \/ (exists h, parseFloat hours = Some h /\ (h <= 0)%Q) ->
      submitted = state).
Proof.
  intros submitted. subst submitted.
  unfold perform, TaskLogger.addTask, TaskLogger.handleSubmit.
  split.
  - intros h Hd Hp Hpos Hh. rewrite Hp.
    assert (truthy (trim description) = true) as ->
      by (apply not_false_is_true; rewrite truthy_false; exact Hd).
    assert (truthy hours = true) as ->
      by (apply not_false_is_true; rewrite truthy_false; exact Hh).
    assert (Qle_bool h 0 = false) as ->.
    { destruct (Qle_bool h 0) eqn:E; [|reflexivity].
      apply Qle_bool_iff in E. exfalso. exact (Qlt_not_le _ _ Hpos E). }
    cbn [andb negb]. split; [reflexivity|].
    exact (myTasks_after_add rt employee today now (trim description) h
             state).
  - intros H. destruct (parseFloat hours) as [h|] eqn:Hp; [|reflexivity].
    assert (truthy (trim description) && truthy hours
            && negb (Qle_bool h 0) = false) as ->; [|reflexivity].
    rewrite !andb_false_iff, negb_false_iff, !truthy_false.
    destruct H as [H|[H|[H|(h' & Hh' & Hle)]]]; try tauto; try discriminate.
    right. injection Hh' as <-. apply Qle_bool_iff, Hle.
Qed.

Lemma nth_error_filter_In {A} (p : A -> bool) (l : list A) (n : nat) (x : A) :
  nth_error (filter p l) n = Some x -> In x l /\ p x = true.
Proof.
  intros H. apply nth_error_In in H. apply filter_In in H. exact H.
Qed.

(** X19.  In the employee's task list only a pending task can be deleted:
    the row of a task that was approved or commented has no delete button,
    and the state stays as it is; the deletion of a pending row removes
    every task carrying its id and no other. *)
Theorem taskLogger_delete_locked (now : Z) (row : nat) (state : HRMState)
    (task : Task.t) :
  nth_error (EmployeeView.myTasks employee today state) row = Some task ->
  (Task.status task <> TaskPending ->
   perform (TaskLogger.deleteTask employee today now row) state = state)
  /\ (Task.status task = TaskPending ->
      tasks (perform (TaskLogger.deleteTask employee today now row) state)
      = filter (fun t => negb (Task.id t === Task.id task)) (tasks state)
      /\ taskById (Task.id task)
           (perform (TaskLogger.deleteTask employee today now row) state)
         = None).
Proof.
  intros Hrow.
  unfold perform, TaskLogger.deleteTask, TaskLogger.clickDelete,
    TaskLogger.isPending.
  rewrite Hrow. split.
  - intros Hst. destruct (Task.status task); [congruence | | ]; reflexivity.
  - intros Hst. rewrite Hst. cbn [andb].
    unfold EmployeeView.handleDeleteTask.
    destruct (find (fun t => Task.id t === Task.id task) (tasks state))
      as [found|] eqn:Hfind.
    + cbn [handleUpdateState tasks withAudit withTasks].
      split; [reflexivity|]. unfold taskById.
      cbn [tasks withAudit withTasks].
      destruct (find _ (filter _ (tasks state))) as [t|] eqn:Hf;
        [|reflexivity].
      apply find_some in Hf. destruct Hf as [Hin Ht].
      apply filter_In in Hin. destruct Hin as [_ Hn].
      rewrite Ht in Hn. discriminate.
    + exfalso. apply nth_error_filter_In in Hrow. destruct Hrow as [Hin _].
      exact (find_In _ _ task Hin (String.eqb_refl _) Hfind).
Qed.

End TaskLog.

Lemma strip_length (one : ascii -> bool) (two : ascii -> ascii -> bool)
    (three : ascii -> ascii -> ascii -> bool) (n : nat) (l : list ascii) :
  (List.length l <= n)%nat ->
  opens one two three (strip one two three l) = false
  /\ exists h, l = h ++ strip one two three l.
Proof.
  revert l. induction n as [|n IH]; intros l Hn.
  - destruct l; [|simpl in Hn; lia]. split; [reflexivity|].
    exists []. reflexivity.
  - destruct l as [|c1 r1]; [split; [reflexivity | exists []; reflexivity]|].
    simpl in Hn. simpl strip. destruct (one c1) eqn:E1.
    { destruct (IH r1) as (Ho & h & Hh); [lia|]. split; [exact Ho|].
      exists (c1 :: h). simpl. rewrite <- Hh. reflexivity. }
    destruct r1 as [|c2 r2].
    { split; [simpl; rewrite E1; reflexivity | exists []; reflexivity]. }
    simpl in Hn. destruct (two c1 c2) eqn:E2.
    { destruct (IH r2) as (Ho & h & Hh); [lia|]. split; [exact Ho|].
      exists (c1 :: c2 :: h). simpl. rewrite <- Hh. reflexivity. }
    destruct r2 as [|c3 r3].
    { split; [simpl; rewrite E1, E2; reflexivity | exists []; reflexivity]. }
    simpl in Hn. destruct (three c1 c2 c3) eqn:E3.
    { destruct (IH r3) as (Ho & h & Hh); [lia|]. split; [exact Ho|].
      exists (c1 :: c2 :: c3 :: h). simpl. rewrite <- Hh. reflexivity. }
    split; [simpl; rewrite E1, E2, E3; reflexivity | exists []; reflexivity].
Qed.

(** What is left does not open with a character to strip. *)
Lemma strip_opens (one : ascii -> bool) (two : ascii -> ascii -> bool)
    (three : ascii -> ascii -> ascii -> bool) (l : list ascii) :
  opens one two three (strip one two three l) = false.
Proof.
  apply (strip_length one two three (List.length l) l). lia.
Qed.

(** What is left is the end of the bytes. *)
Lemma strip_suffix (one : ascii -> bool) (two : ascii -> ascii -> bool)
    (three : ascii -> ascii -> ascii -> bool) (l : list ascii) :
  exists h, l = h ++ strip one two three l.
Proof.
  apply (strip_length one two three (List.length l) l). lia.
Qed.

Lemma strip_fixed (one : ascii -> bool) (two : ascii -> ascii -> bool)
    (three : ascii -> ascii -> ascii -> bool) (l : list ascii) :
  opens one two three l = false -> strip one two three l = l.
Proof.
  destruct l as [|c1 [|c2 [|c3 r3]]]; simpl; intros H;
    repeat (apply orb_false_iff in H; destruct H as [? H]);
    repeat match goal with E : _ = false |- _ => rewrite E; clear E end;
    try rewrite H; reflexivity.
Qed.

Lemma strip_idempotent (one : ascii -> bool) (two : ascii -> ascii -> bool)
    (three : ascii -> ascii -> ascii -> bool) (l : list ascii) :
  strip one two three (strip one two three l) = strip one two three l.
Proof.
  apply strip_fixed, strip_opens.
Qed.

(** The beginning of bytes that open with no character to strip opens with
    none either. *)
Lemma opens_prefix (one : ascii -> bool) (two : ascii -> ascii -> bool)
    (three : ascii -> ascii -> ascii -> bool) (p t : list ascii) :
  opens one two three (p ++ t) = false -> opens one two three p = false.
Proof.
  destruct p as [|c1 [|c2 [|c3 r3]]]; simpl; trivial.
  - destruct t as [|c2 [|c3 t]]; simpl; intros H;
      repeat (apply orb_false_iff in H; destruct H as [? H]);
      rewrite orb_false_r; assumption.
  - destruct t as [|c3 t]; simpl; intros H;
      repeat (apply orb_false_iff in H; destruct H as [? H]);
      repeat match goal with E : _ = false |- _ => rewrite E; clear E end;
      reflexivity.
Qed.

Lemma trimStartL_idempotent (l : list ascii) :
  trimStartL (trimStartL l) = trimStartL l.
Proof.
  apply strip_idempotent.
Qed.

Lemma trimEndL_idempotent (l : list ascii) :
  trimEndL (trimEndL l) = trimEndL l.
Proof.
  unfold trimEndL. rewrite rev_involutive, strip_idempotent. reflexivity.
Qed.

(** Stripping the end of bytes stripped at the start leaves their start
    stripped. *)
Lemma trimStartL_trimEndL (l : list ascii) :
  trimStartL (trimEndL (trimStartL l)) = trimEndL (trimStartL l).
Proof.
  apply strip_fixed.
  set (m := trimStartL l).
  assert (opens isSpace isSpace2 isSpace3 m = false) as Hm
    by apply strip_opens.
  unfold trimEndL.
  destruct (strip_suffix isSpace (fun c2 c1 => isSpace2 c1 c2)
              (fun c3 c2 c1 => isSpace3 c1 c2 c3) (rev m)) as [h Hh].
  apply (opens_prefix _ _ _ _ (rev h)).
  rewrite <- rev_app_distr, <- Hh, rev_involutive. exact Hm.
Qed.

Lemma trim_idempotent (s : string) : trim (trim s) = trim s.
Proof.
  unfold trim. rewrite list_ascii_of_string_of_list_ascii.
  rewrite trimStartL_trimEndL, trimEndL_idempotent. reflexivity.
Qed.

(** ** Task review *)

Section TaskReview.

Variable rt : Runtime.
Variable employee : Employee.t.

(** X20.  In the manager's review list only a pending task can be
    reviewed: the row of a task already approved or commented has no
    button, and no review of it changes the state.  The review of a
    pending row (the first task of its id) stores the outcome on the task,
    with the reviewer's id and the time of the review: approved, without a
    comment; commented, with the trimmed comment; or approved with the
    trimmed comment, and without one when the comment is blank.  A
    comment that is blank is not sent. *)
Theorem taskReview_only_pending (now : Z) (row : nat) (state : HRMState)
    (task : Task.t) :
  nth_error (TaskReviewView.teamTasks rt employee now state) row = Some task ->
  (Task.status task <> TaskPending ->
   forall how,
     perform (TaskReviewView.review rt employee now row how) state = state)
  /\ (Task.status task = TaskPending ->
      taskById (Task.id task) state = Some task ->
      (exists task',
         taskById (Task.id task)
           (perform
              (TaskReviewView.review rt employee now row
                 TaskReviewView.Approve)
              state)
         = Some task'
         /\ Task.status task' = TaskApproved
         /\ Task.managerComment task' = None
         /\ Task.reviewedBy task' = Some (Employee.id employee)
         /\ Task.reviewedAt task' = Some now)
      /\ (forall comment,
            trim comment <> "" ->
            exists task',
              taskById (Task.id task)
                (perform
                   (TaskReviewView.review rt employee now row
                      (TaskReviewView.Comment comment))
                   state)
              = Some task'
              /\ Task.status task' = TaskCommented
              /\ Task.managerComment task' = Some (trim comment)
              /\ Task.reviewedBy task' = Some (Employee.id employee)
              /\ Task.reviewedAt task' = Some now)
      /\ (forall comment,
            exists task',
              taskById (Task.id task)
                (perform
                   (TaskReviewView.review rt employee now row
                      (TaskReviewView.ApproveWithComment comment))
                   state)
              = Some task'
              /\ Task.status task' = TaskApproved
              /\ (trim comment <> "" ->
                  Task.managerComment task' = Some (trim comment))
              /\ (trim comment = "" -> Task.managerComment task' = None)
              /\ Task.reviewedBy task' = Some (Employee.id employee)
              /\ Task.reviewedAt task' = Some now)
      /\ (forall comment,
            trim comment = "" ->
            perform
              (TaskReviewView.review rt employee now row
                 (TaskReviewView.Comment comment))
              state
            = state)).
Proof.
  intros Hrow.
  unfold perform, TaskReviewView.review, TaskReviewView.clickApprove,
    TaskReviewView.handleSubmitComment, TaskReviewView.approveWithComment,
    TaskReviewView.pendingRow, TaskLogger.isPending.
  rewrite Hrow. split.
  - intros Hst how.
    destruct (Task.status task); [congruence | | ]; destruct how; reflexivity.
  - intros Hst Hfirst. rewrite Hst. unfold taskById in *.
    split; [|split; [|split]].
    + unfold ManagerView.handleApproveTask.
      cbn [handleUpdateState tasks withAudit withTasks].
      rewrite find_map_same by (intros x Hx; exact Hx).
      rewrite Hfirst. eexists. split; [reflexivity|].
      conjuncts; reflexivity.
    + intros comment Hc.
      assert (truthy (trim comment) = true) as Htr
        by (apply not_false_is_true; rewrite truthy_false; exact Hc).
      rewrite Htr. unfold ManagerView.handleCommentTask.
      assert (trim (trim comment) = trim comment) as Hidem
        by apply trim_idempotent.
      rewrite Hidem, Htr. cbn [negb].
      cbn [handleUpdateState tasks withAudit withTasks].
      rewrite find_map_same by (intros x Hx; exact Hx).
      rewrite Hfirst. eexists. split; [reflexivity|].
      conjuncts; reflexivity.
    + intros comment. unfold ManagerView.handleApproveTask.
      cbn [handleUpdateState tasks withAudit withTasks].
      rewrite find_map_same by (intros x Hx; exact Hx).
      rewrite Hfirst. eexists. split; [reflexivity|].
      cbn [Task.status Task.managerComment Task.reviewedBy Task.reviewedAt].
      conjuncts; try reflexivity.
      * intros Hc.
        assert (truthy (trim comment) = true) as ->
          by (apply not_false_is_true; rewrite truthy_false; exact Hc).
        reflexivity.
      * intros Hc. rewrite Hc. reflexivity.
    + intros comment Hc.
      assert (truthy (trim comment) = false) as ->
        by (rewrite truthy_false; exact Hc).
      reflexivity.
Qed.

End TaskReview.

(** ** Login *)

Section Login.

Variable toLowerCase : string -> string.

Lemma holds_matches (email password : string) (emp : Employee.t) :
  LoginScreen.holds toLowerCase email password emp = true
  <-> matches toLowerCase email password emp.
Proof.
  unfold LoginScreen.holds, matches.
  rewrite andb_true_iff, !String.eqb_eq. tauto.
Qed.

(** The first element of a list that passes a test. *)
Lemma find_first {A} (p : A -> bool) (l : list A) (x : A) :
  find p l = Some x
  <-> exists before after,
        l = before ++ x :: after
        /\ p x = true
        /\ forall y, In y before -> p y = false.
Proof.
  split.
  - revert x. induction l as [|a l IH]; intros x H; [discriminate|].
    simpl in H. destruct (p a) eqn:E.
    + injection H as <-. exists [], l. split; [reflexivity|].
      split; [exact E|]. intros y [].
    + destruct (IH x H) as (before & after & -> & Hx & Hb).
      exists (a :: before), after. split; [reflexivity|].
      split; [exact Hx|]. intros y [<-|Hy]; [exact E | exact (Hb y Hy)].
  - intros (before & after & -> & Hx & Hb).
    induction before as [|a before IH]; simpl.
    + rewrite Hx. reflexivity.
    + rewrite (Hb a (or_introl eq_refl)). apply IH.
      intros y Hy. apply Hb. right. exact Hy.
Qed.

(** X21.  A login with an empty field is refused.  With both fields
    filled in, the login goes through exactly when some employee has the
    email, compared without regard to the case of its letters, and the
    very password: the employee logged in is the first such one in the
    list, whoever matches after, and the login is refused when there is
    none.  Two emails with the same lower case log in alike. *)
Theorem login_sound_complete (employees : list Employee.t)
    (email password : string) :
  let handleLogin := LoginScreen.handleLogin toLowerCase employees in
  (email = "" \/ password = "" ->
   handleLogin email password
   = LoginScreen.Refused "Please enter both email and password")
  /\ (email <> "" -> password <> "" ->
      (forall before emp after,
         employees = before ++ emp :: after ->
         matches toLowerCase email password emp ->
         (forall other,
            In other before -> ~ matches toLowerCase email password other) ->
         handleLogin email password
         = LoginScreen.LoggedIn (Employee.id emp)
             ("Welcome back, " ^^ Employee.name emp ^^ "!"))
      /\ (forall employeeId toast,
            handleLogin email password
            = LoginScreen.LoggedIn employeeId toast ->
            exists before emp after,
              employees = before ++ emp :: after
              /\ matches toLowerCase email password emp
              /\ (forall other,
                    In other before ->
                    ~ matches toLowerCase email password other)
              /\ employeeId = Employee.id emp)
      /\ ((forall emp,
             In emp employees -> ~ matches toLowerCase email password emp) ->
          handleLogin email password
          = LoginScreen.Refused "Invalid email or password"))
  /\ (forall email',
        toLowerCase email' = toLowerCase email ->
        email <> "" -> email' <> "" ->
        handleLogin email' password = handleLogin email password).
Proof.
  intros handleLogin. unfold handleLogin, LoginScreen.handleLogin.
  split; [|split].
  - intros [->| ->]; [reflexivity|]. rewrite orb_true_r. reflexivity.
  - intros He Hp.
    assert (truthy email = true) as ->
      by (apply not_false_is_true; rewrite truthy_false; exact He).
    assert (truthy password = true) as ->
      by (apply not_false_is_true; rewrite truthy_false; exact Hp).
    cbn [negb orb]. split; [|split].
    + intros before emp after Hlist Hemp Hbefore.
      assert (find (LoginScreen.holds toLowerCase email password) employees
              = Some emp) as ->; [|reflexivity].
      apply find_first. exists before, after. split; [exact Hlist|].
      split; [apply holds_matches; exact Hemp|].
      intros other Hin.
      destruct (LoginScreen.holds toLowerCase email password other) eqn:E;
        [|reflexivity].
      apply holds_matches in E. exfalso. exact (Hbefore other Hin E).
    + intros employeeId toast H.
      destruct (find _ employees) as [emp|] eqn:Hf; [|discriminate].
      injection H as <- _.
      apply find_first in Hf. destruct Hf as (before & after & Hl & Hx & Hb).
      exists before, emp, after. split; [exact Hl|].
      split; [apply holds_matches; exact Hx|]. split; [|reflexivity].
      intros other Hin Hm. apply holds_matches in Hm.
      rewrite (Hb other Hin) in Hm. discriminate.
    + intros Hnone.
      destruct (find _ employees) as [emp|] eqn:Hf; [|reflexivity].
      apply find_some in Hf. destruct Hf as [Hin Hx].
      apply holds_matches in Hx. exfalso. exact (Hnone emp Hin Hx).
  - intros email' Hlow He He'.
    assert (truthy email = true) as ->
      by (apply not_false_is_true; rewrite truthy_false; exact He).
    assert (truthy email' = true) as ->
      by (apply not_false_is_true; rewrite truthy_false; exact He').
    unfold LoginScreen.holds. rewrite Hlow. reflexivity.
Qed.

End Login.

(** ** CSV export *)

Section CsvExport.

Lemma append_assoc (a b c : string) : (a ^^ b) ^^ c = a ^^ b ^^ c.
Proof.
  induction a as [|x a IH]; simpl; [reflexivity|]. rewrite IH. reflexivity.
Qed.

Lemma append_empty (a : string) : a ^^ "" = a.
Proof.
  induction a as [|x a IH]; simpl; [reflexivity|]. rewrite IH. reflexivity.
Qed.

Lemma includes_app (c : ascii) (a b : string) :
  Csv.includes c (a ^^ b) = Csv.includes c a || Csv.includes c b.
Proof.
  induction a as [|x a IH]; simpl; [reflexivity|].
  rewrite IH, orb_assoc. reflexivity.
Qed.

Lemma text_rev (s : string) (field : list ascii) :
  Csv.text (rev (list_ascii_of_string s) ++ field)
  = string_of_list_ascii (rev field) ^^ s.
Proof.
  unfold Csv.text. rewrite rev_app_distr, rev_involutive.
  induction (rev field) as [|x l IH]; simpl.
  - apply string_of_list_ascii_of_string.
  - rewrite IH. reflexivity.
Qed.

(** An unquoted text without comma, quote or line feed is read as it
    is. *)
Lemma read_bare (s rest : string) (field : list ascii) (row : list string) :
  Csv.includes Csv.comma s = false ->
  Csv.includes Csv.quote s = false ->
  Csv.includes Csv.lineFeed s = false ->
  Csv.read Csv.Bare field row (s ^^ rest)
  = Csv.read Csv.Bare (rev (list_ascii_of_string s) ++ field) row rest.
Proof.
  revert field. induction s as [|x s IH]; intros field Hc Hq Hl;
    [reflexivity|].
  simpl in Hc, Hq, Hl.
  apply orb_false_iff in Hc, Hq, Hl.
  destruct Hc as [Hc Hc'], Hq as [Hq Hq'], Hl as [Hl Hl'].
  simpl. rewrite Hc, Hl, Hq, (IH (x :: field) Hc' Hq' Hl').
  rewrite <- app_assoc. reflexivity.
Qed.

(** A text between quotes, its quotes doubled, is read up to the closing
    quote. *)
Lemma read_quoted (s rest : string) (field : list ascii) (row : list string) :
  Csv.read Csv.Quoted field row
    (Csv.doubleQuotes s ^^ String Csv.quote rest)
  = Csv.read Csv.Closed (rev (list_ascii_of_string s) ++ field) row rest.
Proof.
  revert field. induction s as [|x s IH]; intros field; [reflexivity|].
  simpl Csv.doubleQuotes. destruct (x =? Csv.quote)%char eqn:E.
  - apply Ascii.eqb_eq in E. subst x. simpl.
    rewrite (IH (Csv.quote :: field)), <- app_assoc. reflexivity.
  - simpl. rewrite E, (IH (x :: field)), <- app_assoc. reflexivity.
Qed.

(** A cell, then the end of the text, a comma or a line feed. *)
Lemma read_cell (value : Csv.Value) (row : list string) :
  Csv.readable value = true ->
  Csv.read Csv.Bare [] row (Csv.cell value) = [rev (Csv.shown value :: row)]
  /\ (forall rest,
        Csv.read Csv.Bare [] row (Csv.cell value ^^ String Csv.comma rest)
        = Csv.read Csv.Bare [] (Csv.shown value :: row) rest)
  /\ (forall rest,
        Csv.read Csv.Bare [] row (Csv.cell value ^^ String Csv.lineFeed rest)
        = rev (Csv.shown value :: row) :: Csv.read Csv.Bare [] [] rest).
Proof.
  intros Hr.
  assert (forall s,
            Csv.includes Csv.comma s = false ->
            Csv.includes Csv.quote s = false ->
            Csv.includes Csv.lineFeed s = false ->
            Csv.read Csv.Bare [] row s = [rev (s :: row)]
            /\ (forall rest,
                  Csv.read Csv.Bare [] row (s ^^ String Csv.comma rest)
                  = Csv.read Csv.Bare [] (s :: row) rest)
            /\ (forall rest,
                  Csv.read Csv.Bare [] row (s ^^ String Csv.lineFeed rest)
                  = rev (s :: row) :: Csv.read Csv.Bare [] [] rest))
    as Hbare.
  { intros s Hc Hq Hl.
    pose proof (text_rev s []) as Ht. simpl in Ht.
    split; [|split].
    - rewrite <- (append_empty s) at 1.
      rewrite (read_bare s "" [] row Hc Hq Hl). simpl. rewrite Ht.
      reflexivity.
    - intros rest. rewrite (read_bare s _ [] row Hc Hq Hl). simpl.
      rewrite Ht. reflexivity.
    - intros rest. rewrite (read_bare s _ [] row Hc Hq Hl). simpl.
      rewrite Ht. reflexivity. }
  destruct value as [s|joined]; simpl in Hr |- *.
  - destruct (Csv.includes Csv.comma s || Csv.includes Csv.quote s) eqn:E.
    + pose proof (text_rev s []) as Ht. simpl in Ht.
      split; [|split]; [|intros rest..]; simpl;
        rewrite ?append_assoc; simpl; rewrite read_quoted; simpl;
        rewrite Ht; reflexivity.
    + simpl in Hr. apply negb_true_iff, orb_false_iff in Hr.
      apply orb_false_iff in E. apply Hbare; tauto.
  - unfold Csv.plain in Hr.
    apply negb_true_iff in Hr. rewrite !orb_false_iff in Hr.
    apply Hbare; tauto.
Qed.

(** A record, then the end of the text or a line feed. *)
Lemma read_line (values : list Csv.Value) (row : list string) :
  values <> [] ->
  (forall value, In value values -> Csv.readable value = true) ->
  Csv.read Csv.Bare [] row (Csv.line values)
  = [rev row ++ map Csv.shown values]
  /\ (forall rest,
        Csv.read Csv.Bare [] row (Csv.line values ^^ String Csv.lineFeed rest)
        = (rev row ++ map Csv.shown values) :: Csv.read Csv.Bare [] [] rest).
Proof.
  revert row. induction values as [|value values IH]; intros row Hne Hall;
    [congruence|].
  assert (Csv.readable value = true) as Hv by (apply Hall; left; reflexivity).
  destruct (read_cell value row Hv) as (Hend & Hcomma & Hfeed).
  destruct values as [|value' values].
  - unfold Csv.line. simpl. split; [exact Hend | exact Hfeed].
  - assert (Csv.line (value :: value' :: values)
            = Csv.cell value ^^ String Csv.comma (Csv.line (value' :: values)))
      as -> by reflexivity.
    destruct (IH (Csv.shown value :: row)) as (IHend & IHfeed);
      [discriminate | intros v Hin; apply Hall; right; exact Hin |].
    split; [|intros rest]; rewrite ?append_assoc; simpl append;
      rewrite Hcomma; [rewrite IHend | rewrite IHfeed]; simpl rev;
      rewrite <- app_assoc; reflexivity.
Qed.

(** Records between line feeds. *)
Lemma read_lines (rows : list (list Csv.Value)) :
  rows <> [] ->
  (forall values,
     In values rows ->
     values <> []
     /\ forall value, In value values -> Csv.readable value = true) ->
  Csv.readCsv (join Csv.newline (map Csv.line rows))
  = map (map Csv.shown) rows.
Proof.
  unfold Csv.readCsv.
  induction rows as [|values rows IH]; intros Hne Hall; [congruence|].
  destruct (Hall values (or_introl eq_refl)) as [Hv Hr].
  destruct (read_line values [] Hv Hr) as (Hend & Hfeed).
  destruct rows as [|values' rows].
  - simpl. exact Hend.
  - assert (join Csv.newline (map Csv.line (values :: values' :: rows))
            = Csv.line values
              ^^ String Csv.lineFeed
                   (join Csv.newline (map Csv.line (values' :: rows))))
      as -> by reflexivity.
    rewrite Hfeed, IH; [reflexivity | discriminate |].
    intros v Hin. apply Hall. right. exact Hin.
Qed.


End CsvExport.

(** ** The server routes *)

Section ServerRoutes.

Variable kv : Server.Kv.
Variable json : Server.JsonOps.

Local Abbreviation postInit := (Server.postInit kv json).
Local Abbreviation postData := (Server.postData kv json).
Local Abbreviation postReset := (Server.postReset kv json).
Local Abbreviation getData := (Server.getData kv json).

(** X23.  The init route writes only into an empty store: when the store
    already holds data, a request to initialize it is answered with
    initialized: false and the store is left as it is; on an empty store
    the data sent is stored and the answer is initialized: true, after
    which a further init, with whatever data, changes nothing. *)
Theorem init_writes_once (data data' : Server.Json json)
    (store : Server.Store kv) :
  (forall k v s, Server.get kv k (Server.set kv k v s) = Some v) ->
  Server.isTruthy json data = true ->
  Server.isTruthy json data' = true ->
  Server.stringify json data <> "" ->
  (forall text,
     Server.get kv Server.key store = Some text -> text <> "" ->
     postInit (Some data) store
     = (Server.SuccessReply json (Some "Data already initialized")
          (Some false),
        store))
  /\ (Server.get kv Server.key store = None ->
      fst (postInit (Some data) store)
      = Server.SuccessReply json (Some "Data initialized successfully")
          (Some true)
      /\ Server.get kv Server.key (snd (postInit (Some data) store))
         = Some (Server.stringify json data)
      /\ postInit (Some data') (snd (postInit (Some data) store))
         = (Server.SuccessReply json (Some "Data already initialized")
              (Some false),
            snd (postInit (Some data) store))).
Proof.
  intros Hkv Hd Hd' Hs.
  assert (forall d st text,
            Server.isTruthy json d = true ->
            Server.get kv Server.key st = Some text -> text <> "" ->
            postInit (Some d) st
            = (Server.SuccessReply json (Some "Data already initialized")
                 (Some false), st)) as Hkeep.
  { intros d st text Ht Hget Hne. unfold Server.postInit, Server.missing.
    rewrite Ht, Hget. unfold Server.absent.
    assert (truthy text = true) as ->
      by (apply not_false_is_true; rewrite truthy_false; exact Hne).
    reflexivity. }
  split.
  - intros text Hget Hne. exact (Hkeep data store text Hd Hget Hne).
  - intros Hnone.
    assert (postInit (Some data) store
            = (Server.SuccessReply json
                 (Some "Data initialized successfully") (Some true),
               Server.set kv Server.key (Server.stringify json data) store))
      as Hinit.
    { unfold Server.postInit, Server.missing. rewrite Hd, Hnone.
      reflexivity. }
    rewrite Hinit. cbn [fst snd].
    split; [reflexivity|]. split; [apply Hkv|].
    exact (Hkeep data' _ _ Hd' (Hkv _ _ _) Hs).
Qed.

(** X24.  What is saved is what is read: after a save or a reset with
    data that JSON writes and reads back unchanged, the data route
    answers with that data; and a save, reset or init request whose data
    field is missing or falsy is answered with status 400 and leaves the
    store as it is. *)
Theorem save_then_read (data : Server.Json json) (store : Server.Store kv) :
  (forall k v s, Server.get kv k (Server.set kv k v s) = Some v) ->
  Server.isTruthy json data = true ->
  Server.stringify json data <> "" ->
  Server.parse json (Server.stringify json data) = data ->
  getData (snd (postData (Some data) store))
  = Server.DataReply json (Some data)
  /\ getData (snd (postReset (Some data) store))
     = Server.DataReply json (Some data)
  /\ forall body,
       Server.missing json body = true ->
       postData body store
       = (Server.ErrorReply json 400 "Missing data field in request body",
          store)
       /\ postReset body store
          = (Server.ErrorReply json 400 "Missing data field in request body",
             store)
       /\ postInit body store
          = (Server.ErrorReply json 400 "Missing data field in request body",
             store).
Proof.
  intros Hkv Hd Hs Hparse.
  assert (forall st,
            Server.get kv Server.key st
            = Some (Server.stringify json data) ->
            getData st = Server.DataReply json (Some data)) as Hread.
  { intros st Hget. unfold Server.getData. rewrite Hget.
    unfold Server.absent.
    assert (truthy (Server.stringify json data) = true) as ->
      by (apply not_false_is_true; rewrite truthy_false; exact Hs).
    cbn [negb orDefault]. rewrite Hparse. reflexivity. }
  split; [|split].
  - apply Hread. unfold Server.postData, Server.missing. rewrite Hd.
    apply Hkv.
  - apply Hread. unfold Server.postReset, Server.missing. rewrite Hd.
    apply Hkv.
  - intros body Hmissing.
    unfold Server.postData, Server.postReset, Server.postInit.
    destruct body as [d|]; [rewrite Hmissing|]; conjuncts; reflexivity.
Qed.

End ServerRoutes.

(** ** The sync manager *)

Section Sync.

Variable json : Server.JsonOps.

Local Abbreviation run := (SyncManager.run json).

Lemma syncInvariant_run (events : list (SyncManager.Event json))
    (m : SyncManager.t) (delivered : list (Server.Json json)) :
  syncInvariant json m delivered ->
  syncInvariant json (fst (run events m delivered))
    (snd (run events m delivered)).
Proof.
  revert m delivered.
  induction events as [|e events IH]; intros m delivered Hinv;
    [exact Hinv|].
  simpl. destruct (SyncManager.step json e m) as [m' d] eqn:Hstep.
  apply IH. destruct Hinv as (Hrun & Hlast & Hrep).
  unfold syncInvariant.
  destruct e as [timer| |data]; simpl in Hstep.
  - injection Hstep as <- <-. unfold SyncManager.start.
    destruct (SyncManager.isEnabled m) eqn:E; simpl; conjuncts;
      trivial; congruence.
  - injection Hstep as <- <-. unfold SyncManager.stop.
    destruct (SyncManager.syncInterval m) eqn:E; simpl; rewrite ?E;
      conjuncts; trivial; congruence.
  - unfold SyncManager.received in Hstep.
    destruct data as [x|];
      [|injection Hstep as <- <-; conjuncts; trivial].
    destruct (Server.isTruthy json x);
      [|injection Hstep as <- <-; conjuncts; trivial].
    destruct (Server.stringify json x === SyncManager.lastDataHash m) eqn:E;
      simpl in Hstep; injection Hstep as <- <-.
    + conjuncts; trivial.
    + simpl. split; [exact Hrun|]. split; [reflexivity|].
      destruct delivered as [|y delivered]; [exact I|].
      simpl in *. split; [|exact Hrep].
      apply String.eqb_neq in E. congruence.
Qed.

(** X25.  A sync manager is running exactly when it holds a timer: this
    holds after any run of starts, stops and responses.  A start while
    running changes nothing, so that no second timer is ever set; and a
    stop of a manager reached by such a run leaves it not running. *)
Theorem syncManager_running (events : list (SyncManager.Event json))
    (timer timer' : Z) (m0 : SyncManager.t) :
  let m := fst (run events SyncManager.initial []) in
  SyncManager.isRunning m = isSome (SyncManager.syncInterval m)
  /\ SyncManager.isRunning (SyncManager.stop m) = false
  /\ SyncManager.isRunning (SyncManager.start timer m) = true
  /\ SyncManager.start timer' (SyncManager.start timer m0)
     = SyncManager.start timer m0.
Proof.
  intros m.
  destruct (syncInvariant_run events SyncManager.initial [])
    as (Hrun & _); [unfold syncInvariant; simpl; auto|].
  fold m in Hrun. unfold SyncManager.isRunning.
  split; [exact Hrun|]. split; [|split].
  - unfold SyncManager.stop.
    destruct (SyncManager.syncInterval m) eqn:E; [reflexivity|].
    rewrite Hrun. reflexivity.
  - unfold SyncManager.start.
    destruct (SyncManager.isEnabled m) eqn:E; [exact E | reflexivity].
  - unfold SyncManager.start.
    destruct (SyncManager.isEnabled m0) eqn:E; simpl; rewrite ?E;
      reflexivity.
Qed.

(** X26.  The sync manager hands the shared state to the application only
    when it has changed: over any run of starts, stops and responses, no
    two consecutive deliveries carry the same serialized data, and the
    manager remembers the serialization of the latest delivery, a stop
    and a new start included. *)
Theorem syncManager_delivers_changes
    (events : list (SyncManager.Event json)) :
  let m := fst (run events SyncManager.initial []) in
  let delivered := snd (run events SyncManager.initial []) in
  noRepeat (map (Server.stringify json) delivered)
  /\ SyncManager.lastDataHash m
     = hd "" (map (Server.stringify json) delivered)
  /\ forall data,
       Server.stringify json data = SyncManager.lastDataHash m ->
       SyncManager.received json (Some data) m = (m, None).
Proof.
  intros m delivered.
  destruct (syncInvariant_run events SyncManager.initial [])
    as (_ & Hlast & Hrep); [unfold syncInvariant; simpl; auto|].
  fold m in Hlast. fold delivered in Hlast, Hrep.
  split; [exact Hrep|]. split; [exact Hlast|].
  intros data Hsame. unfold SyncManager.received.
  destruct (Server.isTruthy json data); [|reflexivity].
  rewrite Hsame, String.eqb_refl. reflexivity.
Qed.

End Sync.

(** ** The further theorems at work in the example company *)

Section WorkedFurther.

Import Examples.

Lemma oneLogPerDay_NoDup (state : HRMState) :
  NoDup (map (fun l => (TimeLog.employeeId l, TimeLog.date l))
           (timeLogs state)) ->
  oneLogPerDay state.
Proof.
  unfold oneLogPerDay, logsOfDay. intros Hnd e d.
  induction (timeLogs state) as [|l logs IH]; simpl; [lia|].
  inversion Hnd as [|? ? Hnotin Hnd']; subst.
  destruct ((TimeLog.employeeId l === e) && (TimeLog.date l === d)) eqn:E;
    [|apply IH, Hnd'].
  apply andb_true_iff in E. destruct E as [He Hd].
  apply String.eqb_eq in He, Hd. subst e d.
  destruct (filter _ logs) as [|x r] eqn:Hf; [simpl; lia|].
  exfalso. apply Hnotin.
  assert (In x (filter
                  (fun log =>
                     (TimeLog.employeeId log === TimeLog.employeeId l)
                     && (TimeLog.date log === TimeLog.date l)) logs)) as Hx
    by (rewrite Hf; left; reflexivity).
  apply filter_In in Hx. destruct Hx as [Hin Hk].
  apply andb_true_iff in Hk. destruct Hk as [Hk1 Hk2].
  apply String.eqb_eq in Hk1, Hk2.
  apply in_map_iff. exists x. split; [congruence | exact Hin].
Defined.

Lemma example_oneLogPerDay : oneLogPerDay state.
Proof.
  apply oneLogPerDay_NoDup. simpl.
  repeat constructor; simpl; intuition discriminate.
Defined.

Lemma checkIn_once_witness :
  EmployeeView.todayTimeLog sara today state = None
  /\ option_map TimeLog.checkIn
       (EmployeeView.todayTimeLog sara today
          (perform (EmployeeView.handleCheckIn sara today now) state))
     = Some (Some now)
  /\ perform (EmployeeView.handleCheckIn sara today (now + 1))
       (perform (EmployeeView.handleCheckIn sara today now) state)
     = perform (EmployeeView.handleCheckIn sara today now) state.
Proof.
  destruct (checkIn_once sara today now (now + 1) state)
    as (Hnew & _ & Hsame).
  destruct (Hnew eq_refl) as (_ & Hday).
  split; [reflexivity|]. split; [rewrite Hday; reflexivity | exact Hsame].
Defined.

Lemma oneLogPerDay_preserved_witness :
  oneLogPerDay state
  /\ oneLogPerDay
       (perform (handlerOf Utc.runtime sara today now CheckIn) state).
Proof.
  split; [exact example_oneLogPerDay|].
  exact (oneLogPerDay_preserved Utc.runtime sara today now CheckIn state
           example_oneLogPerDay).
Defined.

Lemma breakStart_opens_one_witness :
  EmployeeView.todayTimeLog ali today Day.morning = Some Day.morningLog
  /\ TimeLog.checkOut Day.morningLog = None
  /\ openBreaks Day.morningLog = []
  /\ exists log1,
       EmployeeView.todayTimeLog ali today
         (perform (EmployeeView.handleBreakIn ali today now) Day.morning)
       = Some log1
       /\ openBreaks log1 = [BreakLog.mk now None].
Proof.
  destruct (breakStart_opens_one ali today now Day.morning Day.morningLog
              eq_refl eq_refl eq_refl) as (log1 & Hday & _ & Hopen & _).
  conjuncts; try reflexivity. exists log1. split; assumption.
Defined.

Lemma break_start_end_witness :
  EmployeeView.todayTimeLog ali today Day.morning = Some Day.morningLog
  /\ TimeLog.checkOut Day.morningLog = None
  /\ openBreaks Day.morningLog = []
  /\ exists log2,
       EmployeeView.todayTimeLog ali today
         (perform (EmployeeView.handleBreakOut ali today (now + 1800000))
            (perform (EmployeeView.handleBreakIn ali today now) Day.morning))
       = Some log2
       /\ TimeLog.breaks log2 = [BreakLog.mk now (Some (now + 1800000))].
Proof.
  destruct (break_start_end ali today now (now + 1800000) 0 Day.morning
              Day.morningLog eq_refl eq_refl eq_refl)
    as (log2 & Hday & Hbreaks & _).
  conjuncts; try reflexivity. exists log2. split; assumption.
Defined.

Lemma example_tasks : EmployeeView.myTasks ali today Day.morning <> [].
Proof.
  simpl. discriminate.
Defined.

Lemma break_reduces_hours_witness :
  EmployeeView.todayTimeLog ali today Day.morning = Some Day.morningLog
  /\ TimeLog.checkOut Day.morningLog = None
  /\ openBreaks Day.morningLog = []
  /\ EmployeeView.myTasks ali today Day.morning <> []
  /\ exists log3,
       EmployeeView.todayTimeLog ali today
         (perform (EmployeeView.handleCheckOut Utc.runtime ali today now)
            (perform
               (EmployeeView.handleBreakOut ali today (nineOClock + 7200000))
               (perform
                  (EmployeeView.handleBreakIn ali today
                     (nineOClock + 3600000))
                  Day.morning)))
       = Some log3
       /\ (TimeLog.totalHours log3 == 8)%Q.
Proof.
  destruct (break_reduces_hours Utc.runtime ali today (nineOClock + 3600000)
              (nineOClock + 7200000) now Day.morning Day.morningLog
              eq_refl eq_refl eq_refl example_tasks)
    as (log3 & Hday & Hhours & _).
  conjuncts; try reflexivity; [exact example_tasks|].
  exists log3. split; [exact Hday|]. rewrite Hhours. reflexivity.
Defined.

Lemma display_after_checkOut_witness :
  EmployeeView.todayTimeLog ali today Day.morning = Some Day.morningLog
  /\ TimeLog.checkIn Day.morningLog = Some nineOClock
  /\ TimeLog.checkOut Day.morningLog = None
  /\ openBreaks Day.morningLog = []
  /\ EmployeeView.myTasks ali today Day.morning <> []
  /\ exists log',
       EmployeeView.todayTimeLog ali today
         (perform (EmployeeView.handleCheckOut Utc.runtime ali today now)
            Day.morning)
       = Some log'
       /\ TimeTracking.calculateHoursWorked (now + 86400000) (Some log')
          = TimeLog.totalHours log'.
Proof.
  destruct (display_after_checkOut Utc.runtime ali today now nineOClock
              Day.morning Day.morningLog eq_refl eq_refl eq_refl eq_refl
              example_tasks) as (log' & Hday & Hshown).
  conjuncts; try reflexivity; [exact example_tasks|].
  exists log'. split; [exact Hday | apply Hshown].
Defined.

Lemma display_follows_clock_witness :
  TimeLog.checkIn dayLog = Some nineOClock
  /\ TimeLog.checkOut dayLog = None
  /\ openBreaks dayLog = [BreakLog.mk 1708016400000 None]
  /\ TimeTracking.calculateHoursWorked now (Some dayLog)
     = TimeTracking.calculateHoursWorked (now + 3600000) (Some dayLog)
  /\ openBreaks Day.morningLog = []
  /\ (TimeTracking.calculateHoursWorked now (Some Day.morningLog)
      <= TimeTracking.calculateHoursWorked (now + 3600000)
           (Some Day.morningLog))%Q.
Proof.
  destruct (display_follows_clock dayLog nineOClock now (now + 3600000)
              eq_refl eq_refl) as (_ & Hbreak).
  destruct (display_follows_clock Day.morningLog nineOClock now
              (now + 3600000) eq_refl eq_refl) as (Hwork & _).
  split; [reflexivity|]. split; [reflexivity|]. split; [reflexivity|].
  split; [exact (Hbreak _ eq_refl)|]. split; [reflexivity|].
  apply Hwork; [reflexivity | lia].
Defined.

Lemma example_saraEntry :
  payrollById (PayrollEntry.id Day.saraEntry) Day.processed
  = Some Day.saraEntry.
Proof.
  reflexivity.
Defined.

Lemma payrollEdit_recomputes_witness :
  payrollById (PayrollEntry.id Day.saraEntry) Day.processed
  = Some Day.saraEntry
  /\ PayrollEntry.p_id Day.correction = None
  /\ exists p,
       payrollById (PayrollEntry.id Day.saraEntry)
         (perform
            (PayrollManagementView.edit admin now Day.saraEntry
               Day.correction)
            Day.processed)
       = Some p
       /\ (PayrollEntry.regularHours p == 85)%Q
       /\ (PayrollEntry.regularPay p == 425000)%Q
       /\ PayrollEntry.totalPay p
          = (PayrollEntry.regularPay p + PayrollEntry.overtimePay p)%Q.
Proof.
  destruct (payrollEdit_recomputes admin now Day.saraEntry Day.correction
              Day.processed example_saraEntry eq_refl) as (Hedit & _).
  destruct (Hedit sara eq_refl)
    as (p & Hp & Hreg & _ & Hpay & _ & _ & Htotal & _).
  conjuncts; try reflexivity.
  exists p. split; [exact Hp|].
  split; [rewrite Hreg; reflexivity|].
  split; [rewrite Hpay, Hreg; reflexivity | exact Htotal].
Defined.

Lemma example_payConsistent : payConsistent state.
Proof.
  intros p [].
Defined.

Lemma payConsistent_preserved_witness :
  payConsistent state
  /\ payConsistent Day.processed
  /\ payConsistent
       (perform
          (PayrollManagementView.edit admin now Day.saraEntry Day.correction)
          Day.processed).
Proof.
  destruct (payConsistent_preserved Utc.runtime admin now month Day.saraEntry
              Day.correction state example_payConsistent) as (Hproc & _).
  destruct (payConsistent_preserved Utc.runtime admin now month Day.saraEntry
              Day.correction Day.processed Hproc) as (_ & Hedit).
  split; [exact example_payConsistent|]. split; assumption.
Defined.

Lemma multiplier_applies_witness :
  In sara (employees state)
  /\ payrollEntryOf (Employee.id sara) month (payrollEntries state) = None
  /\ ~ (2 == 0)%Q
  /\ exists p,
       AdminView.payrollEntryFor Utc.runtime admin (now + 1) month
         (perform
            (fun _ =>
               AdminView.handleUpdateOvertimeSettings Utc.runtime admin now
                 (Employee.id sara) 2)
            state)
         sara
       = [p]
       /\ PayrollEntry.overtimePay p
          = (PayrollEntry.overtimeHours p * Employee.hourlyRate sara * 2)%Q.
Proof.
  assert (In sara (employees state)) as Hin by (simpl; tauto).
  assert (~ (2 == 0)%Q) as Hnz by discriminate.
  destruct (multiplier_applies Utc.runtime admin now (now + 1) month 2 state
              sara Hin eq_refl Hnz) as (p & Hp & _ & _ & Hpay).
  conjuncts; trivial.
  exists p. split; [exact Hp | exact Hpay].
Defined.

Lemma example_unused :
  unusedEmployeeId ("emp_" ^^ showInt now) state.
Proof.
  unfold unusedEmployeeId. simpl.
  conjuncts; intros x Hx; intuition (subst; discriminate).
Defined.

Lemma create_delete_roundtrip_witness :
  unusedEmployeeId ("emp_" ^^ showInt now) state
  /\ employees
       (perform
          (AdminView.handleDeleteEmployee admin (now + 1)
             ("emp_" ^^ showInt now))
          (perform (fun _ => AdminView.handleCreateEmployee admin now sara)
             state))
     = employees state.
Proof.
  destruct (create_delete_roundtrip admin now (now + 1) sara state
              example_unused) as (Hemps & _).
  split; [exact example_unused | exact Hemps].
Defined.

Lemma form_save_undoes_grant_witness :
  employeeById (Employee.id ali) state = Some ali
  /\ Employee.name ali <> "" /\ Employee.email ali <> ""
  /\ Employee.password ali <> ""
  /\ employeeById (Employee.id ali)
       (perform
          (fun _ =>
             EmployeeFormDialog.save admin (now + 1) ali
               (EmployeeFormDialog.formOf ali))
          (perform (fun _ => EmployeeFormDialog.grant admin now ali 2)
             state))
     = Some ali.
Proof.
  assert (Employee.name ali <> "") as H1 by discriminate.
  assert (Employee.email ali <> "") as H2 by discriminate.
  assert (Employee.password ali <> "") as H3 by discriminate.
  destruct (form_save_undoes_grant admin now (now + 1) 2 ali state eq_refl
              H1 H2 H3) as (_ & Hsaved).
  conjuncts; trivial.
Defined.

(** A rate of 0 typed for Ali, and the target of 100 hours picked. *)
Lemma settings_update_sent_witness :
  map (fun e => (Employee.id e, Employee.hourlyRate e,
                 Employee.monthlyHourTarget e))
    (employees
       (perform
          (fun _ =>
             SettingsView.session (fun _ => Some 0%Q) admin now ali
               [SettingsView.TypeRate "0"; SettingsView.ChooseTarget H100])
          state))
  = [("emp_admin", 5000%Q, H80); ("emp_mgr", 5000%Q, H80);
     ("emp_ali", 0%Q, H100); ("emp_sara", 5000%Q, H80)]
  /\ List.length
       (auditLogs
          (perform
             (fun _ =>
                SettingsView.session (fun _ => Some 0%Q) admin now ali
                  [SettingsView.TypeRate "0"; SettingsView.ChooseTarget H100])
             state))
     = 1%nat.
Proof.
  destruct (settings_update_sent admin (fun _ => Some 0%Q) now ali
              [SettingsView.TypeRate "0"; SettingsView.ChooseTarget H100]
              state) as (Hemp & (entry & Haudit & _) & _).
  split.
  - rewrite Hemp. reflexivity.
  - rewrite Haudit. reflexivity.
Defined.

Lemma unknown_id_still_audited_witness :
  employeeById "emp_nobody" state = None
  /\ exists entry,
       perform
         (fun _ => AdminView.handleGrantCompLeave admin now "emp_nobody" 1)
         state
       = withAudit entry state
       /\ AuditLog.entityId entry = "emp_nobody".
Proof.
  destruct (unknown_id_still_audited admin now "emp_nobody" state)
    as (Hemp & _).
  destruct (Hemp eq_refl Day.newRate 1) as (_ & Hgrant & _).
  split; [reflexivity | exact Hgrant].
Defined.

Lemma task_add_delete_witness :
  taskById ("task_" ^^ showInt now) state = None
  /\ tasks
       (perform
          (EmployeeView.handleDeleteTask ali (now + 1)
             ("task_" ^^ showInt now))
          (perform
             (fun _ =>
                EmployeeView.handleAddTask Utc.runtime ali today now
                  "Review" 2)
             state))
     = tasks state.
Proof.
  destruct (task_add_delete Utc.runtime ali today now (now + 1) "Review" 2
              state eq_refl) as (_ & Hback & _).
  split; [reflexivity | exact Hback].
Defined.

Lemma taskLogger_submit_witness :
  trim (noBreakSpace ^^ " Review ") = "Review"
  /\ (0 < 2)%Q
  /\ tasks
       (perform
          (fun _ =>
             TaskLogger.addTask Utc.runtime (fun _ => Some 2%Q) ali today now
               (noBreakSpace ^^ " Review ") "2")
          stateWithoutTasks)
     = [Task.mk "task_1708020000000" "emp_ali" today "Review" 2 TaskPending
          None None None].
Proof.
  assert (trim (noBreakSpace ^^ " Review ") <> "") as H1 by discriminate.
  assert (0 < 2)%Q as H2 by reflexivity.
  assert ("2" <> "") as H3 by discriminate.
  destruct (taskLogger_submit Utc.runtime ali today (fun _ => Some 2%Q) now
              (noBreakSpace ^^ " Review ") "2" stateWithoutTasks)
    as (Hadd & _).
  destruct (Hadd 2%Q H1 eq_refl H2 H3) as (Htasks & _).
  conjuncts; trivial.
Defined.

Lemma taskLogger_delete_locked_witness :
  nth_error (EmployeeView.myTasks ali today state) 0 = Some task
  /\ Task.status task = TaskPending
  /\ taskById (Task.id task)
       (perform (TaskLogger.deleteTask ali today now 0) state)
     = None.
Proof.
  destruct (taskLogger_delete_locked ali today now 0 state task eq_refl)
    as (_ & Hdel).
  destruct (Hdel eq_refl) as (_ & Hgone).
  conjuncts; trivial.
Defined.

Lemma taskReview_only_pending_witness :
  nth_error (TaskReviewView.teamTasks Utc.runtime manager now state) 0
  = Some task
  /\ Task.status task = TaskPending
  /\ taskById (Task.id task) state = Some task
  /\ trim (noBreakSpace ^^ " Redo the totals " ^^ noBreakSpace)
     = "Redo the totals"
  /\ exists task',
       taskById (Task.id task)
         (perform
            (TaskReviewView.review Utc.runtime manager now 0
               (TaskReviewView.Comment
                  (noBreakSpace ^^ " Redo the totals " ^^ noBreakSpace)))
            state)
       = Some task'
       /\ Task.status task' = TaskCommented
       /\ Task.managerComment task' = Some "Redo the totals"
       /\ Task.reviewedAt task' = Some now.
Proof.
  destruct (taskReview_only_pending Utc.runtime manager now 0 state task
              eq_refl) as (_ & Hreview).
  destruct (Hreview eq_refl eq_refl) as (_ & Hcomment & _).
  destruct (Hcomment (noBreakSpace ^^ " Redo the totals " ^^ noBreakSpace))
    as (task' & Hafter & Hst & Hc & _ & Hat); [discriminate|].
  conjuncts; trivial. exists task'. conjuncts; assumption.
Defined.

Lemma login_sound_complete_witness :
  "EMP_ALI@harphrm.com" <> "" /\ "secret" <> ""
  /\ LoginScreen.handleLogin LoginScreen.asciiLowerCase (employees state)
       "EMP_ALI@harphrm.com" "secret"
     = LoginScreen.LoggedIn "emp_ali" "Welcome back, Ali!".
Proof.
  assert ("EMP_ALI@harphrm.com" <> "") as H1 by discriminate.
  assert ("secret" <> "") as H2 by discriminate.
  destruct (login_sound_complete LoginScreen.asciiLowerCase (employees state)
              "EMP_ALI@harphrm.com" "secret") as (_ & Hlogin & _).
  destruct (Hlogin H1 H2) as (Hfirst & _).
  split; [exact H1|]. split; [exact H2|].
  apply (Hfirst [admin; manager] ali [sara] eq_refl).
  - split; reflexivity.
  - intros other [<-|[<-|[]]] [Hmail _]; discriminate.
Defined.


Lemma example_get_set (k v : string) (s : Server.Store Server.tableKv) :
  Server.get Server.tableKv k (Server.set Server.tableKv k v s) = Some v.
Proof.
  simpl. rewrite String.eqb_refl. reflexivity.
Defined.

Lemma init_writes_once_witness :
  Server.get Server.tableKv Server.key Day.emptyStore = None
  /\ Server.get Server.tableKv Server.key
       (snd (Server.postInit Server.tableKv Server.textJson (Some "first")
               Day.emptyStore))
     = Some "[first]"
  /\ snd (Server.postInit Server.tableKv Server.textJson (Some "second")
            (snd (Server.postInit Server.tableKv Server.textJson
                    (Some "first") Day.emptyStore)))
     = snd (Server.postInit Server.tableKv Server.textJson (Some "first")
              Day.emptyStore).
Proof.
  assert (Server.stringify Server.textJson "first" <> "") as Hs
    by discriminate.
  destruct (init_writes_once Server.tableKv Server.textJson "first" "second"
              Day.emptyStore example_get_set eq_refl eq_refl Hs)
    as (_ & Hinit).
  destruct (Hinit eq_refl) as (_ & Hstored & Hagain).
  split; [reflexivity|]. split; [exact Hstored|].
  exact (f_equal snd Hagain).
Defined.

Lemma save_then_read_witness :
  Server.parse Server.textJson (Server.stringify Server.textJson "state")
  = "state"
  /\ Server.getData Server.tableKv Server.textJson
       (snd (Server.postData Server.tableKv Server.textJson (Some "state")
               Day.emptyStore))
     = Server.DataReply Server.textJson (Some "state").
Proof.
  assert (Server.stringify Server.textJson "state" <> "") as Hs
    by discriminate.
  destruct (save_then_read Server.tableKv Server.textJson "state"
              Day.emptyStore example_get_set eq_refl Hs eq_refl)
    as (Hread & _).
  split; [reflexivity | exact Hread].
Defined.

End WorkedFurther.
